(** * KAMAR client (src/index.js): decoders, dispatch and vCard export

    A shallow embedding of the [KAMAR] class of [src/index.js].  JavaScript
    values are an inductive type, property reads that can raise a TypeError
    live in an error monad, and a promise is the state its executor leaves
    behind ([resolve] and [reject] only act on a pending promise). *)

From Stdlib Require Import String Ascii List Bool Arith ZArith Lia.
From Stdlib Require Import Numbers.DecimalString.
Import ListNotations.
Local Open Scope list_scope.
Local Open Scope string_scope.
Set Warnings "-register-all".

(** ** Strings *)

Module Str.

Definition of_nat (n : nat) : string := NilEmpty.string_of_uint (Nat.to_uint n).

Definition of_Z (n : Z) : string := NilEmpty.string_of_int (Z.to_int n).

Definition chr (c : ascii) : string := String c EmptyString.

(** [s.split(sep)] for a one-character separator: never the empty list,
    [''.split('-')] is [['']]. *)
Fixpoint split (sep : ascii) (s : string) : list string :=
  match s with
  | EmptyString => [EmptyString]
  | String c s' =>
      if Ascii.eqb c sep then EmptyString :: split sep s'
      else match split sep s' with
           | w :: ws => String c w :: ws
           | [] => [chr c]
           end
  end.

(** [xs.join(sep)] on an array of strings is [String.concat]. *)
Definition join (sep : string) (xs : list string) : string := String.concat sep xs.

(** Does [c] occur in [s]? *)
Fixpoint has (c : ascii) (s : string) : bool :=
  match s with
  | EmptyString => false
  | String d s' => Ascii.eqb d c || has c s'
  end.

(** Number of occurrences of [c] in [s]. *)
Fixpoint count (c : ascii) (s : string) : nat :=
  match s with
  | EmptyString => 0
  | String d s' => (if Ascii.eqb d c then 1 else 0) + count c s'
  end.

(** [s.includes(needle)]: [needle] occurs somewhere in [s]. *)
Fixpoint includes (needle s : string) : bool :=
  String.prefix needle s ||
  match s with
  | EmptyString => false
  | String _ s' => includes needle s'
  end.

(** [s.replace(/c/g, r)]: every occurrence of the character [c] becomes [r]. *)
Fixpoint replace_all (c : ascii) (r : string) (s : string) : string :=
  match s with
  | EmptyString => EmptyString
  | String d s' =>
      (if Ascii.eqb d c then r else chr d) ++ replace_all c r s'
  end.

Definition LF : ascii := "010"%char.
Definition BACKSLASH : ascii := "092"%char.
Definition DQUOTE : ascii := "034"%char.

End Str.

(** ** JavaScript values *)

Inductive value : Type :=
| VUndef
| VNull
| VBool (b : bool)
| VNum (n : Z)
| VStr (s : string)
| VArr (xs : list value)
| VObj (fields : list (string * value))
| VError (name msg : string).

(** A computation that returns or throws a JavaScript value. *)
Inductive outcome (A : Type) : Type :=
| Ok (a : A)
| Throw (e : value).
Arguments Ok {A} a.
Arguments Throw {A} e.

Definition bind {A B : Type} (m : outcome A) (k : A -> outcome B) : outcome B :=
  match m with
  | Ok a => k a
  | Throw e => Throw e
  end.

Notation "x <- m ;; k" := (bind m (fun x => k))
  (at level 61, m at next level, right associativity).

(** Reading a property of [undefined], or calling a method a value does not
    have, raises a TypeError (its message is not modelled). *)
Definition type_error : value := VError "TypeError" "".

Module JS.

(** ToBoolean. *)
Definition truthy (v : value) : bool :=
  match v with
  | VUndef | VNull => false
  | VBool b => b
  | VNum n => negb (Z.eqb n 0)
  | VStr s => negb (String.eqb s "")
  | VArr _ | VObj _ | VError _ _ => true
  end.

(** [a || b]. *)
Definition or (a b : value) : value := if truthy a then a else b.

(** ToString; an array joins its elements with commas, [undefined] and
    [null] elements as the empty string.  Numbers are integers, printed in
    decimal (the exponent notation of very large numbers is not modelled). *)
Fixpoint to_string (v : value) : string :=
  match v with
  | VUndef => "undefined"
  | VNull => "null"
  | VBool true => "true"
  | VBool false => "false"
  | VNum n => Str.of_Z n
  | VStr s => s
  | VArr xs =>
      Str.join ","
        (map (fun x => match x with
                       | VUndef | VNull => ""
                       | _ => to_string x
                       end) xs)
  | VObj _ => "[object Object]"
  | VError name msg => if String.eqb msg "" then name else name ++ ": " ++ msg
  end.

Fixpoint assoc (k : string) (fs : list (string * value)) : value :=
  match fs with
  | [] => VUndef
  | (k', v) :: fs' => if String.eqb k k' then v else assoc k fs'
  end.

(** [o[k] = v] on an object: overwrite in place or append. *)
Fixpoint set_field (k : string) (v : value) (fs : list (string * value))
  : list (string * value) :=
  match fs with
  | [] => [(k, v)]
  | (k', v') :: fs' =>
      if String.eqb k k' then (k, v) :: fs' else (k', v') :: set_field k v fs'
  end.

(** The index a property name denotes in a sequence of length [n]. *)
Definition index_of_key (k : string) (n : nat) : option nat :=
  find (fun i => String.eqb (Str.of_nat i) k) (seq 0 n).

Definition char_at (s : string) (i : nat) : value :=
  match String.get i s with
  | Some c => VStr (Str.chr c)
  | None => VUndef
  end.

(** [v[k]] / [v.k] for a string key.  Own properties only: what the
    source calls as methods ([split], [substring], [replace], [join]) are
    separate functions below. *)
Definition get (v : value) (k : string) : outcome value :=
  match v with
  | VUndef | VNull => Throw type_error
  | VObj fs => Ok (assoc k fs)
  | VArr xs =>
      if String.eqb k "length" then Ok (VNum (Z.of_nat (List.length xs)))
      else match index_of_key k (List.length xs) with
           | Some i => Ok (nth i xs VUndef)
           | None => Ok VUndef
           end
  | VStr s =>
      if String.eqb k "length" then Ok (VNum (Z.of_nat (String.length s)))
      else match index_of_key k (String.length s) with
           | Some i => Ok (char_at s i)
           | None => Ok VUndef
           end
  | VError name msg =>
      if String.eqb k "message" then Ok (VStr msg)
      else if String.eqb k "name" then Ok (VStr name)
      else Ok VUndef
  | VBool _ | VNum _ => Ok VUndef
  end.

(** [v[i]] for a literal index. *)
Definition idx (v : value) (i : nat) : outcome value :=
  match v with
  | VUndef | VNull => Throw type_error
  | VArr xs => Ok (nth i xs VUndef)
  | VStr s => Ok (char_at s i)
  | VObj fs => Ok (assoc (Str.of_nat i) fs)
  | VBool _ | VNum _ | VError _ _ => Ok VUndef
  end.

(** [Object.keys(v)]: the fields of an object in the order they were
    added (no field of the documents handled here is named by a number,
    which would come first). *)
Definition keys (v : value) : outcome (list string) :=
  match v with
  | VUndef | VNull => Throw type_error
  | VObj fs => Ok (map fst fs)
  | VArr xs => Ok (map Str.of_nat (seq 0 (List.length xs)))
  | VStr s => Ok (map Str.of_nat (seq 0 (String.length s)))
  | VBool _ | VNum _ | VError _ _ => Ok []
  end.

(** [v.split(sep)]: only strings have the method. *)
Definition split (v : value) (sep : ascii) : outcome (list value) :=
  match v with
  | VStr s => Ok (map VStr (Str.split sep s))
  | _ => Throw type_error
  end.

(** [xs.length = n]: truncate, or extend with holes, which read as
    [undefined]. *)
Definition set_length (n : nat) (xs : list value) : list value :=
  firstn n xs ++ repeat VUndef (n - List.length xs).

(** [v.substring(0, n)]. *)
Definition substring0 (v : value) (n : nat) : outcome value :=
  match v with
  | VStr s => Ok (VStr (String.substring 0 n s))
  | _ => Throw type_error
  end.

End JS.

(** ** Promises

    The state a promise is left in by the code that holds its [resolve] and
    [reject]: the first call settles it, later calls do nothing. *)

Inductive promise : Type :=
| Pending
| Fulfilled (v : value)
| Rejected (e : value).

Definition resolve (v : value) (p : promise) : promise :=
  match p with
  | Pending => Fulfilled v
  | _ => p
  end.

Definition reject (e : value) (p : promise) : promise :=
  match p with
  | Pending => Rejected e
  | _ => p
  end.

(** A call [resolve(a, b, ...)]: the resolving function reads its first
    argument only, [undefined] when there is none. *)
Definition resolve_call (args : list value) (p : promise) : promise :=
  resolve (hd VUndef args) p.

(** [new Promise((resolve, reject) => src.then(cb).catch(err => reject(err)))]
    where [cb] ends by settling the new promise: a rejection of [src] and an
    exception of [cb] both reach [reject]. *)
Definition then_catch (src : promise) (cb : value -> outcome (promise -> promise))
  : promise :=
  match src with
  | Pending => Pending
  | Rejected e => Rejected e
  | Fulfilled v =>
      match cb v with
      | Ok settle => settle Pending
      | Throw e => Rejected e
      end
  end.

(** Same, for a callback that also updates the instance it closes over.
    When the callback throws, the assignments it had reached are kept; the
    callbacks below assign [this.WkNo] as their last step before settling,
    so a throw leaves the instance as it was. *)
Definition then_catch_st {S : Type} (src : promise)
  (cb : value -> S -> outcome (S * (promise -> promise))) (s : S) : S * promise :=
  match src with
  | Pending => (s, Pending)
  | Rejected e => (s, Rejected e)
  | Fulfilled v =>
      match cb v s with
      | Ok (s', settle) => (s', settle Pending)
      | Throw e => (s, Rejected e)
      end
  end.

Fixpoint mapM {A B : Type} (f : A -> outcome B) (l : list A) : outcome (list B) :=
  match l with
  | [] => Ok []
  | a :: l' => b <- f a ;; bs <- mapM f l' ;; Ok (b :: bs)
  end.

(** The values [v[0]], ..., [v[v.length - 1]] a loop
    [for (i = 0; i < v.length; i++)] visits.  Arrays and strings are exact.
    On any other object the bound is its own [length] when that is a number
    and the loop body never runs otherwise (ToNumber of a non-number
    [length] is not modelled; the deserializer produces no such object). *)
Definition elements (v : value) : outcome (list value) :=
  match v with
  | VUndef | VNull => Throw type_error
  | VArr xs => Ok xs
  | VStr s => Ok (map (JS.char_at s) (seq 0 (String.length s)))
  | VObj fs =>
      match JS.assoc "length" fs with
      | VNum n => Ok (map (fun i => JS.assoc (Str.of_nat i) fs) (seq 0 (Z.to_nat n)))
      | _ => Ok []
      end
  | VBool _ | VNum _ | VError _ _ => Ok []
  end.

(** ** The KAMAR class *)

Module KAMAR.

(** What the surroundings supply: [version] from package.json, the clock
    behind [new Date()], and the remote end of [request] followed by
    [parseString]: for the options of a request, the error of the HTTP
    call, the error of the XML parser and the parsed document. *)
Record reply := { req_err : value; parse_err : value; parsed : value }.

Record env := {
  version : string;
  fullYear : Z;
  isoNow : string;
  wire : value -> reply
}.

(** [this]: [WkNo] is absent until [getAbsences] assigns it a number. *)
Record session := {
  year : value;
  TT : value;
  portal : value;
  UserAgent : value;
  WkNo : option nat
}.

Definition set_WkNo (n : nat) (this : session) : session :=
  {| year := year this; TT := TT this; portal := portal this;
     UserAgent := UserAgent this; WkNo := Some n |}.

(** [credentials]: the object the caller passes, with the three properties
    the methods read. *)
Record credentials := {
  username : value;
  key : value;
  authLevel : value
}.

(** [a + b] when one operand is a string. *)
Definition cat (a b : value) : value := VStr (JS.to_string a ++ JS.to_string b).

Definition constructor (E : env) (options : value) : outcome session :=
  if negb (JS.truthy options) then Throw (VError "Error" "No options provided")
  else
    p <- JS.get options "portal" ;;
    if negb (JS.truthy p) then
      Throw (VError "Error"
               "portal URL must be provided. e.g. `remote.takapuna.school.nz` ")
    else
      y <- JS.get options "year" ;;
      let year := JS.or y (VNum (fullYear E)) in
      t <- JS.get options "TT" ;;
      let TT := JS.or t (cat year (VStr "TT")) in
      ua <- JS.get options "UserAgent" ;;
      Ok {| year := year; TT := TT; portal := p;
            UserAgent :=
              JS.or ua (VStr ("Katal API for KAMAR v" ++ version E
                              ++ " (Cargo 3.69) [http://git.io/katal]"));
            WkNo := None |}.

(** *** fetch *)

Definition request_options (this : session) (form : value) : value :=
  VObj [("uri", VStr ("https://" ++ JS.to_string (portal this) ++ "/api/api.php"));
        ("method", VStr "POST");
        ("form", form);
        ("headers",
          VObj [("content-type", VStr "application/x-www-form-urlencoded");
                ("user-agent", UserAgent this)])].

(** The test of [result[thing].Error] and, when it holds, the call of
    [reject] with the error object.  Building that object reads
    [ErrorCode[0]] and can throw. *)
Definition check_error (result : value) : outcome (promise -> promise) :=
  ks <- JS.keys result ;;
  let thing := hd "undefined" ks in
  body <- JS.get result thing ;;
  e <- JS.get body "Error" ;;
  if JS.truthy e then
    e0 <- JS.idx e 0 ;;
    ec <- JS.get body "ErrorCode" ;;
    c0 <- JS.idx ec 0 ;;
    Ok (reject (VObj [("error", e0); ("code", c0)]))
  else Ok (fun p => p).

(** The callback given to [parseString].  No branch returns early, so
    [resolve(result)] runs after a [reject] too, and then does nothing.
    An exception escapes the callback and leaves the promise as it is. *)
Definition on_parsed (err result : value) (p : promise) : promise :=
  let p1 := if JS.truthy err then reject err p else p in
  match check_error result with
  | Ok settle => resolve result (settle p1)
  | Throw _ => p1
  end.

(** The callback given to [request]. *)
Definition on_response (r : reply) (p : promise) : promise :=
  let p1 := if JS.truthy (req_err r) then reject (req_err r) p else p in
  on_parsed (parse_err r) (parsed r) p1.

Definition fetch (E : env) (this : session) (form : value) : promise :=
  on_response (wire E (request_options this form)) Pending.

(** *** getAbsences *)

Definition daysManifest : list string := Str.split " " "Mon Tue Wed Thu Fri".

(** [daysManifest[j]] used as a property name. *)
Definition day_key (j : nat) : string :=
  match nth_error daysManifest j with
  | Some k => k
  | None => "undefined"
  end.

(** [(days[j]._ || '----------').substring(0, 7)] *)
Definition day_status (d : value) : outcome value :=
  t <- JS.get d "_" ;;
  JS.substring0 (JS.or t (VStr "----------")) 7.

(** The inner loop, from index [j] on. *)
Fixpoint fill_days (j : nat) (days : list value) (entry : list (string * value))
  : outcome (list (string * value)) :=
  match days with
  | [] => Ok entry
  | d :: ds =>
      st <- day_status d ;;
      fill_days (S j) ds (JS.set_field (day_key j) st entry)
  end.

(** One round of the outer loop: [Absences[i]] from [Ar[i]]. *)
Definition decode_week (w : value) : outcome value :=
  ws <- JS.get w "WeekStart" ;;
  ws0 <- JS.idx ws 0 ;;
  dd <- JS.get w "Days" ;;
  d0 <- JS.idx dd 0 ;;
  days <- JS.get d0 "Day" ;;
  ds <- elements days ;;
  entry <- fill_days 0 ds [("$", ws0)] ;;
  Ok (VObj entry).

Definition absences_form (this : session) (c : credentials) : value :=
  VObj [("Command", VStr "GetStudentAttendance");
        ("Key", key c);
        ("StudentID", username c);
        ("Grid", TT this)].

Definition no_absences : value := VStr "No Absences setup, assuming week 1".

(** The [then] callback of [getAbsences]. *)
Definition absences_cb (response : value) (this : session)
  : outcome (session * (promise -> promise)) :=
  sar <- (if JS.truthy response then JS.get response "StudentAttendanceResults"
          else Ok response) ;;
  wks <- (if JS.truthy sar then JS.get sar "Weeks" else Ok sar) ;;
  if negb (JS.truthy wks) then Ok (set_WkNo 1 this, reject no_absences)
  else
    w0 <- JS.idx wks 0 ;;
    Ar <- JS.get w0 "Week" ;;
    weeks <- elements Ar ;;
    Absences <- mapM decode_week weeks ;;
    Ok (set_WkNo (List.length Absences) this, resolve (VArr Absences)).

(** A call of a method: the instance afterwards, the promise it returned
    (as it ends up) and the forms it passed to [fetch]. *)
Record call := { self : session; returned : promise; issued : list value }.

Definition getAbsences (E : env) (this : session) (c : credentials) : call :=
  let form := absences_form this c in
  let (this', p) := then_catch_st (fetch E this form) absences_cb this in
  {| self := this'; returned := p; issued := [form] |}.

(** *** getTimeTable *)

Definition must_fetch_absences : string :=
  "You must fetch the Absences before you can download the TimeTable - see https://github.com/TGS-App/API/issues/1".

(** [!thisWkNo]: absent, or the number 0. *)
Definition no_week (w : option nat) : bool :=
  match w with
  | None => true
  | Some n => Nat.eqb n 0
  end.

(** The form [file]: the teacher's when
    [credentials.authLevel && credentials.authLevel == 10] holds, the
    student's otherwise.  [eq10 v] stands for the comparison [v == 10], of
    which nothing is assumed. *)
Definition timetable_form (eq10 : value -> bool) (this : session) (c : credentials)
  : value :=
  if JS.truthy (authLevel c) && eq10 (authLevel c) then
    VObj [("Command", VStr "GetTeacherTimetable");
          ("Key", key c);
          ("Grid", TT this);
          ("Tchr", username c)]
  else
    VObj [("Command", VStr "GetStudentTimetable");
          ("Key", key c);
          ("StudentID", username c);
          ("Grid", TT this)].

(** [{subject: Px[2], location: Px[4] || Px[2], teacher: Px[3]}] with
    [Px = slot.split('-')]. *)
Definition decode_period (slot : value) : outcome value :=
  Px <- JS.split slot "-" ;;
  Ok (VObj [("subject", nth 2 Px VUndef);
            ("location", JS.or (nth 4 Px VUndef) (nth 2 Px VUndef));
            ("teacher", nth 3 Px VUndef)]).

(** The body of the [day] loop once the day's string [raw] is found:
    split, force the length to 8, decode slots 1 to 7 in order, then put
    the label in slot 0.  The result is [HTMout[day]]. *)
Definition decode_day (raw : value) (day : nat) : outcome (list value) :=
  slots <- JS.split raw "|" ;;
  let slots := JS.set_length 8 slots in
  periods <- mapM (fun period => decode_period (nth period slots VUndef)) (seq 1 7) ;;
  Ok (VStr ("D-" ++ Str.of_nat day) :: periods).

(** [TT[0]['W' + WeekNumber][0]['D' + day][0]] *)
Definition day_string (TT : value) (WeekNumber day : nat) : outcome value :=
  t0 <- JS.idx TT 0 ;;
  w <- JS.get t0 ("W" ++ Str.of_nat WeekNumber) ;;
  w0 <- JS.idx w 0 ;;
  d <- JS.get w0 ("D" ++ Str.of_nat day) ;;
  JS.idx d 0.

Definition HTMout_day (TT : value) (WeekNumber day : nat) : outcome (list value) :=
  raw <- day_string TT WeekNumber day ;;
  decode_day raw day.

(** [[h[1], h[2], ..., h[7]]] *)
Definition periods_of (h : list value) : value :=
  VArr (map (fun period => nth period h VUndef) (seq 1 7)).

(** [response.StudentTimetableResults.Students[0].Student[0].TimetableData] *)
Definition timetable_data (response : value) : outcome value :=
  r <- JS.get response "StudentTimetableResults" ;;
  ss <- JS.get r "Students" ;;
  s0 <- JS.idx ss 0 ;;
  st <- JS.get s0 "Student" ;;
  st0 <- JS.idx st 0 ;;
  JS.get st0 "TimetableData".

Definition getTimetableForWeek (response : value) (thisWkNo weekOffset : nat)
  : outcome value :=
  TT <- timetable_data response ;;
  let WeekNumber := thisWkNo + weekOffset in
  h1 <- HTMout_day TT WeekNumber 1 ;;
  h2 <- HTMout_day TT WeekNumber 2 ;;
  h3 <- HTMout_day TT WeekNumber 3 ;;
  h4 <- HTMout_day TT WeekNumber 4 ;;
  h5 <- HTMout_day TT WeekNumber 5 ;;
  Ok (VObj [("$weekNo", VNum (Z.of_nat WeekNumber));
            ("MO", periods_of h1);
            ("TU", periods_of h2);
            ("WE", periods_of h3);
            ("TH", periods_of h4);
            ("FR", periods_of h5)]).

(** The [then] callback of [getTimeTable]. *)
Definition timetable_cb (thisWkNo : nat) (response : value)
  : outcome (promise -> promise) :=
  thisWk <- getTimetableForWeek response thisWkNo 0 ;;
  nextWk <- getTimetableForWeek response thisWkNo 1 ;;
  Ok (resolve (VObj [("thisWk", thisWk); ("nextWk", nextWk)])).

(** [getTimeTable]; the [console.warn] that goes with the refusal is not
    part of the result. *)
Definition getTimeTable (eq10 : value -> bool) (E : env) (this : session)
  (c : credentials) : call :=
  if no_week (WkNo this) then
    {| self := this;
       returned := Rejected (VError "Error" must_fetch_absences);
       issued := [] |}
  else
    let thisWkNo := match WkNo this with Some n => n | None => 0 end in
    let file := timetable_form eq10 this c in
    {| self := this;
       returned := then_catch (fetch E this file) (timetable_cb thisWkNo);
       issued := [file] |}.

(** *** getResults: colourGrade *)

(** [grade.match(/Achieve(ment|d)/)] *)
Definition matches_achieve (grade : string) : bool :=
  Str.includes "Achievement" grade || Str.includes "Achieved" grade.

(** [colourGrade]: the pair [[orgGrade, grade]] and what it printed with
    [console.log].  A string pattern without special characters matches
    where it occurs as a substring.  Only a string has [match]. *)
Definition colourGrade (orgGrade : value) : outcome (value * list (list value)) :=
  match orgGrade with
  | VStr grade =>
      if Str.includes "Excellence" grade then Ok (VArr [orgGrade; VStr "E"], [])
      else if Str.includes "Merit" grade then Ok (VArr [orgGrade; VStr "M"], [])
      else if Str.includes "Not" grade then Ok (VArr [orgGrade; VStr "N"], [])
      else if matches_achieve grade then Ok (VArr [orgGrade; VStr "A"], [])
      else Ok (VArr [orgGrade; VStr grade], [[VStr "Incomprehensible"; VStr grade]])
  | _ => Throw type_error
  end.

(** *** getNCEASummary *)

Definition cols : list string :=
  Str.split " " "NotAchieved Achieved Merit Excellence Total Attempted".

(** [(!(s[i] && s[i][col]) ? '' : s[i][col][0])], as the string it adds. *)
Definition tt_cell (si : value) (col : string) : outcome string :=
  f <- (if JS.truthy si then JS.get si col else Ok si) ;;
  if negb (JS.truthy f) then Ok ""
  else f0 <- JS.idx f 0 ;; Ok (JS.to_string f0).

(** The inner loop of [tt]: [r[i] += '<td>' + ... + '</td>'] per column. *)
Fixpoint tt_cells (si : value) (cs : list string) (ri : string) : outcome string :=
  match cs with
  | [] => Ok ri
  | col :: cs' =>
      c <- tt_cell si col ;;
      tt_cells si cs' (ri ++ "<td>" ++ c ++ "</td>")
  end.

Definition tt_row (yt : string) (si : value) : outcome string :=
  l <- JS.get si yt ;;
  l0 <- JS.idx l 0 ;;
  tt_cells si cols ("<td><strong>" ++ JS.to_string l0 ++ "</strong></td>").

Definition tt (student : value) (yt : string) : outcome string :=
  t <- JS.get student (yt ++ "Totals") ;;
  t0 <- JS.idx t 0 ;;
  s <- JS.get t0 (yt ++ "Total") ;;
  rows <- elements s ;;
  r <- mapM (tt_row yt) rows ;;
  Ok ("<tr>" ++ Str.join "</tr><tr>" r ++ "</tr>").

(** [!test[0].f ? '' : src[0].f] *)
Definition credit_cell (test src : value) (f : string) : outcome value :=
  t0 <- JS.idx test 0 ;;
  t <- JS.get t0 f ;;
  if negb (JS.truthy t) then Ok (VStr "")
  else s0 <- JS.idx src 0 ;; JS.get s0 f.

Definition blank6 : value := VArr (repeat (VStr "") 6).

(** The [Internal] and [External] entries: every cell tests and reads
    the same bucket. *)
Definition credits_of (bucket : value) : outcome value :=
  if JS.truthy bucket then
    cells <- mapM (credit_cell bucket bucket) cols ;; Ok (VArr cells)
  else Ok blank6.

(** The [Total] entry: the Merit cell tests [CreditsInternal]. *)
Definition credits_total (student : value) : outcome value :=
  total <- JS.get student "CreditsTotal" ;;
  if JS.truthy total then
    internal <- JS.get student "CreditsInternal" ;;
    c0 <- credit_cell total total "NotAchieved" ;;
    c1 <- credit_cell total total "Achieved" ;;
    c2 <- credit_cell internal total "Merit" ;;
    c3 <- credit_cell total total "Excellence" ;;
    c4 <- credit_cell total total "Total" ;;
    c5 <- credit_cell total total "Attempted" ;;
    Ok (VArr [c0; c1; c2; c3; c4; c5])
  else Ok blank6.

(** [[label, $.NCEA[0].field[0]]] *)
Definition qualification_row (student : value) (label : value) (field : string)
  : outcome value :=
  n <- JS.get student "NCEA" ;;
  n0 <- JS.idx n 0 ;;
  f <- JS.get n0 field ;;
  f0 <- JS.idx f 0 ;;
  Ok (VArr [label; f0]).

(** The object literal passed as second argument of [resolve]. *)
Definition summary (student : value) : outcome value :=
  q1 <- qualification_row student (VNum 1) "L1NCEA" ;;
  q2 <- qualification_row student (VNum 2) "L2NCEA" ;;
  q3 <- qualification_row student (VNum 3) "L3NCEA" ;;
  q4 <- qualification_row student (VStr "UE Literacy") "NCEAUELIT" ;;
  q5 <- qualification_row student (VStr "L1 Literacy") "NCEAL1LIT" ;;
  q6 <- qualification_row student (VStr "Numeracy") "NCEANUM" ;;
  ci <- JS.get student "CreditsInternal" ;;
  internal <- credits_of ci ;;
  ce <- JS.get student "CreditsExternal" ;;
  external <- credits_of ce ;;
  total <- credits_total student ;;
  y <- tt student "Year" ;;
  l <- tt student "Level" ;;
  Ok (VObj [("qualification", VArr [q1; q2; q3; q4; q5; q6]);
            ("thisYear", VObj [("Internal", internal);
                               ("External", external);
                               ("Total", total)]);
            ("year", VStr y);
            ("level", VStr l)]).

(** [response.StudentNCEASummaryResults.Students[0].Student[0]] *)
Definition summary_student (response : value) : outcome value :=
  r <- JS.get response "StudentNCEASummaryResults" ;;
  ss <- JS.get r "Students" ;;
  s0 <- JS.idx ss 0 ;;
  st <- JS.get s0 "Student" ;;
  JS.idx st 0.

(** The [then] callback of [getNCEASummary]: [resolve(null, {...})]. *)
Definition summary_cb (response : value) : outcome (promise -> promise) :=
  student <- summary_student response ;;
  obj <- summary student ;;
  Ok (resolve_call [VNull; obj]).

Definition summary_form (c : credentials) : value :=
  VObj [("Command", VStr "GetStudentNCEASummary");
        ("Key", key c);
        ("StudentID", username c)].

Definition getNCEASummary (E : env) (this : session) (c : credentials) : call :=
  let form := summary_form c in
  {| self := this;
     returned := then_catch (fetch E this form) summary_cb;
     issued := [form] |}.

(** *** getDetails *)

(** [_.name[0]] *)
Definition leaf (student : value) (name : string) : outcome value :=
  x <- JS.get student name ;;
  JS.idx x 0.

(** [v == s] for a text [s] that does not spell a number. *)
Definition eq_text (v : value) (s : string) : bool :=
  match v with
  | VStr x => String.eqb x s
  | VArr _ | VObj _ | VError _ _ => String.eqb (JS.to_string v) s
  | VUndef | VNull | VBool _ | VNum _ => false
  end.

(** The two glyphs of the source, as their UTF-8 bytes. *)
Definition glyph_male : string := String "236" (String "156" (String "160" "")).
Definition glyph_other : string := String "236" (String "155" (String "131" "")).

(** The object literal [getDetails] resolves with; [student] is [_].  Each
    field is read once, in the order of the literal ([Gender] is read twice
    there, with the same result). *)
Definition details (student : value) : outcome value :=
  FirstName <- leaf student "FirstName" ;;
  ForeNames <- leaf student "ForeNames" ;;
  LastName <- leaf student "LastName" ;;
  StudentID <- leaf student "StudentID" ;;
  Gender <- leaf student "Gender" ;;
  Ethnicity <- leaf student "Ethnicity" ;;
  DateBirth <- leaf student "DateBirth" ;;
  Age <- leaf student "Age" ;;
  NSN <- leaf student "NSN" ;;
  ParentTitle <- leaf student "ParentTitle" ;;
  ParentEmail <- leaf student "ParentEmail" ;;
  ParentSalutation <- leaf student "ParentSalutation" ;;
  HomePhone <- leaf student "HomePhone" ;;
  HomeAddress <- leaf student "HomeAddress" ;;
  ParentTitleB <- leaf student "ParentTitleB" ;;
  ParentEmailB <- leaf student "ParentEmailB" ;;
  ParentSalutationB <- leaf student "ParentSalutationB" ;;
  HomePhoneB <- leaf student "HomePhoneB" ;;
  HomeAddressB <- leaf student "HomeAddressB" ;;
  MotherName <- leaf student "MotherName" ;;
  MotherEmail <- leaf student "MotherEmail" ;;
  MotherPhoneHome <- leaf student "MotherPhoneHome" ;;
  MotherPhoneCell <- leaf student "MotherPhoneCell" ;;
  MotherPhoneWork <- leaf student "MotherPhoneWork" ;;
  MotherOccupation <- leaf student "MotherOccupation" ;;
  MotherWorkAddress <- leaf student "MotherWorkAddress" ;;
  MotherStatus <- leaf student "MotherStatus" ;;
  MotherNotes <- leaf student "MotherNotes" ;;
  FatherName <- leaf student "FatherName" ;;
  FatherEmail <- leaf student "FatherEmail" ;;
  FatherPhoneHome <- leaf student "FatherPhoneHome" ;;
  FatherPhoneCell <- leaf student "FatherPhoneCell" ;;
  FatherPhoneWork <- leaf student "FatherPhoneWork" ;;
  FatherOccupation <- leaf student "FatherOccupation" ;;
  FatherWorkAddress <- leaf student "FatherWorkAddress" ;;
  FatherStatus <- leaf student "FatherStatus" ;;
  FatherNotes <- leaf student "FatherNotes" ;;
  EmergencyName <- leaf student "EmergencyName" ;;
  EmergencyPhoneHome <- leaf student "EmergencyPhoneHome" ;;
  EmergencyPhoneCell <- leaf student "EmergencyPhoneCell" ;;
  EmergencyPhoneWork <- leaf student "EmergencyPhoneWork" ;;
  EmergencyNotes <- leaf student "EmergencyNotes" ;;
  AllowedPanadol <- leaf student "AllowedPanadol" ;;
  AllowedIbuprofen <- leaf student "AllowedIbuprofen" ;;
  HealthFlag <- leaf student "HealthFlag" ;;
  Medical <- leaf student "Medical" ;;
  Reactions <- leaf student "Reactions" ;;
  Vaccinations <- leaf student "Vaccinations" ;;
  SpecialCircumstances <- leaf student "SpecialCircumstances" ;;
  GeneralNotes <- leaf student "GeneralNotes" ;;
  HealthNotes <- leaf student "HealthNotes" ;;
  Ok (VObj [("Names", VArr [FirstName; ForeNames; LastName]);
            ("ID", StudentID);
            ("Gender", VArr [VStr (if eq_text Gender "Male" then glyph_male else glyph_other);
                             Gender]);
            ("Ethnicity", Ethnicity);
            ("Birthday", VArr [DateBirth; Age]);
            ("NSN", NSN);
            ("LifeA", VObj [("Parent", VObj [("Title", ParentTitle);
                                             ("Email", ParentEmail);
                                             ("Name", ParentSalutation)]);
                            ("Phone", HomePhone);
                            ("Address", HomeAddress)]);
            ("LifeB", VObj [("Parent", VObj [("Title", ParentTitleB);
                                             ("Email", ParentEmailB);
                                             ("Name", ParentSalutationB)]);
                            ("Phone", HomePhoneB);
                            ("Address", HomeAddressB)]);
            ("Mother", VObj [("Name", MotherName);
                       ("Email", MotherEmail);
                       ("phHome", MotherPhoneHome);
                       ("phCell", MotherPhoneCell);
                       ("phWork", MotherPhoneWork);
                       ("Job", MotherOccupation);
                       ("Work", MotherWorkAddress);
                       ("Status", MotherStatus);
                       ("Notes", MotherNotes)]);
            ("Father", VObj [("Name", FatherName);
                       ("Email", FatherEmail);
                       ("phHome", FatherPhoneHome);
                       ("phCell", FatherPhoneCell);
                       ("phWork", FatherPhoneWork);
                       ("Job", FatherOccupation);
                       ("Work", FatherWorkAddress);
                       ("Status", FatherStatus);
                       ("Notes", FatherNotes)]);
            ("EmergencyContact", VObj [("Name", EmergencyName);
                                       ("phHome", EmergencyPhoneHome);
                                       ("phCell", EmergencyPhoneCell);
                                       ("phWork", EmergencyPhoneWork);
                                       ("Notes", EmergencyNotes)]);
            ("Allowed_Panadol", VBool (eq_text AllowedPanadol "Y"));
            ("Allowed_Ibuprofen", VBool (eq_text AllowedIbuprofen "Y"));
            ("Health_Flag", VBool (eq_text HealthFlag "Y"));
            ("Medical", JS.or Medical (VStr "No"));
            ("Reactions", Reactions);
            ("Vaccinations", Vaccinations);
            ("Special_Circumstances", SpecialCircumstances);
            ("General_Notes", GeneralNotes);
            ("Health_Notes", HealthNotes)]).

(** [response.StudentDetailsResults.Students[0].Student[0]] *)
Definition details_student (response : value) : outcome value :=
  r <- JS.get response "StudentDetailsResults" ;;
  ss <- JS.get r "Students" ;;
  s0 <- JS.idx ss 0 ;;
  st <- JS.get s0 "Student" ;;
  JS.idx st 0.

Definition details_cb (response : value) : outcome (promise -> promise) :=
  student <- details_student response ;;
  d <- details student ;;
  Ok (resolve d).

Definition details_form (c : credentials) : value :=
  VObj [("Command", VStr "GetStudentDetails");
        ("Key", key c);
        ("StudentID", username c);
        ("PastoralNotes", VStr "")].

Definition getDetails (E : env) (this : session) (c : credentials) : call :=
  let form := details_form c in
  {| self := this;
     returned := then_catch (fetch E this form) details_cb;
     issued := [form] |}.

(** *** makevCardFromDetails *)

(** [x.replace(/\n/g, '\\n')]: each line feed becomes a backslash and
    the letter n.  Only a string has [replace]. *)
Definition escape_lf (x : value) : outcome string :=
  match x with
  | VStr s => Ok (Str.replace_all Str.LF (String "\" "n") s)
  | _ => Throw type_error
  end.

(** The array literal of [makevCardFromDetails], before [join]. *)
Definition vcard_lines (E : env) (this : session) (c : credentials) (d : value)
  : outcome (list string) :=
  names <- JS.get d "Names" ;;
  n2 <- JS.idx names 2 ;;
  n1 <- JS.idx names 1 ;;
  n0 <- JS.idx names 0 ;;
  id <- JS.get d "ID" ;;
  g <- JS.get d "Gender" ;;
  g1 <- JS.idx g 1 ;;
  eth <- JS.get d "Ethnicity" ;;
  lifeA <- JS.get d "LifeA" ;;
  phone <- JS.get lifeA "Phone" ;;
  addr <- JS.get lifeA "Address" ;;
  a1 <- escape_lf addr ;;
  a2 <- escape_lf addr ;;
  b <- JS.get d "Birthday" ;;
  b0 <- JS.idx b 0 ;;
  ec <- JS.get d "EmergencyContact" ;;
  ecn <- JS.get ec "Name" ;;
  ecc <- JS.get ec "phCell" ;;
  Ok ["BEGIN:VCARD";
      "VERSION:4.0";
      "N:" ++ JS.to_string n2 ++ ";" ++ JS.to_string n1 ++ ";;;";
      "NICKNAME:" ++ JS.to_string n0;
      "FN:" ++ JS.to_string n1;
      "ORG:Takapuna Grammar School Student #" ++ JS.to_string id;
      "GENDER:" ++ JS.to_string g1;
      "TITLE:" ++ JS.to_string eth;
      "PHOTO;MEDIATYPE=image/jpeg:https://" ++ JS.to_string (portal this)
        ++ "/api/img.php?Key=" ++ JS.to_string (key c)
        ++ "&Stuid=" ++ JS.to_string id;
      "TEL;TYPE=home,voice;home=uri:" ++ JS.to_string phone;
      "ADR;TYPE=home;home=" ++ String Str.DQUOTE a1 ++ String Str.DQUOTE (":;;" ++ a2);
      "EMAIL:" ++ JS.to_string id ++ "@tgs.school.nz";
      "REV:" ++ isoNow E;
      "BDAY:" ++ JS.to_string b0;
      "NOTE:Emergency Contact: " ++ JS.to_string ecn ++ " (" ++ JS.to_string ecc ++ ")";
      "END:VCARD"].

Definition makevCardFromDetails (E : env) (this : session) (c : credentials)
  (d : value) : outcome string :=
  lines <- vcard_lines E this c d ;;
  Ok (Str.join (Str.chr Str.LF) lines).

(** *** Callbacks that settle and go on

    [src.then(cb).catch(err => reject(err))] for a callback that may call
    [reject] and then continue, since no branch returns: [cb] yields the
    promise as its calls left it and how it ended; an exception it raises
    reaches [reject], which acts only if nothing settled the promise
    before. *)
Definition then_catch_run (src : promise)
  (cb : value -> promise -> promise * outcome unit) : promise :=
  match src with
  | Pending => Pending
  | Rejected e => Rejected e
  | Fulfilled v =>
      match cb v Pending with
      | (p, Ok _) => p
      | (p, Throw e) => reject e p
      end
  end.

(** *** authenticate *)

Definition logon_form (userObj : value) : outcome value :=
  u <- JS.get userObj "username" ;;
  p <- JS.get userObj "password" ;;
  Ok (VObj [("Command", VStr "Logon");
            ("Key", VStr "vtku");
            ("Username", u);
            ("Password", p)]).

(** The [then] callback of [authenticate]; [toNumber] stands for the
    built-in [Number], of which nothing is assumed. *)
Definition logon_cb (toNumber : value -> value) (userObj result : value)
  : outcome (promise -> promise) :=
  lr <- JS.get result "LogonResults" ;;
  s <- JS.get lr "Success" ;;
  yes <- (if JS.truthy s then s0 <- JS.idx s 0 ;; Ok (eq_text s0 "YES")
          else Ok false) ;;
  if yes then
    u <- JS.get userObj "username" ;;
    k <- JS.get lr "Key" ;;
    k0 <- JS.idx k 0 ;;
    ll <- JS.get lr "LogonLevel" ;;
    Ok (resolve (VObj [("username", u); ("key", k0); ("authLevel", toNumber ll)]))
  else
    e <- JS.get lr "Error" ;;
    e0 <- JS.idx e 0 ;;
    Ok (reject e0).

(** Building the form reads [userObj] inside the executor: an exception
    there rejects the promise before anything is sent. *)
Definition authenticate (toNumber : value -> value) (E : env) (this : session)
  (userObj : value) : call :=
  match logon_form userObj with
  | Throw e => {| self := this; returned := Rejected e; issued := [] |}
  | Ok form =>
      {| self := this;
         returned := then_catch (fetch E this form) (logon_cb toNumber userObj);
         issued := [form] |}
  end.

(** *** getAbsencesStatistics *)

Definition stats_form (this : session) (c : credentials) : value :=
  VObj [("Command", VStr "GetStudentAbsenceStats");
        ("Key", key c);
        ("StudentID", username c);
        ("Grid", year this)].

(** [response.StudentAbsenceStatsResults.NumberRecords] *)
Definition stats_records (response : value) : outcome value :=
  sr <- JS.get response "StudentAbsenceStatsResults" ;;
  JS.get sr "NumberRecords".

(** [response.StudentAbsenceStatsResults.Students[0].Student[0]] *)
Definition stats_student (response : value) : outcome value :=
  sr <- JS.get response "StudentAbsenceStatsResults" ;;
  ss <- JS.get sr "Students" ;;
  s0 <- JS.idx ss 0 ;;
  st <- JS.get s0 "Student" ;;
  JS.idx st 0.

Definition no_absence_records : value := VError "Error" "No Absence Records".

(** The [then] callback: [reject] is not followed by [return], so the
    student is read, and [resolve] called, in either case. *)
Definition stats_cb (response : value) (p : promise) : promise * outcome unit :=
  match stats_records response with
  | Throw e => (p, Throw e)
  | Ok n =>
      let p1 := if negb (JS.truthy n) then reject no_absence_records p else p in
      match stats_student response with
      | Ok student => (resolve student p1, Ok Datatypes.tt)
      | Throw e => (p1, Throw e)
      end
  end.

Definition getAbsencesStatistics (E : env) (this : session) (c : credentials) : call :=
  let form := stats_form this c in
  {| self := this;
     returned := then_catch_run (fetch E this form) stats_cb;
     issued := [form] |}.

(** *** getCalendar *)

Definition calendar_form (this : session) : value :=
  VObj [("Command", VStr "GetCalendar");
        ("Year", year this);
        ("Key", VStr "vtku")].

(** [response.CalendarResults.ErrorCode[0]] *)
Definition calendar_code (response : value) : outcome value :=
  cr <- JS.get response "CalendarResults" ;;
  ec <- JS.get cr "ErrorCode" ;;
  JS.idx ec 0.

(** [response.CalendarResults.Days[0].Day] *)
Definition calendar_days (response : value) : outcome value :=
  cr <- JS.get response "CalendarResults" ;;
  dd <- JS.get cr "Days" ;;
  d0 <- JS.idx dd 0 ;;
  JS.get d0 "Day".

(** The object stored for one day. *)
Definition calendar_entry (d : value) : outcome value :=
  s <- JS.get d "Status" ;;
  s0 <- JS.idx s 0 ;;
  t <- JS.get d "DayTT" ;;
  t0 <- JS.idx t 0 ;;
  tm <- JS.get d "Term" ;;
  tm0 <- JS.idx tm 0 ;;
  w <- JS.get d "Week" ;;
  w0 <- JS.idx w 0 ;;
  Ok (VObj [("status", s0);
            ("TTday", JS.or t0 VUndef);
            ("term", JS.or tm0 VUndef);
            ("week", JS.or w0 VUndef)]).

(** The loop [resp[days[i].Date] = {...}]: the key is the text of
    [days[i].Date].  (A key that spells a number would be enumerated before
    the others; the order of the fields of [resp] is exact for the dates of
    a calendar, which do not.) *)
Fixpoint fill_calendar (days : list value) (resp : list (string * value))
  : outcome (list (string * value)) :=
  match days with
  | [] => Ok resp
  | d :: ds =>
      date <- JS.get d "Date" ;;
      e <- calendar_entry d ;;
      fill_calendar ds (JS.set_field (JS.to_string date) e resp)
  end.

Definition decode_calendar (response : value) : outcome value :=
  days <- calendar_days response ;;
  ds <- elements days ;;
  resp <- fill_calendar ds [] ;;
  Ok (VObj resp).

(** The [then] callback; [eq0 v] stands for the comparison [v == 0], of
    which nothing is assumed.  [reject] is not followed by [return]. *)
Definition calendar_cb (eq0 : value -> bool) (response : value) (p : promise)
  : promise * outcome unit :=
  match calendar_code response with
  | Throw e => (p, Throw e)
  | Ok code =>
      let p1 := if negb (eq0 code) then reject code p else p in
      match decode_calendar response with
      | Ok resp => (resolve resp p1, Ok Datatypes.tt)
      | Throw e => (p1, Throw e)
      end
  end.

Definition getCalendar (eq0 : value -> bool) (E : env) (this : session) : call :=
  let form := calendar_form this in
  {| self := this;
     returned := then_catch_run (fetch E this form) (calendar_cb eq0);
     issued := [form] |}.

(** *** getResults *)

Definition results_form (c : credentials) : value :=
  VObj [("Command", VStr "GetStudentResults");
        ("Key", key c);
        ("StudentID", username c)].

(** The object pushed for [Result[i]] in a level whose [NCEALevel] is
    [level], and what [colourGrade] printed. *)
Definition decode_result (eq0 : value -> bool) (level r : value)
  : outcome (value * list (list value)) :=
  t <- JS.get r "Title" ;;
  t0 <- JS.idx t 0 ;;
  g <- JS.get r "Grade" ;;
  g0 <- JS.idx g 0 ;;
  cg <- colourGrade g0 ;;
  dp <- JS.get r "ResultPublished" ;;
  dp0 <- JS.idx dp 0 ;;
  std <- (if negb (eq0 level) then
            n <- JS.get r "Number" ;;
            n0 <- JS.idx n 0 ;;
            v <- JS.get r "Version" ;;
            v0 <- JS.idx v 0 ;;
            Ok (cat (cat n0 (VStr " v")) v0)
          else Ok (VStr "")) ;;
  cr <- JS.get r "Credits" ;;
  cr0 <- JS.idx cr 0 ;;
  credits <- (if negb (eq0 cr0) then
                cp <- JS.get r "CreditsPassed" ;;
                cp0 <- JS.idx cp 0 ;;
                Ok (cat (cat cp0 (VStr "/")) cr0)
              else Ok (VStr "")) ;;
  Ok (VObj [("title", t0);
            ("grade", fst cg);
            ("datePublished", dp0);
            ("NCEAStandard", std);
            ("Credits", credits);
            ("NCEALevel",
              if negb (eq0 level) then cat (VStr "Level ") level else VStr "")],
      snd cg).

(** The inner loop: the records of a level in order, and the lines
    printed. *)
Fixpoint decode_records (eq0 : value -> bool) (level : value) (rs : list value)
  : outcome (list value * list (list value)) :=
  match rs with
  | [] => Ok ([], [])
  | r :: rs' =>
      x <- decode_result eq0 level r ;;
      xs <- decode_records eq0 level rs' ;;
      Ok (fst x :: fst xs, snd x ++ snd xs)%list
  end.

(** [RES[h].Results[0].Result] *)
Definition level_results (lvl : value) : outcome value :=
  rs <- JS.get lvl "Results" ;;
  rs0 <- JS.idx rs 0 ;;
  JS.get rs0 "Result".

(** One round of the outer loop: [ncea[h]], [results[h]] and the lines
    printed. *)
Definition decode_level (eq0 : value -> bool) (lvl : value)
  : outcome ((value * value) * list (list value)) :=
  Result <- level_results lvl ;;
  level <- JS.get lvl "NCEALevel" ;;
  rs <- elements Result ;;
  x <- decode_records eq0 level rs ;;
  Ok ((VBool (negb (eq0 level)), VArr (fst x)), snd x).

Fixpoint decode_levels (eq0 : value -> bool) (levels : list value)
  : outcome ((list value * list value) * list (list value)) :=
  match levels with
  | [] => Ok (([], []), [])
  | lvl :: levels' =>
      x <- decode_level eq0 lvl ;;
      xs <- decode_levels eq0 levels' ;;
      Ok ((fst (fst x) :: fst (fst xs), snd (fst x) :: snd (fst xs)),
          snd x ++ snd xs)%list
  end.

(** [response.StudentResultsResults.ResultLevels[0].ResultLevel] *)
Definition result_levels (response : value) : outcome value :=
  sr <- JS.get response "StudentResultsResults" ;;
  rl <- JS.get sr "ResultLevels" ;;
  rl0 <- JS.idx rl 0 ;;
  JS.get rl0 "ResultLevel".

(** The object [{ncea, results}] and the lines printed on the way. *)
Definition decode_results (eq0 : value -> bool) (response : value)
  : outcome (value * list (list value)) :=
  RES <- result_levels response ;;
  levels <- elements RES ;;
  x <- decode_levels eq0 levels ;;
  Ok (VObj [("ncea", VArr (fst (fst x))); ("results", VArr (snd (fst x)))], snd x).

Definition results_cb (eq0 : value -> bool) (response : value)
  : outcome (promise -> promise) :=
  x <- decode_results eq0 response ;;
  Ok (resolve (fst x)).

Definition getResults (eq0 : value -> bool) (E : env) (this : session)
  (c : credentials) : call :=
  let form := results_form c in
  {| self := this;
     returned := then_catch (fetch E this form) (results_cb eq0);
     issued := [form] |}.

(** *** searchStudents *)

Definition search_form (c : credentials) (query : value) : value :=
  VObj [("Command", VStr "SearchStudents");
        ("Key", key c);
        ("Criteria", query)].

(** [(response.SearchStudentsResults.Students || [{}])[0].Student || []] *)
Definition search_cb (response : value) : outcome (promise -> promise) :=
  sr <- JS.get response "SearchStudentsResults" ;;
  ss <- JS.get sr "Students" ;;
  s0 <- JS.idx (JS.or ss (VArr [VObj []])) 0 ;;
  st <- JS.get s0 "Student" ;;
  Ok (resolve (JS.or st (VArr []))).

Definition searchStudents (E : env) (this : session) (c : credentials)
  (query : value) : call :=
  let form := search_form c query in
  {| self := this;
     returned := then_catch (fetch E this form) search_cb;
     issued := [form] |}.

(** *** sendCommand and getFile *)

Definition sendCommand (E : env) (this : session) (form : value) : call :=
  {| self := this;
     returned := then_catch (fetch E this form) (fun result => Ok (resolve result));
     issued := [form] |}.

(** [getFile] throws, whatever it is given. *)
Definition getFile : outcome value :=
  Throw (VError "Error"
           ("KAMAR has deprecated the `FileName` atrribute, so the `getFile` method is also deprecated."
            ++ Str.chr Str.LF
            ++ "Please use the `sendCommand` method instead.")).

End KAMAR.
(** * Vocabulary of the statements *)

(** Field [i] of a split string: the piece itself, or [undefined] past the
    last piece. *)
Definition field (fields : list string) (i : nat) : value :=
  match nth_error fields i with
  | Some s => VStr s
  | None => VUndef
  end.

(** Field [i] is there and is not the empty string. *)
Definition filled (fields : list string) (i : nat) : bool :=
  match nth_error fields i with
  | Some s => negb (String.eqb s "")
  | None => false
  end.

(** The period record the fields of a slot stand for: subject from field
    2, teacher from field 3, location from field 4 when it is filled and
    from field 2 otherwise. *)
Definition period_of (fields : list string) : value :=
  VObj [("subject", field fields 2);
        ("location", if filled fields 4 then field fields 4 else field fields 2);
        ("teacher", field fields 3)].

Definition dash_free (s : string) : Prop := Str.has "-" s = false.
Definition pipe_free (s : string) : Prop := Str.has "|" s = false.

(** A remote end that answers every request with the parsed document
    [doc], without transport or parser error. *)
Definition answering (doc : value) : KAMAR.env :=
  {| KAMAR.version := "1.0.0";
     KAMAR.fullYear := 2024;
     KAMAR.isoNow := "2024-02-05T09:00:00.000Z";
     KAMAR.wire := fun _ =>
       {| KAMAR.req_err := VNull; KAMAR.parse_err := VNull; KAMAR.parsed := doc |} |}.

(** The options and credentials of the scenarios. *)
Definition school_options : value :=
  VObj [("portal", VStr "school.example"); ("year", VNum 2024)].

Definition school : KAMAR.session :=
  {| KAMAR.year := VNum 2024;
     KAMAR.TT := VStr "2024TT";
     KAMAR.portal := VStr "school.example";
     KAMAR.UserAgent := VStr "Katal API for KAMAR v1.0.0 (Cargo 3.69) [http://git.io/katal]";
     KAMAR.WkNo := None |}.

(** A comparison with 10 that is right on the levels of the examples. *)
Definition ten_text (v : value) : bool :=
  match v with
  | VNum 10 | VStr "10" => true
  | _ => false
  end.

Definition student15 : KAMAR.credentials :=
  {| KAMAR.username := VStr "15999"; KAMAR.key := VStr "k3y"; KAMAR.authLevel := VNum 1 |}.

(** A logon refusal that carries [Error] without [ErrorCode]. *)
Definition error_without_code : value :=
  VObj [("LogonResults", VObj [("Error", VArr [VStr "Invalid key"])])].

Definition error_with_code : value :=
  VObj [("LogonResults",
         VObj [("Error", VArr [VStr "Invalid key"]); ("ErrorCode", VArr [VStr "3"])])].

(** An NCEA summary document: one student, internal and total credits, one
    row in each of the year and level tables. *)
Definition ncea_student : value :=
  VObj [("NCEA",
         VArr [VObj [("L1NCEA", VArr [VStr "Achieved"]);
                     ("L2NCEA", VArr [VStr "In progress"]);
                     ("L3NCEA", VArr [VStr ""]);
                     ("NCEAUELIT", VArr [VStr "Y"]);
                     ("NCEAL1LIT", VArr [VStr "Y"]);
                     ("NCEANUM", VArr [VStr "Y"])]]);
        ("CreditsInternal",
         VArr [VObj [("NotAchieved", VArr [VStr "0"]);
                     ("Achieved", VArr [VStr "12"]);
                     ("Total", VArr [VStr "12"]);
                     ("Attempted", VArr [VStr "12"])]]);
        ("CreditsTotal",
         VArr [VObj [("NotAchieved", VArr [VStr "0"]);
                     ("Achieved", VArr [VStr "12"]);
                     ("Merit", VArr [VStr "4"]);
                     ("Total", VArr [VStr "16"]);
                     ("Attempted", VArr [VStr "16"])]]);
        ("YearTotals",
         VArr [VObj [("YearTotal",
                      VArr [VObj [("Year", VArr [VStr "2024"]);
                                  ("NotAchieved", VArr [VStr "0"]);
                                  ("Achieved", VArr [VStr "12"])]])]]);
        ("LevelTotals",
         VArr [VObj [("LevelTotal",
                      VArr [VObj [("Level", VArr [VStr "1"]);
                                  ("Achieved", VArr [VStr "12"])]])]])].

Definition ncea_doc : value :=
  VObj [("StudentNCEASummaryResults",
         VObj [("Students", VArr [VObj [("Student", VArr [ncea_student])]])])].

(** [undefined] and [null], the values without properties. *)
Definition nullish (v : value) : bool :=
  match v with
  | VUndef | VNull => true
  | _ => false
  end.

(** [v[k]] and [v[0]] where the read cannot raise. *)
Definition prop (v : value) (k : string) : value :=
  match JS.get v k with
  | Ok x => x
  | Throw _ => VUndef
  end.

Definition first (v : value) : value :=
  match JS.idx v 0 with
  | Ok x => x
  | Throw _ => VUndef
  end.

(** What a cell of a credit six-tuple shows for a field holding [v], and
    the text a cell of a row table shows for it: blank when [v] is falsy. *)
Definition shown (v : value) : value := if JS.truthy v then v else VStr "".

Definition shown_text (v : value) : string :=
  if JS.truthy v then JS.to_string (first v) else "".



(** [needle] occurs in [s] as a substring. *)
Definition occurs (needle s : string) : Prop :=
  exists pre post, s = pre ++ needle ++ post.

(** [Ar[i].Days[0].Day], the day slots of a week entry. *)
Definition week_days (w : value) : outcome value :=
  dd <- JS.get w "Days" ;;
  d0 <- JS.idx dd 0 ;;
  JS.get d0 "Day".

(** Day slots: Monday with fewer than 7 characters of text, Tuesday
    without text, Wednesday with more than 7. *)
Definition mon_slot : value := VObj [("$", VObj [("index", VStr "1")]); ("_", VStr "PP")].
Definition tue_slot : value := VObj [("$", VObj [("index", VStr "2")])].
Definition wed_slot : value :=
  VObj [("$", VObj [("index", VStr "3")]); ("_", VStr "PPPPPPPLL")].

Definition short_week : value :=
  VObj [("WeekStart", VArr [VStr "2024-02-05"]);
        ("Days", VArr [VObj [("Day", VArr [mon_slot; tue_slot; wed_slot])]])].

(** [response.StudentAttendanceResults.Weeks[0].Week], the week entries of
    an attendance response. *)
Definition attendance_weeks (response : value) : outcome value :=
  sar <- JS.get response "StudentAttendanceResults" ;;
  wks <- JS.get sar "Weeks" ;;
  w0 <- JS.idx wks 0 ;;
  JS.get w0 "Week".

Definition attendance_doc (weeks : list value) : value :=
  VObj [("StudentAttendanceResults",
         VObj [("Weeks", VArr [VObj [("Week", VArr weeks)]])])].

(** The five raw day strings of a timetable week, and the entry that
    carries them under the keys D1 to D5. *)
Record week_strings := { D1 : string; D2 : string; D3 : string; D4 : string; D5 : string }.

Definition week_fields (d : week_strings) : list (string * value) :=
  [("D1", VArr [VStr (D1 d)]);
   ("D2", VArr [VStr (D2 d)]);
   ("D3", VArr [VStr (D3 d)]);
   ("D4", VArr [VStr (D4 d)]);
   ("D5", VArr [VStr (D5 d)])].

Definition week_entry (d : week_strings) : value := VArr [VObj (week_fields d)].

(** A timetable response whose TimetableData holds [weeks], keyed W1, W2, ... *)
Definition timetable_doc (weeks : list (string * value)) : value :=
  VObj [("StudentTimetableResults",
         VObj [("Students",
                VArr [VObj [("Student",
                             VArr [VObj [("TimetableData", VArr [VObj weeks])]])]])])].

(** Periods 1..7 of a raw day string, decoded slot by slot. *)
Definition day_periods (raw : string) : value :=
  VArr (map (fun p => period_of (Str.split "-" (nth p (Str.split "|" raw) "")))
          (seq 1 7)).

(** The decoded week tagged [n]. *)
Definition week_of (n : nat) (d : week_strings) : value :=
  VObj [("$weekNo", VNum (Z.of_nat n));
        ("MO", day_periods (D1 d));
        ("TU", day_periods (D2 d));
        ("WE", day_periods (D3 d));
        ("TH", day_periods (D4 d));
        ("FR", day_periods (D5 d))].

(** Every day string of the week holds at least seven bars. *)
Definition full_days (d : week_strings) : Prop :=
  7 <= Str.count "|" (D1 d) /\ 7 <= Str.count "|" (D2 d) /\
  7 <= Str.count "|" (D3 d) /\ 7 <= Str.count "|" (D4 d) /\
  7 <= Str.count "|" (D5 d).

(** The same day on all five weekdays. *)
Definition every_day (raw : string) : week_strings :=
  {| D1 := raw; D2 := raw; D3 := raw; D4 := raw; D5 := raw |}.

Definition maths_day : string := "Mon|A-B-Math-Smith-Room5|||||||".
Definition art_day : string := "Mon|A-B-Art-Jones-|||||||".

(** A remote end that answers the attendance command with [attendance]
    and every other command with [timetable]. *)
Definition is_attendance (opts : value) : bool :=
  match prop (prop opts "form") "Command" with
  | VStr s => String.eqb s "GetStudentAttendance"
  | _ => false
  end.

Definition serving (attendance timetable : value) : KAMAR.env :=
  {| KAMAR.version := "1.0.0";
     KAMAR.fullYear := 2024;
     KAMAR.isoNow := "2024-02-05T09:00:00.000Z";
     KAMAR.wire := fun opts =>
       {| KAMAR.req_err := VNull;
          KAMAR.parse_err := VNull;
          KAMAR.parsed := if is_attendance opts then attendance else timetable |} |}.

(** The edge of the scenario of the specification: an attendance
    response without a week entry. *)
Definition no_weeks : KAMAR.env :=
  serving (attendance_doc [])
    (timetable_doc [("W0", week_entry (every_day maths_day));
                    ("W1", week_entry (every_day art_day))]).

(** The leading word of a vCard line, up to its first colon or semicolon. *)
Fixpoint tag (line : string) : string :=
  match line with
  | EmptyString => EmptyString
  | String ch rest =>
      if Ascii.eqb ch ":" || Ascii.eqb ch ";" then EmptyString
      else String ch (tag rest)
  end.

Definition card_tags : list string :=
  ["BEGIN"; "VERSION"; "N"; "NICKNAME"; "FN"; "ORG"; "GENDER"; "TITLE"; "PHOTO";
   "TEL"; "ADR"; "EMAIL"; "REV"; "BDAY"; "NOTE"; "END"].

(** The address with every line feed replaced by backslash and n. *)
Definition escaped (addr : string) : string :=
  Str.replace_all Str.LF (String Str.BACKSLASH "n") addr.

(** A student record of a details response: a two-line home address, and
    every field the decoder reads. *)
Definition two_line_address : string :=
  "1 Lake Rd" ++ Str.chr Str.LF ++ "Takapuna".

Definition sample_student : value :=
  VObj ([("FirstName", VArr [VStr "Sam"]);
         ("ForeNames", VArr [VStr "Samuel Lee"]);
         ("LastName", VArr [VStr "Lee"]);
         ("StudentID", VArr [VStr "15999"]);
         ("Gender", VArr [VStr "Male"]);
         ("Ethnicity", VArr [VStr "NZ European"]);
         ("DateBirth", VArr [VStr "20010203"]);
         ("HomePhone", VArr [VStr "094890000"]);
         ("HomeAddress", VArr [VStr two_line_address]);
         ("EmergencyName", VArr [VStr "Kim Lee"]);
         ("EmergencyPhoneCell", VArr [VStr "0210000000"])]
        ++ map (fun k => (k, VArr [VStr ""]))
             ["Age"; "NSN"; "ParentTitle"; "ParentEmail"; "ParentSalutation"; "ParentTitleB"; "ParentEmailB"; "ParentSalutationB"; "HomePhoneB"; "HomeAddressB"; "MotherName"; "MotherEmail"; "MotherPhoneHome"; "MotherPhoneCell"; "MotherPhoneWork"; "MotherOccupation"; "MotherWorkAddress"; "MotherStatus"; "MotherNotes"; "FatherName"; "FatherEmail"; "FatherPhoneHome"; "FatherPhoneCell"; "FatherPhoneWork"; "FatherOccupation"; "FatherWorkAddress"; "FatherStatus"; "FatherNotes"; "EmergencyPhoneHome"; "EmergencyPhoneWork"; "EmergencyNotes"; "AllowedPanadol"; "AllowedIbuprofen"; "HealthFlag"; "Medical"; "Reactions"; "Vaccinations"; "SpecialCircumstances"; "GeneralNotes"; "HealthNotes"]).

(** The record decoded from [sample_student]. *)
Definition sample_details : value :=
  match KAMAR.details sample_student with
  | Ok d => d
  | Throw _ => VUndef
  end.

(** Remote ends that fail: in transport, with a document all the same; and
    in the parser. *)
Definition unreachable (doc : value) : KAMAR.env :=
  {| KAMAR.version := "1.0.0";
     KAMAR.fullYear := 2024;
     KAMAR.isoNow := "2024-02-05T09:00:00.000Z";
     KAMAR.wire := fun _ =>
       {| KAMAR.req_err := VError "Error" "ECONNREFUSED";
          KAMAR.parse_err := VNull;
          KAMAR.parsed := doc |} |}.

Definition garbled : KAMAR.env :=
  {| KAMAR.version := "1.0.0";
     KAMAR.fullYear := 2024;
     KAMAR.isoNow := "2024-02-05T09:00:00.000Z";
     KAMAR.wire := fun _ =>
       {| KAMAR.req_err := VNull;
          KAMAR.parse_err := VError "Error" "Unexpected close tag";
          KAMAR.parsed := VUndef |} |}.

(** A stand-in for [Number] on the texts of the examples. *)
Definition number_of_text (v : value) : value :=
  match v with
  | VArr [VStr "10"] => VNum 10
  | VArr [VStr "1"] => VNum 1
  | _ => VNull
  end.

Definition teacher_login : value :=
  VObj [("username", VStr "SMI"); ("password", VStr "secret")].

Definition logon_accepted : value :=
  VObj [("LogonResults",
         VObj [("Success", VArr [VStr "YES"]);
               ("LogonLevel", VArr [VStr "10"]);
               ("Key", VArr [VStr "k3y"])])].

Definition logon_refused : value :=
  VObj [("LogonResults", VObj [("Success", VArr [VStr "NO"])])].

(** The field names of a decoded week with [n] day slots: the week start,
    the names of the first five slots, and one field named "undefined"
    for any further slots. *)
Definition week_keys (n : nat) : list string :=
  "$" :: firstn n KAMAR.daysManifest ++ (if Nat.ltb 5 n then ["undefined"] else []).

(** A week entry with seven day slots. *)
Definition long_week : value :=
  VObj [("WeekStart", VArr [VStr "2024-02-12"]);
        ("Days",
         VArr [VObj [("Day",
                      VArr [mon_slot; tue_slot; wed_slot; wed_slot; wed_slot;
                            tue_slot; mon_slot])]])].


(** Absence statistics whose record count reads zero, with a student all
    the same; and without the count. *)
Definition stats_of (fields : list (string * value)) : value :=
  VObj [("StudentAbsenceStatsResults",
         VObj (fields ++
               [("Students",
                 VArr [VObj [("Student", VArr [VObj [("StudentID", VArr [VStr "15999"])]])]])]))].

(** A comparison with 0 that is right on the texts of the examples. *)
Definition zero_text (v : value) : bool :=
  match v with
  | VNum 0 | VStr "0" | VArr [VStr "0"] => true
  | _ => false
  end.

(** The record the calendar keeps for the day [d]. *)
Definition day_record (d : value) : value :=
  VObj [("status", first (prop d "Status"));
        ("TTday", JS.or (first (prop d "DayTT")) VUndef);
        ("term", JS.or (first (prop d "Term")) VUndef);
        ("week", JS.or (first (prop d "Week")) VUndef)].

(** The day [d] is filed under [key]. *)
Definition dated (key : string) (d : value) : bool :=
  String.eqb (JS.to_string (prop d "Date")) key.

Definition calendar_day (date status tt term week : string) : value :=
  VObj [("Date", VArr [VStr date]);
        ("Status", VArr [VStr status]);
        ("DayTT", VArr [VStr tt]);
        ("Term", VArr [VStr term]);
        ("Week", VArr [VStr week])].

Definition calendar_doc (code : string) (days : list value) : value :=
  VObj [("CalendarResults",
         VObj [("ErrorCode", VArr [VStr code]);
               ("Days", VArr [VObj [("Day", VArr days)]])])].

Definition term_days : list value :=
  [calendar_day "2024-02-05" "Open" "1" "1" "2";
   calendar_day "2024-02-06" "Holiday" "" "" "";
   calendar_day "2024-02-05" "Closed" "" "1" "2"].


(** A results response: an NCEA level with two results and a level
    without NCEA with one. *)
Definition result_entry (title grade : string) : value :=
  VObj [("Title", VArr [VStr title]);
        ("Grade", VArr [VStr grade]);
        ("ResultPublished", VArr [VStr "2024-03-01"]);
        ("Number", VArr [VStr "91027"]);
        ("Version", VArr [VStr "3"]);
        ("Credits", VArr [VStr "4"]);
        ("CreditsPassed", VArr [VStr "4"])].

Definition result_level (level : string) (rs : list value) : value :=
  VObj [("NCEALevel", VArr [VStr level]);
        ("Results", VArr [VObj [("Result", VArr rs)]])].

Definition sample_levels : list value :=
  [result_level "1" [result_entry "Algebra" "Achieved with Merit";
                     result_entry "Essay" "Not Achieved"];
   result_level "0" [result_entry "Junior test" "B+"]].

Definition results_doc (levels : list value) : value :=
  VObj [("StudentResultsResults",
         VObj [("ResultLevels", VArr [VObj [("ResultLevel", VArr levels)]])])].

(** The result set decoded from [sample_levels]. *)
Definition sample_results : value * list (list value) :=
  match KAMAR.decode_results zero_text (results_doc sample_levels) with
  | Ok x => x
  | Throw _ => (VUndef, [])
  end.

(** The fields [getDetails] reads from a student, in the order it reads
    them. *)
Definition detail_fields : list string :=
  ["FirstName"; "ForeNames"; "LastName"; "StudentID"; "Gender"; "Ethnicity";
   "DateBirth"; "Age"; "NSN";
   "ParentTitle"; "ParentEmail"; "ParentSalutation"; "HomePhone"; "HomeAddress";
   "ParentTitleB"; "ParentEmailB"; "ParentSalutationB"; "HomePhoneB"; "HomeAddressB";
   "MotherName"; "MotherEmail"; "MotherPhoneHome"; "MotherPhoneCell";
   "MotherPhoneWork"; "MotherOccupation"; "MotherWorkAddress"; "MotherStatus";
   "MotherNotes";
   "FatherName"; "FatherEmail"; "FatherPhoneHome"; "FatherPhoneCell";
   "FatherPhoneWork"; "FatherOccupation"; "FatherWorkAddress"; "FatherStatus";
   "FatherNotes";
   "EmergencyName"; "EmergencyPhoneHome"; "EmergencyPhoneCell"; "EmergencyPhoneWork";
   "EmergencyNotes";
   "AllowedPanadol"; "AllowedIbuprofen"; "HealthFlag"; "Medical"; "Reactions";
   "Vaccinations"; "SpecialCircumstances"; "GeneralNotes"; "HealthNotes"].

(** [$[yt + 'Totals'][0][yt + 'Total']], the rows of a totals table. *)
Definition totals (student : value) (yt : string) : outcome value :=
  t <- JS.get student (yt ++ "Totals") ;;
  t0 <- JS.idx t 0 ;;
  JS.get t0 (yt ++ "Total").

(** The text of one table row: the label cell and the six credit cells. *)
Definition row_text (yt : string) (r : value) : string :=
  "<td><strong>" ++ JS.to_string (first (prop r yt)) ++ "</strong></td>"
  ++ String.concat ""
       (map (fun f => "<td>" ++ shown_text (prop r f) ++ "</td>") KAMAR.cols).

(** The student of [ncea_student] without internal credits. *)
Definition externals_only : value :=
  VObj [("CreditsTotal",
         VArr [VObj [("Achieved", VArr [VStr "12"]); ("Merit", VArr [VStr "4"])]])].

(** [wk[day][0]], the raw string of a day of a week object. *)
Definition day_text (wk : value) (day : string) : outcome value :=
  d <- JS.get wk day ;;
  JS.idx d 0.

(** The timetable data [TT] holds under [key] a week whose days D1 to D5
    are the strings of [d]: [TT[0][key][0].D1[0]] and so on, whatever else
    [TT], the week and its days carry. *)
Definition holds_week (TT : value) (key : string) (d : week_strings) : Prop :=
  exists t0 w w0,
    JS.idx TT 0 = Ok t0 /\
    JS.get t0 key = Ok w /\
    JS.idx w 0 = Ok w0 /\
    day_text w0 "D1" = Ok (VStr (D1 d)) /\
    day_text w0 "D2" = Ok (VStr (D2 d)) /\
    day_text w0 "D3" = Ok (VStr (D3 d)) /\
    day_text w0 "D4" = Ok (VStr (D4 d)) /\
    day_text w0 "D5" = Ok (VStr (D5 d)).

(** The timetable data [TT] has nothing under [key]: [TT[0][key]] is
    [undefined]. *)
Definition lacks_week (TT : value) (key : string) : Prop :=
  exists t0, JS.idx TT 0 = Ok t0 /\ JS.get t0 key = Ok VUndef.

(** A timetable response as the remote end sends it: the timetable data
    among other fields of the student, the weeks among other weeks, the
    days beside the attributes of their week. *)
Definition listed_week (number : string) (d : week_strings) : value :=
  VArr [VObj (("$", VObj [("index", VStr number)]) :: week_fields d)].

Definition school_timetable (weeks : list (string * value)) : value :=
  VObj [("StudentTimetableResults",
         VObj [("AccessLevel", VArr [VStr "1"]);
               ("ErrorCode", VArr [VStr "0"]);
               ("TTGrid", VArr [VStr "2024TT"]);
               ("Students",
                VArr [VObj [("Student",
                             VArr [VObj [("IDNumber", VArr [VStr "15999"]);
                                         ("Level", VArr [VStr "12"]);
                                         ("Tutor", VArr [VStr "12SM"]);
                                         ("TimetableData",
                                          VArr [VObj weeks])]])]])])].

(** The scenario of the specification against such a response. *)
Definition listed_weeks : list (string * value) :=
  [("W2", listed_week "2" (every_day art_day));
   ("W3", listed_week "3" (every_day maths_day));
   ("W4", listed_week "4" (every_day art_day));
   ("W5", listed_week "5" (every_day maths_day))].

Definition three_weeks_listed : KAMAR.env :=
  serving (attendance_doc [short_week; short_week; short_week])
    (school_timetable listed_weeks).

(** A timetable whose week 4 has a Tuesday of two slots only. *)
Definition short_day : string := "Tue|1-2-Eng-Ray-R1".

Definition short_tuesday_weeks : list (string * value) :=
  [("W3", listed_week "3" (every_day maths_day));
   ("W4", listed_week "4"
            {| D1 := maths_day; D2 := short_day; D3 := maths_day;
               D4 := maths_day; D5 := maths_day |})].

Definition short_tuesday : KAMAR.env :=
  answering (school_timetable short_tuesday_weeks).

(** Weeks 1 and 2 listed, for a session on the default week; and a
    timetable that stops at week 3. *)
Definition first_weeks : list (string * value) :=
  [("W1", listed_week "1" (every_day maths_day));
   ("W2", listed_week "2" (every_day art_day));
   ("W3", listed_week "3" (every_day maths_day))].

Definition last_week : list (string * value) :=
  [("W2", listed_week "2" (every_day art_day));
   ("W3", listed_week "3" (every_day maths_day))].

(** An attendance response without weeks, and the timetable of the first
    weeks. *)
Definition no_attendance : KAMAR.env :=
  serving (VObj [("StudentAttendanceResults", VObj [("NumberRecords", VArr [VStr "0"])])])
    (school_timetable first_weeks).

(** * Properties *)

(** ** The model on small inputs *)

Example split_empty : Str.split "-" "" = [""].
Proof. reflexivity. Qed.

Example split_trailing : Str.split "-" "a-" = ["a"; ""].
Proof. reflexivity. Qed.

Example split_slot :
  Str.split "-" "A-B-Math-Smith-Room5" = ["A"; "B"; "Math"; "Smith"; "Room5"].
Proof. reflexivity. Qed.

Example set_length_pads :
  JS.set_length 3 [VStr "a"] = [VStr "a"; VUndef; VUndef].
Proof. reflexivity. Qed.

Example set_length_cuts :
  JS.set_length 2 [VStr "a"; VStr "b"; VStr "c"] = [VStr "a"; VStr "b"].
Proof. reflexivity. Qed.

Example wrapped_zero_is_truthy : JS.truthy (VArr [VStr "0"]) = true.
Proof. reflexivity. Qed.

Example first_settlement_wins (v e : value) :
  resolve v (reject e Pending) = Rejected e.
Proof. reflexivity. Qed.

Example placeholder_is_cut : KAMAR.day_status tue_slot = Ok (VStr "-------").
Proof. reflexivity. Qed.

Example plain_string_slot : KAMAR.day_status (VStr "PPPPPPP") = Ok (VStr "-------").
Proof. reflexivity. Qed.

Example teacher_form :
  KAMAR.timetable_form ten_text school
    {| KAMAR.username := VStr "SMI"; KAMAR.key := VStr "k"; KAMAR.authLevel := VNum 10 |}
  = VObj [("Command", VStr "GetTeacherTimetable"); ("Key", VStr "k");
          ("Grid", VStr "2024TT"); ("Tchr", VStr "SMI")].
Proof. reflexivity. Qed.

(** The level as [authenticate] may hand it over, a text: the loose
    comparison takes it for 10 and the teacher's command goes out. *)
Example teacher_form_text_level :
  KAMAR.timetable_form ten_text school
    {| KAMAR.username := VStr "SMI"; KAMAR.key := VStr "k"; KAMAR.authLevel := VStr "10" |}
  = VObj [("Command", VStr "GetTeacherTimetable"); ("Key", VStr "k");
          ("Grid", VStr "2024TT"); ("Tchr", VStr "SMI")].
Proof. reflexivity. Qed.

(** Without a level the first operand of [&&] decides, whatever the
    comparison would say. *)
Example student_form_no_level (eq10 : value -> bool) :
  KAMAR.timetable_form eq10 school
    {| KAMAR.username := VStr "15999"; KAMAR.key := VStr "k"; KAMAR.authLevel := VUndef |}
  = VObj [("Command", VStr "GetStudentTimetable"); ("Key", VStr "k");
          ("StudentID", VStr "15999"); ("Grid", VStr "2024TT")].
Proof. reflexivity. Qed.

Example constructor_defaults :
  KAMAR.constructor (answering VNull) school_options = Ok school.
Proof. reflexivity. Qed.

Example constructor_needs_portal :
  KAMAR.constructor (answering VNull) (VObj [("year", VNum 2024)])
  = Throw (VError "Error"
             "portal URL must be provided. e.g. `remote.takapuna.school.nz` ").
Proof. reflexivity. Qed.

(** ** Splitting and joining *)

Section SplitJoin.

Variable sep : ascii.

Lemma split_free (w : string) :
  Str.has sep w = false -> Str.split sep w = [w].
Proof.
  induction w as [|a w IH]; simpl; intros H; [reflexivity|].
  apply orb_false_iff in H as [Ha Hw].
  rewrite Ha, (IH Hw). reflexivity.
Qed.

Lemma split_app (w rest : string) :
  Str.has sep w = false ->
  Str.split sep (w ++ String sep rest) = w :: Str.split sep rest.
Proof.
  induction w as [|a w IH]; simpl; intros H.
  - now rewrite Ascii.eqb_refl.
  - apply orb_false_iff in H as [Ha Hw].
    rewrite Ha, (IH Hw). reflexivity.
Qed.

(** Splitting undoes joining: pieces free of the separator come back. *)
Lemma split_join (fields : list string) :
  fields <> [] ->
  Forall (fun f => Str.has sep f = false) fields ->
  Str.split sep (Str.join (Str.chr sep) fields) = fields.
Proof.
  induction fields as [|f fs IH]; intros Hne Hall; [congruence|].
  inversion Hall as [|? ? Hf Hfs]; subst.
  destruct fs as [|g fs].
  - simpl. now apply split_free.
  - change (Str.join (Str.chr sep) (f :: g :: fs))
      with (f ++ String sep (Str.join (Str.chr sep) (g :: fs))).
    rewrite (split_app _ _ Hf), IH; [reflexivity|discriminate|assumption].
Qed.

(** One more piece than separators. *)
Lemma split_length (s : string) :
  List.length (Str.split sep s) = S (Str.count sep s).
Proof.
  induction s as [|a s IH]; simpl; [reflexivity|].
  destruct (Ascii.eqb a sep); simpl.
  - now rewrite IH.
  - destruct (Str.split sep s); simpl in *; [discriminate|assumption].
Qed.

End SplitJoin.

Lemma mapM_length {A B : Type} (f : A -> outcome B) (l : list A) (l' : list B) :
  mapM f l = Ok l' -> List.length l' = List.length l.
Proof.
  revert l'; induction l as [|a l IH]; simpl; intros l' H.
  - now inversion H.
  - destruct (f a); simpl in H; [|discriminate].
    destruct (mapM f l); simpl in H; [|discriminate].
    inversion H; subst; simpl. now rewrite (IH _ eq_refl).
Qed.

Lemma mapM_ok {A B : Type} (f : A -> outcome B) (g : A -> B) (l : list A) :
  (forall a, In a l -> f a = Ok (g a)) -> mapM f l = Ok (map g l).
Proof.
  induction l as [|a l IH]; simpl; intros H; [reflexivity|].
  rewrite (H a (or_introl eq_refl)); simpl.
  rewrite IH; [reflexivity|]. intros; apply H; now right.
Qed.

Lemma mapM_throw {A B : Type} (f : A -> outcome B) (l : list A) (e : value) :
  (forall x, In x l -> (exists b, f x = Ok b) \/ f x = Throw e) ->
  (exists a, In a l /\ f a = Throw e) ->
  mapM f l = Throw e.
Proof.
  induction l as [|x l IH]; simpl; intros Hall [a [Hin Ha]]; [contradiction|].
  destruct (Hall x (or_introl eq_refl)) as [[b Hb]|Hx].
  - rewrite Hb; simpl. destruct Hin as [->|Hin]; [congruence|].
    rewrite IH; [reflexivity| |].
    + intros; apply Hall; now right.
    + now exists a.
  - now rewrite Hx.
Qed.

(** ** Arrays with a forced length *)

Lemma nth_repeat_undef (m i : nat) : nth i (repeat VUndef m) VUndef = VUndef.
Proof.
  revert i; induction m as [|m IH]; intros [|i]; simpl; auto.
Qed.

Lemma set_length_cons (n : nat) (v : value) (l : list value) :
  JS.set_length (S n) (v :: l) = v :: JS.set_length n l.
Proof. reflexivity. Qed.

Lemma set_length_nth (n : nat) :
  forall (l : list value) (i : nat),
    i < n -> nth i (JS.set_length n l) VUndef = nth i l VUndef.
Proof.
  induction n as [|n IH]; intros l i Hi; [lia|].
  destruct l as [|v l].
  - unfold JS.set_length. rewrite firstn_nil. cbn [app].
    rewrite nth_repeat_undef. now destruct i.
  - rewrite set_length_cons. destruct i as [|i]; simpl; [reflexivity|].
    apply IH; lia.
Qed.

Lemma set_length_length (n : nat) :
  forall l : list value, List.length (JS.set_length n l) = n.
Proof.
  induction n as [|n IH]; intros l.
  - unfold JS.set_length. now rewrite firstn_O.
  - destruct l as [|v l].
    + unfold JS.set_length. rewrite firstn_nil. cbn [app].
      now rewrite repeat_length.
    + rewrite set_length_cons. simpl. now rewrite IH.
Qed.

Lemma nth_map_VStr (l : list string) (i : nat) :
  nth i (map VStr l) VUndef = field l i.
Proof.
  unfold field. revert i; induction l as [|s l IH]; intros [|i]; simpl; auto.
Qed.

(** ** Timetable slots *)

Lemma decode_period_string (slot : string) :
  KAMAR.decode_period (VStr slot) = Ok (period_of (Str.split "-" slot)).
Proof.
  unfold KAMAR.decode_period, period_of; simpl.
  rewrite !nth_map_VStr. repeat f_equal.
  unfold JS.or, field, filled.
  destruct (nth_error (Str.split "-" slot) 4); reflexivity.
Qed.

Lemma day_slot (raw : string) (i : nat) :
  i < 8 ->
  nth i (JS.set_length 8 (map VStr (Str.split "|" raw))) VUndef
  = field (Str.split "|" raw) i.
Proof.
  intros Hi. now rewrite set_length_nth, nth_map_VStr.
Qed.

Lemma field_string (l : list string) (i : nat) :
  i < List.length l -> field l i = VStr (nth i l "").
Proof.
  unfold field. revert i; induction l as [|s l IH]; intros [|i] Hi; simpl in *;
    try lia; auto. apply IH; lia.
Qed.

Lemma field_undef (l : list string) (i : nat) :
  List.length l <= i -> field l i = VUndef.
Proof.
  unfold field. intros Hi. now rewrite (proj2 (nth_error_None l i) Hi).
Qed.

(** With at least seven bars every slot 1..7 is a string and decodes. *)
Lemma decode_day_ok (raw : string) (day : nat) :
  7 <= Str.count "|" raw ->
  KAMAR.decode_day (VStr raw) day =
  Ok (VStr ("D-" ++ Str.of_nat day)
        :: map (fun p => period_of (Str.split "-" (nth p (Str.split "|" raw) "")))
             (seq 1 7)).
Proof.
  intros Hc. unfold KAMAR.decode_day.
  change (JS.split (VStr raw) "|") with (Ok (map VStr (Str.split "|" raw))).
  cbv beta iota delta [bind].
  rewrite (mapM_ok _
    (fun p => period_of (Str.split "-" (nth p (Str.split "|" raw) "")))).
  - reflexivity.
  - intros p Hp. apply in_seq in Hp.
    rewrite day_slot by lia.
    rewrite field_string by (rewrite split_length; lia).
    apply decode_period_string.
Qed.

(** With fewer, slot 7 is a hole and its [split] raises. *)
Lemma decode_day_throw (raw : string) (day : nat) :
  Str.count "|" raw < 7 ->
  KAMAR.decode_day (VStr raw) day = Throw type_error.
Proof.
  intros Hc. unfold KAMAR.decode_day.
  change (JS.split (VStr raw) "|") with (Ok (map VStr (Str.split "|" raw))).
  cbv beta iota delta [bind].
  rewrite (mapM_throw _ _ type_error); [reflexivity| |].
  - intros p Hp. apply in_seq in Hp. rewrite day_slot by lia.
    unfold field. destruct (nth_error (Str.split "|" raw) p).
    + left. eexists. apply decode_period_string.
    + now right.
  - exists 7. split; [apply in_seq; lia|].
    rewrite day_slot by lia.
    rewrite field_undef by (rewrite split_length; lia). reflexivity.
Qed.

(** C1.  A slot made of dash-free fields joined by dashes decodes to the
    period with subject = field 2, teacher = field 3 and location = field 4
    when that field is filled, field 2 otherwise; and a day string (bar-free
    slots joined by bars, at least 8 of them) that carries such a slot at a
    period position 1..7 decodes that period to the same record. *)
Theorem decode_period_fields (fields : list string) :
  fields <> [] ->
  Forall dash_free fields ->
  KAMAR.decode_period (VStr (Str.join "-" fields)) = Ok (period_of fields) /\
  forall (slots : list string) (day p : nat),
    Forall pipe_free slots ->
    8 <= List.length slots ->
    1 <= p <= 7 ->
    nth_error slots p = Some (Str.join "-" fields) ->
    exists h,
      KAMAR.decode_day (VStr (Str.join "|" slots)) day = Ok h /\
      nth p h VUndef = period_of fields.
Proof.
  intros Hne Hfree.
  assert (Hsplit : Str.split "-" (Str.join "-" fields) = fields)
    by (apply (split_join "-"); assumption).
  split.
  - now rewrite decode_period_string, Hsplit.
  - intros slots day p Hpipes Hlen Hp Hnth.
    assert (Hs : Str.split "|" (Str.join "|" slots) = slots).
    { apply (split_join "|"); [|assumption]. destruct slots; simpl in *; [lia|discriminate]. }
    eexists. split.
    + apply decode_day_ok.
      pose proof (split_length "|" (Str.join "|" slots)) as HL.
      rewrite Hs in HL. lia.
    + rewrite Hs.
      destruct p as [|p]; [lia|]. cbn [nth].
      set (g := fun p => period_of (Str.split "-" (nth p slots ""))).
      rewrite (nth_indep _ VUndef (g 0)) by (rewrite length_map, length_seq; lia).
      rewrite (map_nth g), seq_nth by lia.
      unfold g. rewrite (nth_error_nth _ _ _ Hnth), Hsplit. reflexivity.
Qed.

(** The slot of the specification, alone and inside a day string. *)
Lemma decode_period_fields_witness :
  KAMAR.decode_period (VStr "A-B-Math-Smith-Room5")
  = Ok (VObj [("subject", VStr "Math"); ("location", VStr "Room5");
              ("teacher", VStr "Smith")]) /\
  exists h,
    KAMAR.decode_day (VStr "Mon|A-B-Math-Smith-Room5|p2|p3|p4|p5|p6|p7") 1 = Ok h /\
    nth 1 h VUndef
    = VObj [("subject", VStr "Math"); ("location", VStr "Room5");
            ("teacher", VStr "Smith")].
Proof.
  assert (Hne : ["A"; "B"; "Math"; "Smith"; "Room5"] <> []) by discriminate.
  assert (Hfree : Forall dash_free ["A"; "B"; "Math"; "Smith"; "Room5"])
    by (repeat constructor).
  destruct (decode_period_fields _ Hne Hfree) as [Hslot Hday].
  split; [exact Hslot|].
  apply (Hday ["Mon"; "A-B-Math-Smith-Room5"; "p2"; "p3"; "p4"; "p5"; "p6"; "p7"] 1 1).
  - repeat constructor.
  - simpl; lia.
  - lia.
  - reflexivity.
Defined.

(** With the location field empty the location is the subject. *)
Example decode_period_empty_location :
  KAMAR.decode_period (VStr "A-B-Math-Smith-")
  = Ok (VObj [("subject", VStr "Math"); ("location", VStr "Math");
              ("teacher", VStr "Smith")]).
Proof. reflexivity. Qed.

(** ** The week index and the timetable *)

Lemma constructor_fresh (E : KAMAR.env) (options : value) (this : KAMAR.session) :
  KAMAR.constructor E options = Ok this -> KAMAR.WkNo this = None.
Proof.
  unfold KAMAR.constructor. intros H.
  destruct (negb (JS.truthy options)); [discriminate|].
  destruct (JS.get options "portal") as [p|]; simpl in H; [|discriminate].
  destruct (negb (JS.truthy p)); [discriminate|].
  destruct (JS.get options "year"); simpl in H; [|discriminate].
  destruct (JS.get options "TT"); simpl in H; [|discriminate].
  destruct (JS.get options "UserAgent"); simpl in H; [|discriminate].
  inversion H; reflexivity.
Qed.

(** C4.  On a session fresh from the constructor, [getTimeTable] rejects
    with the "You must fetch the Absences ..." error, passes no form to
    [fetch], and leaves the session as it is, whatever the credentials and
    however their level compares with 10. *)
Theorem timetable_before_absences (eq10 : value -> bool) (E E' : KAMAR.env)
  (options : value)
  (this : KAMAR.session) (c : KAMAR.credentials) :
  KAMAR.constructor E options = Ok this ->
  KAMAR.returned (KAMAR.getTimeTable eq10 E' this c)
  = Rejected (VError "Error" KAMAR.must_fetch_absences) /\
  KAMAR.issued (KAMAR.getTimeTable eq10 E' this c) = [] /\
  KAMAR.self (KAMAR.getTimeTable eq10 E' this c) = this.
Proof.
  intros H. apply constructor_fresh in H.
  unfold KAMAR.getTimeTable. rewrite H. simpl. auto.
Qed.

Lemma timetable_before_absences_witness :
  KAMAR.constructor (answering VNull) school_options = Ok school /\
  KAMAR.returned (KAMAR.getTimeTable ten_text (answering VNull) school student15)
  = Rejected (VError "Error" KAMAR.must_fetch_absences) /\
  KAMAR.issued (KAMAR.getTimeTable ten_text (answering VNull) school student15) = [] /\
  KAMAR.self (KAMAR.getTimeTable ten_text (answering VNull) school student15) = school.
Proof.
  split; [reflexivity|].
  apply (timetable_before_absences ten_text (answering VNull) (answering VNull) school_options).
  reflexivity.
Defined.

(** ** Dispatch *)

Lemma get_first_key (thing : string) (body : value) (rest : list (string * value)) :
  JS.get (VObj ((thing, body) :: rest)) thing = Ok body.
Proof. simpl. now rewrite String.eqb_refl. Qed.

(** X19.  The error pair.  When neither the transport nor the parser
    reports an error and the first top-level key of the document holds
    [body]: if [body.Error] is truthy and [body.ErrorCode[0]] can be read,
    the promise of [fetch] is rejected with [{error: Error[0], code:
    ErrorCode[0]}]; if [body.Error] is absent (falsy), it is fulfilled with
    the document itself. *)
Theorem fetch_error_pair (E : KAMAR.env) (this : KAMAR.session) (form : value)
  (thing : string) (body : value) (rest : list (string * value)) :
  JS.truthy (KAMAR.req_err (KAMAR.wire E (KAMAR.request_options this form))) = false ->
  JS.truthy (KAMAR.parse_err (KAMAR.wire E (KAMAR.request_options this form))) = false ->
  KAMAR.parsed (KAMAR.wire E (KAMAR.request_options this form))
  = VObj ((thing, body) :: rest) ->
  (forall e ec e0 c0,
      JS.get body "Error" = Ok e -> JS.truthy e = true ->
      JS.idx e 0 = Ok e0 ->
      JS.get body "ErrorCode" = Ok ec -> JS.idx ec 0 = Ok c0 ->
      KAMAR.fetch E this form = Rejected (VObj [("error", e0); ("code", c0)])) /\
  (forall e,
      JS.get body "Error" = Ok e -> JS.truthy e = false ->
      KAMAR.fetch E this form = Fulfilled (VObj ((thing, body) :: rest))).
Proof.
  intros Hreq Hparse Hdoc.
  unfold KAMAR.fetch, KAMAR.on_response, KAMAR.on_parsed.
  rewrite Hreq, Hparse, Hdoc.
  unfold KAMAR.check_error.
  change (JS.keys (VObj ((thing, body) :: rest))) with (Ok (thing :: map fst rest)).
  cbv beta iota delta [bind hd]. rewrite get_first_key.
  split.
  - intros e ec e0 c0 He Ht He0 Hec Hc0.
    rewrite He, Ht, He0, Hec, Hc0. reflexivity.
  - intros e He Ht. rewrite He, Ht. reflexivity.
Qed.

Lemma fetch_error_pair_witness :
  KAMAR.fetch (answering error_with_code) school (VObj [("Command", VStr "Logon")])
  = Rejected (VObj [("error", VStr "Invalid key"); ("code", VStr "3")]) /\
  KAMAR.fetch (answering ncea_doc) school (VObj [("Command", VStr "GetStudentNCEASummary")])
  = Fulfilled ncea_doc.
Proof.
  split.
  - refine (proj1 (fetch_error_pair (answering error_with_code) school _
                     "LogonResults" _ [] eq_refl eq_refl eq_refl)
              (VArr [VStr "Invalid key"]) (VArr [VStr "3"]) _ _
              eq_refl eq_refl eq_refl eq_refl eq_refl).
  - refine (proj2 (fetch_error_pair (answering ncea_doc) school _
                     "StudentNCEASummaryResults" _ [] eq_refl eq_refl eq_refl)
              VUndef eq_refl eq_refl).
Defined.

(** C7.  [Error] without [ErrorCode].  The document reports an error, so
    the code takes the branch that calls [reject] with the error pair; but
    building the pair reads [ErrorCode[0]] of an [ErrorCode] that is not
    there, which raises inside the parser's callback before [reject] is
    called.  Nothing settles the promise of [fetch]: it is neither
    rejected, as it is on every other failure, nor fulfilled. *)
Theorem fetch_error_without_code (E : KAMAR.env) (this : KAMAR.session)
  (form : value) (thing : string) (body : value) (rest : list (string * value))
  (e e0 ec : value) :
  JS.truthy (KAMAR.req_err (KAMAR.wire E (KAMAR.request_options this form))) = false ->
  JS.truthy (KAMAR.parse_err (KAMAR.wire E (KAMAR.request_options this form))) = false ->
  KAMAR.parsed (KAMAR.wire E (KAMAR.request_options this form))
  = VObj ((thing, body) :: rest) ->
  JS.get body "Error" = Ok e -> JS.truthy e = true -> JS.idx e 0 = Ok e0 ->
  JS.get body "ErrorCode" = Ok ec -> nullish ec = true ->
  KAMAR.check_error (VObj ((thing, body) :: rest)) = Throw type_error /\
  KAMAR.fetch E this form = Pending.
Proof.
  intros Hreq Hparse Hdoc He Ht He0 Hec Hnull.
  assert (Hidx : JS.idx ec 0 = Throw type_error)
    by (destruct ec; try discriminate Hnull; reflexivity).
  assert (Hcheck : KAMAR.check_error (VObj ((thing, body) :: rest)) = Throw type_error).
  { unfold KAMAR.check_error.
    change (JS.keys (VObj ((thing, body) :: rest))) with (Ok (thing :: map fst rest)).
    cbv beta iota zeta delta [bind hd]. rewrite get_first_key.
    rewrite He, Ht, He0, Hec, Hidx. reflexivity. }
  split; [exact Hcheck|].
  unfold KAMAR.fetch, KAMAR.on_response, KAMAR.on_parsed.
  rewrite Hreq, Hparse, Hdoc, Hcheck. reflexivity.
Qed.

Lemma fetch_error_without_code_witness :
  KAMAR.check_error error_without_code = Throw type_error /\
  KAMAR.fetch (answering error_without_code) school (VObj [("Command", VStr "Logon")])
  = Pending.
Proof.
  exact (fetch_error_without_code (answering error_without_code) school
           (VObj [("Command", VStr "Logon")]) "LogonResults"
           (VObj [("Error", VArr [VStr "Invalid key"])]) []
           (VArr [VStr "Invalid key"]) (VStr "Invalid key") VUndef
           eq_refl eq_refl eq_refl eq_refl eq_refl eq_refl eq_refl eq_refl).
Defined.

(** ** The NCEA summary *)

Ltac bind_ok H :=
  cbv beta iota delta [bind] in H;
  repeat match type of H with
         | match ?m with Ok _ => _ | Throw _ => _ end = Ok _ =>
             let x := fresh "x" in
             destruct m as [x|] eqn:?; [|discriminate H]
         end.

Lemma summary_is_object (student obj : value) :
  KAMAR.summary student = Ok obj -> exists fs, obj = VObj fs.
Proof.
  unfold KAMAR.summary. intros H. bind_ok H.
  inversion H; subst. eexists; reflexivity.
Qed.

(** C9.  When the request succeeds and the summary object is built, the
    promise of [getNCEASummary] is fulfilled with [null]: [resolve] is
    called with [null] first and the summary second, and the summary is
    not what the promise carries. *)
Theorem summary_resolves_null (E : KAMAR.env) (this : KAMAR.session)
  (c : KAMAR.credentials) (response student obj : value) :
  KAMAR.fetch E this (KAMAR.summary_form c) = Fulfilled response ->
  KAMAR.summary_student response = Ok student ->
  KAMAR.summary student = Ok obj ->
  KAMAR.summary_cb response = Ok (resolve_call [VNull; obj]) /\
  KAMAR.returned (KAMAR.getNCEASummary E this c) = Fulfilled VNull /\
  KAMAR.returned (KAMAR.getNCEASummary E this c) <> Fulfilled obj.
Proof.
  intros Hf Hs Ho.
  assert (Hcb : KAMAR.summary_cb response = Ok (resolve_call [VNull; obj])).
  { unfold KAMAR.summary_cb. rewrite Hs; simpl. rewrite Ho; reflexivity. }
  assert (Hret : KAMAR.returned (KAMAR.getNCEASummary E this c) = Fulfilled VNull).
  { unfold KAMAR.getNCEASummary; simpl. rewrite Hf; simpl. now rewrite Hcb. }
  repeat split; [exact Hcb|exact Hret|].
  rewrite Hret. intros Heq. inversion Heq as [Hobj].
  destruct (summary_is_object _ _ Ho) as [fs Hfs]. congruence.
Qed.

Lemma summary_resolves_null_witness :
  KAMAR.returned (KAMAR.getNCEASummary (answering ncea_doc) school student15)
  = Fulfilled VNull.
Proof.
  refine (proj1 (proj2 (summary_resolves_null (answering ncea_doc) school student15
                          ncea_doc ncea_student _ eq_refl eq_refl eq_refl))).
Defined.

Lemma get_prop (v : value) (k : string) :
  nullish v = false -> JS.get v k = Ok (prop v k).
Proof.
  unfold prop. destruct v; simpl; intros H; try discriminate; try reflexivity.
  - destruct (String.eqb k "length"); [reflexivity|].
    destruct (JS.index_of_key k (String.length s)); reflexivity.
  - destruct (String.eqb k "length"); [reflexivity|].
    destruct (JS.index_of_key k (List.length xs)); reflexivity.
  - destruct (String.eqb k "message"); [reflexivity|].
    destruct (String.eqb k "name"); reflexivity.
Qed.

Lemma idx_first (v : value) :
  nullish v = false -> JS.idx v 0 = Ok (first v).
Proof.
  unfold first. destruct v; simpl; intros H; try discriminate; reflexivity.
Qed.

Lemma truthy_not_nullish (v : value) : JS.truthy v = true -> nullish v = false.
Proof. destruct v; simpl; congruence. Qed.

Lemma credit_cell_shown (bucket b0 : value) (f : string) :
  JS.idx bucket 0 = Ok b0 -> nullish b0 = false ->
  KAMAR.credit_cell bucket bucket f = Ok (shown (prop b0 f)).
Proof.
  intros Hb Hn. unfold KAMAR.credit_cell, shown.
  rewrite Hb; cbv beta iota delta [bind].
  rewrite (get_prop _ _ Hn).
  destruct (JS.truthy (prop b0 f)); reflexivity.
Qed.

Lemma tt_cell_shown (si : value) (col : string) :
  JS.truthy si = true ->
  KAMAR.tt_cell si col = Ok (shown_text (prop si col)).
Proof.
  intros Hs. unfold KAMAR.tt_cell, shown_text. rewrite Hs.
  rewrite (get_prop _ _ (truthy_not_nullish _ Hs)); cbv beta iota delta [bind].
  destruct (JS.truthy (prop si col)) eqn:Ht; simpl; [|reflexivity].
  now rewrite (idx_first _ (truthy_not_nullish _ Ht)).
Qed.

Lemma append_assoc (a b c : string) : ((a ++ b) ++ c = a ++ (b ++ c))%string.
Proof. induction a as [|x a IH]; simpl; [reflexivity|now rewrite IH]. Qed.

Lemma append_empty (a : string) : (a ++ "")%string = a.
Proof. induction a as [|x a IH]; simpl; [reflexivity|now rewrite IH]. Qed.

Lemma tt_cells_shown (si : value) :
  JS.truthy si = true ->
  forall (cs : list string) (ri : string),
    KAMAR.tt_cells si cs ri
    = Ok (ri ++ String.concat ""
                  (map (fun f => "<td>" ++ shown_text (prop si f) ++ "</td>") cs)).
Proof.
  intros Hs. induction cs as [|col cs IH]; intros ri.
  - simpl. now rewrite append_empty.
  - cbn [KAMAR.tt_cells]. rewrite (tt_cell_shown _ _ Hs).
    cbv beta iota delta [bind]. rewrite IH. f_equal.
    rewrite append_assoc. f_equal.
    destruct cs as [|col' cs]; [|reflexivity].
    cbn [map String.concat]. now rewrite append_empty.
Qed.




(** ** Grades *)

Lemma prefix_spec (n s : string) :
  String.prefix n s = true <-> exists post, s = (n ++ post)%string.
Proof.
  revert s; induction n as [|a n IH]; intros s.
  - destruct s; simpl; split; eauto.
  - destruct s as [|b s]; simpl.
    + split; [discriminate|]. intros [post H]; discriminate.
    + destruct (Ascii.ascii_dec a b) as [->|Hab].
      * rewrite IH. split; intros [post H]; exists post.
        -- now rewrite H.
        -- now inversion H.
      * split; [discriminate|]. intros [post H]; inversion H; congruence.
Qed.

Lemma includes_spec (n s : string) : Str.includes n s = true <-> occurs n s.
Proof.
  split.
  - induction s as [|c s IH]; intros H; cbn [Str.includes] in H.
    + apply orb_true_iff in H as [H|H]; [|discriminate].
      apply prefix_spec in H as [post Hp]. exists "", post. exact Hp.
    + apply orb_true_iff in H as [H|H].
      * apply prefix_spec in H as [post Hp]. exists "", post. exact Hp.
      * destruct (IH H) as (pre & post & Hs). exists (String c pre), post.
        simpl. now rewrite Hs.
  - intros (pre & post & Hs). subst s.
    induction pre as [|c pre IH].
    + assert (Hp : String.prefix n (n ++ post) = true)
        by (apply prefix_spec; now exists post).
      change (("" ++ n ++ post)%string) with ((n ++ post)%string).
      destruct (n ++ post)%string; cbn [Str.includes]; now rewrite Hp.
    + change ((String c pre ++ n ++ post)%string)
        with (String c (pre ++ n ++ post)).
      cbn [Str.includes]. rewrite IH. apply orb_true_r.
Qed.

Lemma includes_false (n s : string) : Str.includes n s = false <-> ~ occurs n s.
Proof.
  rewrite <- includes_spec. destruct (Str.includes n s); split; congruence.
Qed.

Ltac grade_cases :=
  repeat split; intros; repeat split;
  try contradiction; try reflexivity;
  try match goal with
      | H : _ \/ _ |- _ => destruct H; contradiction
      end.

(** C5, as the code has it.  For every raw grade text [colourGrade]
    returns, without raising, the pair of the raw text and a normalized
    grade chosen by the first test that holds, in the order Excellence,
    Merit, Not, Achievement/Achieved; so a text containing "Excellence" gets
    E whatever else it contains.  When no test holds the normalized grade
    is the raw text itself and one line is logged. *)
Theorem colourGrade_first_match (grade : string) :
  exists norm log,
    KAMAR.colourGrade (VStr grade) = Ok (VArr [VStr grade; VStr norm], log) /\
    (occurs "Excellence" grade -> norm = "E" /\ log = []) /\
    (~ occurs "Excellence" grade -> occurs "Merit" grade ->
     norm = "M" /\ log = []) /\
    (~ occurs "Excellence" grade -> ~ occurs "Merit" grade -> occurs "Not" grade ->
     norm = "N" /\ log = []) /\
    (~ occurs "Excellence" grade -> ~ occurs "Merit" grade -> ~ occurs "Not" grade ->
     occurs "Achievement" grade \/ occurs "Achieved" grade ->
     norm = "A" /\ log = []) /\
    (~ occurs "Excellence" grade -> ~ occurs "Merit" grade -> ~ occurs "Not" grade ->
     ~ occurs "Achievement" grade -> ~ occurs "Achieved" grade ->
     norm = grade /\ log = [[VStr "Incomprehensible"; VStr grade]]).
Proof.
  unfold KAMAR.colourGrade, KAMAR.matches_achieve.
  destruct (Str.includes "Excellence" grade) eqn:HE;
    [apply includes_spec in HE | apply includes_false in HE].
  { exists "E", []. grade_cases. }
  destruct (Str.includes "Merit" grade) eqn:HM;
    [apply includes_spec in HM | apply includes_false in HM].
  { exists "M", []. grade_cases. }
  destruct (Str.includes "Not" grade) eqn:HN;
    [apply includes_spec in HN | apply includes_false in HN].
  { exists "N", []. grade_cases. }
  destruct (Str.includes "Achievement" grade) eqn:HA1;
    [apply includes_spec in HA1 | apply includes_false in HA1].
  { exists "A", []. grade_cases. }
  destruct (Str.includes "Achieved" grade) eqn:HA2;
    [apply includes_spec in HA2 | apply includes_false in HA2].
  { exists "A", []. grade_cases. }
  exists grade, [[VStr "Incomprehensible"; VStr grade]]. grade_cases.
Qed.

Lemma colourGrade_first_match_witness :
  KAMAR.colourGrade (VStr "Achieved with Excellence")
  = Ok (VArr [VStr "Achieved with Excellence"; VStr "E"], []).
Proof.
  destruct (colourGrade_first_match "Achieved with Excellence")
    as (norm & log & Heq & HE & _).
  destruct HE as [Hn Hl].
  - exists "Achieved with ", "". reflexivity.
  - rewrite Heq, Hn, Hl. reflexivity.
Defined.

(** C5 fails: the grade text A passes none of the four tests, and its
    normalized grade is the text A again, not a mark of its own. *)
Lemma unmatched_grade_kept :
  Str.includes "Excellence" "A" = false /\
  Str.includes "Merit" "A" = false /\
  Str.includes "Not" "A" = false /\
  KAMAR.matches_achieve "A" = false /\
  KAMAR.colourGrade (VStr "A")
  = Ok (VArr [VStr "A"; VStr "A"], [[VStr "Incomprehensible"; VStr "A"]]).
Proof. repeat split. Qed.

(** ** Attendance *)

Lemma assoc_set_same (k : string) (v : value) (fs : list (string * value)) :
  JS.assoc k (JS.set_field k v fs) = v.
Proof.
  induction fs as [|[k' v'] fs IH]; simpl.
  - now rewrite String.eqb_refl.
  - destruct (String.eqb k k') eqn:Hk; simpl; rewrite ?String.eqb_refl, ?Hk; auto.
Qed.

Lemma assoc_set_other (k k' : string) (v : value) (fs : list (string * value)) :
  k <> k' -> JS.assoc k (JS.set_field k' v fs) = JS.assoc k fs.
Proof.
  intros Hne. apply String.eqb_neq in Hne.
  induction fs as [|[k0 v0] fs IH]; simpl.
  - now rewrite Hne.
  - destruct (String.eqb k' k0) eqn:Hk; simpl.
    + apply String.eqb_eq in Hk; subst. now rewrite Hne.
    + now rewrite IH.
Qed.

Lemma day_key_inj (a b : nat) : a < 5 -> KAMAR.day_key b = KAMAR.day_key a -> b = a.
Proof.
  intros Ha.
  do 5 (destruct a as [|a]; [do 5 (destruct b as [|b]; [reflexivity || discriminate|]);
                             destruct b; discriminate|]).
  lia.
Qed.

Lemma fill_days_keeps (ds : list value) :
  forall (j0 : nat) (entry entry' : list (string * value)) (k : string),
    KAMAR.fill_days j0 ds entry = Ok entry' ->
    (forall j, j < List.length ds -> KAMAR.day_key (j0 + j) <> k) ->
    JS.assoc k entry' = JS.assoc k entry.
Proof.
  induction ds as [|d ds IH]; simpl; intros j0 entry entry' k H Hk.
  - now inversion H.
  - destruct (KAMAR.day_status d) as [st|]; simpl in H; [|discriminate].
    rewrite (IH _ _ _ _ H).
    + apply assoc_set_other. specialize (Hk 0). rewrite Nat.add_0_r in Hk.
      intros ->. apply Hk; [lia|reflexivity].
    + intros j Hj. replace (S j0 + j) with (j0 + S j) by lia. apply Hk. lia.
Qed.

Lemma fill_days_sets (ds : list value) :
  forall (j0 : nat) (entry entry' : list (string * value)) (j : nat) (d : value),
    KAMAR.fill_days j0 ds entry = Ok entry' ->
    nth_error ds j = Some d -> j0 + j < 5 ->
    KAMAR.day_status d = Ok (JS.assoc (KAMAR.day_key (j0 + j)) entry').
Proof.
  induction ds as [|d0 ds IH]; intros j0 entry entry' j d H Hnth Hj.
  - destruct j; discriminate.
  - simpl in H.
    destruct (KAMAR.day_status d0) as [st|] eqn:Hst; simpl in H; [|discriminate].
    destruct j as [|j]; simpl in Hnth.
    + inversion Hnth; subst d0. rewrite Nat.add_0_r.
      rewrite (fill_days_keeps _ _ _ _ _ H).
      * now rewrite assoc_set_same.
      * intros j Hlt Heq. apply day_key_inj in Heq; lia.
    + replace (j0 + S j) with (S j0 + j) by lia.
      apply (IH _ _ _ _ _ H Hnth). lia.
Qed.

Lemma substring0_length (n : nat) (s : string) :
  String.length (String.substring 0 n s) = Nat.min n (String.length s).
Proof.
  revert s; induction n as [|n IH]; intros [|c s]; simpl; auto.
Qed.

Lemma keys_set_field (k : string) (v : value) (fs : list (string * value)) :
  map fst (JS.set_field k v fs)
  = if existsb (String.eqb k) (map fst fs) then map fst fs else (map fst fs ++ [k])%list.
Proof.
  induction fs as [|[k' v'] fs IH]; simpl; [reflexivity|].
  destruct (String.eqb k k') eqn:Hk; simpl.
  - apply String.eqb_eq in Hk. now subst.
  - rewrite IH. destruct (existsb (String.eqb k) (map fst fs)); reflexivity.
Qed.

Lemma week_keys_step (j : nat) :
  (if existsb (String.eqb (KAMAR.day_key j)) (week_keys j)
   then week_keys j
   else (week_keys j ++ [KAMAR.day_key j])%list)
  = week_keys (S j).
Proof.
  do 6 (destruct j as [|j]; [reflexivity|]). reflexivity.
Qed.

Lemma fill_days_keys (ds : list value) :
  forall (j : nat) (entry entry' : list (string * value)),
    KAMAR.fill_days j ds entry = Ok entry' ->
    map fst entry = week_keys j ->
    map fst entry' = week_keys (j + List.length ds).
Proof.
  induction ds as [|d ds IH]; simpl; intros j entry entry' H Hk.
  - inversion H; subst. now rewrite Nat.add_0_r.
  - destruct (KAMAR.day_status d) as [st|]; simpl in H; [|discriminate].
    replace (j + S (List.length ds)) with (S j + List.length ds) by lia.
    apply (IH _ _ _ H).
    rewrite keys_set_field, Hk. apply week_keys_step.
Qed.

(** A weekday beyond the day slots of the week is no field of the
    decoded week. *)
Lemma day_key_not_listed (n j : nat) :
  n <= j -> j < 5 -> ~ In (KAMAR.day_key j) (week_keys n).
Proof.
  intros Hn Hj.
  destruct j as [|[|[|[|[|j]]]]]; try lia;
    destruct n as [|[|[|[|[|n]]]]]; try lia;
    simpl; intuition discriminate.
Qed.

Lemma assoc_not_in (k : string) (fs : list (string * value)) :
  ~ In k (map fst fs) -> JS.assoc k fs = VUndef.
Proof.
  induction fs as [|[k' v] fs IH]; simpl; intros H; [reflexivity|].
  destruct (String.eqb k k') eqn:Hk.
  - apply String.eqb_eq in Hk. subst. exfalso. apply H. now left.
  - apply IH. intros Hin. apply H. now right.
Qed.

(** C6, as the code has it.  The day slots of a week entry go to the
    weekdays by position, slot [j] to weekday [j] (Mon..Fri).  For a
    weekday that has its slot, the status stored under its name is the
    first 7 characters of the slot's text: as long as the text when that
    is shorter than 7, and exactly 7 characters otherwise; a slot without
    text (or with empty text) gets the seven dashes.  For a weekday
    without a slot nothing is stored: the decoded week has no field of
    that name. *)
Theorem attendance_status (w : value) (entry : list (string * value))
  (ds : list value) (j : nat) :
  KAMAR.decode_week w = Ok (VObj entry) ->
  week_days w = Ok (VArr ds) ->
  j < 5 ->
  match nth_error ds j with
  | Some d =>
      exists t,
        JS.get d "_" = Ok t /\
        (JS.truthy t = false ->
         JS.assoc (KAMAR.day_key j) entry = VStr "-------") /\
        (forall s, t = VStr s -> s <> "" ->
           JS.assoc (KAMAR.day_key j) entry = VStr (String.substring 0 7 s) /\
           String.length (String.substring 0 7 s) = Nat.min 7 (String.length s))
  | None =>
      ~ In (KAMAR.day_key j) (map fst entry) /\
      JS.assoc (KAMAR.day_key j) entry = VUndef
  end.
Proof.
  intros Hw Hd Hj.
  unfold week_days in Hd.
  destruct (JS.get w "Days") as [dd|] eqn:Hdd; [|discriminate Hd].
  cbv beta iota delta [bind] in Hd.
  destruct (JS.idx dd 0) as [d0|] eqn:Hd0; [|discriminate Hd].
  unfold KAMAR.decode_week in Hw.
  destruct (JS.get w "WeekStart") as [ws|]; [|discriminate Hw].
  cbv beta iota delta [bind] in Hw.
  destruct (JS.idx ws 0) as [ws0|]; [|discriminate Hw].
  rewrite Hdd, Hd0, Hd in Hw. cbn [elements] in Hw.
  destruct (KAMAR.fill_days 0 ds [("$", ws0)]) as [e|] eqn:Hfill; [|discriminate Hw].
  inversion Hw; subst entry; clear Hw.
  destruct (nth_error ds j) as [d|] eqn:Hnth.
  - pose proof (fill_days_sets _ _ _ _ j d Hfill Hnth ltac:(lia)) as Hst.
    cbn [Nat.add] in Hst. unfold KAMAR.day_status in Hst.
    destruct (JS.get d "_") as [t|] eqn:Ht; [|discriminate Hst].
    cbv beta iota delta [bind] in Hst.
    exists t. split; [reflexivity|]. split.
    + intros Hf. unfold JS.or in Hst. rewrite Hf in Hst.
      simpl in Hst. now inversion Hst.
    + intros s -> Hs. unfold JS.or in Hst.
      assert (Htr : JS.truthy (VStr s) = true).
      { simpl. apply negb_true_iff, String.eqb_neq, Hs. }
      rewrite Htr in Hst. simpl in Hst. inversion Hst as [Heq].
      split; [reflexivity|apply substring0_length].
  - apply nth_error_None in Hnth.
    assert (Hnot : ~ In (KAMAR.day_key j) (map fst e)).
    { rewrite (fill_days_keys _ _ _ _ Hfill eq_refl). cbn [Nat.add].
      now apply day_key_not_listed. }
    split; [exact Hnot|now apply assoc_not_in].
Qed.

(** In the week of three slots Wednesday has its status, cut to 7
    characters, and Thursday has none. *)
Lemma attendance_status_witness :
  (exists t,
      JS.get wed_slot "_" = Ok t /\
      (JS.truthy t = false ->
       JS.assoc (KAMAR.day_key 2)
         [("$", VStr "2024-02-05"); ("Mon", VStr "PP"); ("Tue", VStr "-------");
          ("Wed", VStr "PPPPPPP")] = VStr "-------") /\
      (forall s, t = VStr s -> s <> "" ->
         JS.assoc (KAMAR.day_key 2)
           [("$", VStr "2024-02-05"); ("Mon", VStr "PP"); ("Tue", VStr "-------");
            ("Wed", VStr "PPPPPPP")] = VStr (String.substring 0 7 s) /\
         String.length (String.substring 0 7 s) = Nat.min 7 (String.length s))) /\
  (~ In "Thu" ["$"; "Mon"; "Tue"; "Wed"] /\
   JS.assoc "Thu"
     [("$", VStr "2024-02-05"); ("Mon", VStr "PP"); ("Tue", VStr "-------");
      ("Wed", VStr "PPPPPPP")] = VUndef).
Proof.
  split.
  - exact (attendance_status short_week _ [mon_slot; tue_slot; wed_slot] 2
             eq_refl eq_refl ltac:(lia)).
  - exact (attendance_status short_week _ [mon_slot; tue_slot; wed_slot] 3
             eq_refl eq_refl ltac:(lia)).
Defined.

(** C6 fails: a Monday slot whose text is PP decodes to the 2-character
    status PP; nothing pads it to 7. *)
Lemma short_status_kept :
  KAMAR.decode_week short_week
  = Ok (VObj [("$", VStr "2024-02-05"); ("Mon", VStr "PP"); ("Tue", VStr "-------");
              ("Wed", VStr "PPPPPPP")]) /\
  KAMAR.day_status mon_slot = Ok (VStr "PP") /\
  String.length "PP" = 2.
Proof. repeat split. Qed.

(** ** From attendance to timetable *)

Lemma get_truthy (v : value) (k : string) (x : value) :
  k <> "length" -> JS.get v k = Ok x -> nullish x = false -> JS.truthy v = true.
Proof.
  intros Hk H Hn. apply String.eqb_neq in Hk.
  destruct v; simpl in *; try discriminate; try reflexivity;
    try (inversion H; subst x; discriminate).
  rewrite Hk in H. destruct s; [|reflexivity].
  inversion H; subst x; discriminate.
Qed.

Lemma idx0_truthy (v x : value) :
  JS.idx v 0 = Ok x -> nullish x = false -> JS.truthy v = true.
Proof.
  intros H Hn.
  destruct v; simpl in *; try discriminate; try reflexivity;
    try (inversion H; subst x; discriminate).
  destruct s; [|reflexivity]. inversion H; subst x; discriminate.
Qed.

Lemma get_ok_not_nullish (v : value) (k : string) (x : value) :
  JS.get v k = Ok x -> nullish v = false.
Proof. destruct v; simpl; intros; congruence. Qed.

(** With the week entries in place the callback decodes them and then
    stores their number. *)
Lemma absences_cb_weeks (response : value) (this : KAMAR.session) (weeks : list value) :
  attendance_weeks response = Ok (VArr weeks) ->
  KAMAR.absences_cb response this =
  (Absences <- mapM KAMAR.decode_week weeks ;;
   Ok (KAMAR.set_WkNo (List.length Absences) this, resolve (VArr Absences))).
Proof.
  unfold attendance_weeks. intros H.
  destruct (JS.get response "StudentAttendanceResults") as [sar|] eqn:Hsar;
    [|discriminate H].
  cbv beta iota delta [bind] in H.
  destruct (JS.get sar "Weeks") as [wks|] eqn:Hwks; [|discriminate H].
  destruct (JS.idx wks 0) as [w0|] eqn:Hw0; [|discriminate H].
  assert (Tw : JS.truthy wks = true)
    by (apply (idx0_truthy _ _ Hw0), (get_ok_not_nullish _ _ _ H)).
  assert (Ts : JS.truthy sar = true).
  { apply (get_truthy _ "Weeks" _ ltac:(discriminate) Hwks).
    now apply truthy_not_nullish. }
  assert (Tr : JS.truthy response = true).
  { apply (get_truthy _ "StudentAttendanceResults" _ ltac:(discriminate) Hsar).
    now apply truthy_not_nullish. }
  unfold KAMAR.absences_cb.
  rewrite Tr, Hsar. cbv beta iota delta [bind]. rewrite Ts, Hwks, Tw, Hw0, H.
  reflexivity.
Qed.

Ltac break_bind :=
  cbv beta iota delta [bind];
  repeat match goal with
         | |- context [match ?m with Ok _ => _ | Throw _ => _ end] =>
             destruct m eqn:?
         | |- context [if ?b then _ else _] => destruct b eqn:?
         end.

Lemma absences_cb_cases (response : value) (this : KAMAR.session) :
  (exists e, KAMAR.absences_cb response this = Throw e) \/
  KAMAR.absences_cb response this
  = Ok (KAMAR.set_WkNo 1 this, reject KAMAR.no_absences) \/
  (exists decoded,
      KAMAR.absences_cb response this
      = Ok (KAMAR.set_WkNo (List.length decoded) this, resolve (VArr decoded))).
Proof.
  unfold KAMAR.absences_cb. break_bind;
    first [ left; eexists; reflexivity
          | right; left; reflexivity
          | right; right; eexists; reflexivity ].
Qed.

Lemma timetable_data_doc (wks : list (string * value)) :
  KAMAR.timetable_data (timetable_doc wks) = Ok (VArr [VObj wks]).
Proof. reflexivity. Qed.

Lemma timetable_data_school (wks : list (string * value)) :
  KAMAR.timetable_data (school_timetable wks) = Ok (VArr [VObj wks]).
Proof. reflexivity. Qed.

(** The weeks of the examples are held in the sense of [holds_week],
    bare or beside the attributes of their week. *)
Lemma week_entry_holds (wks : list (string * value)) (key : string) (d : week_strings) :
  JS.assoc key wks = week_entry d -> holds_week (VArr [VObj wks]) key d.
Proof.
  intros H. exists (VObj wks), (week_entry d), (VObj (week_fields d)).
  simpl. rewrite H. repeat split.
Qed.

Lemma listed_week_holds (wks : list (string * value)) (key number : string)
  (d : week_strings) :
  JS.assoc key wks = listed_week number d -> holds_week (VArr [VObj wks]) key d.
Proof.
  intros H.
  exists (VObj wks), (listed_week number d),
    (VObj (("$", VObj [("index", VStr number)]) :: week_fields d)).
  simpl. rewrite H. repeat split.
Qed.

Lemma missing_key_lacks (wks : list (string * value)) (key : string) :
  JS.assoc key wks = VUndef -> lacks_week (VArr [VObj wks]) key.
Proof. intros H. exists (VObj wks). simpl. now rewrite H. Qed.

(** What [TT[0]['W' + WeekNumber][0]['D' + day][0]] reads of a week that
    is held. *)
Lemma day_string_holds (TT : value) (W : nat) (d : week_strings) :
  holds_week TT ("W" ++ Str.of_nat W) d ->
  KAMAR.day_string TT W 1 = Ok (VStr (D1 d)) /\
  KAMAR.day_string TT W 2 = Ok (VStr (D2 d)) /\
  KAMAR.day_string TT W 3 = Ok (VStr (D3 d)) /\
  KAMAR.day_string TT W 4 = Ok (VStr (D4 d)) /\
  KAMAR.day_string TT W 5 = Ok (VStr (D5 d)).
Proof.
  intros (t0 & w & w0 & Ht & Hw & Hw0 & H1 & H2 & H3 & H4 & H5).
  unfold KAMAR.day_string. rewrite Ht. cbv beta iota delta [bind].
  rewrite Hw. cbv beta iota. rewrite Hw0. cbv beta iota.
  repeat split; [exact H1|exact H2|exact H3|exact H4|exact H5].
Qed.

Lemma day_string_lacks (TT : value) (W day : nat) :
  lacks_week TT ("W" ++ Str.of_nat W) ->
  KAMAR.day_string TT W day = Throw type_error.
Proof.
  intros (t0 & Ht & Hw). unfold KAMAR.day_string.
  rewrite Ht. cbv beta iota delta [bind]. rewrite Hw. reflexivity.
Qed.

Lemma HTMout_day_full (TT : value) (W day : nat) (raw : string) :
  KAMAR.day_string TT W day = Ok (VStr raw) ->
  7 <= Str.count "|" raw ->
  KAMAR.HTMout_day TT W day =
  Ok (VStr ("D-" ++ Str.of_nat day)
        :: map (fun p => period_of (Str.split "-" (nth p (Str.split "|" raw) "")))
             (seq 1 7)).
Proof.
  intros H Hc. unfold KAMAR.HTMout_day. rewrite H.
  cbv beta iota delta [bind]. now apply decode_day_ok.
Qed.

Lemma HTMout_day_short (TT : value) (W day : nat) (raw : string) :
  KAMAR.day_string TT W day = Ok (VStr raw) ->
  Str.count "|" raw < 7 ->
  KAMAR.HTMout_day TT W day = Throw type_error.
Proof.
  intros H Hc. unfold KAMAR.HTMout_day. rewrite H.
  cbv beta iota delta [bind]. now apply decode_day_throw.
Qed.

Lemma getTimetableForWeek_holds (response TT : value) (n off : nat) (d : week_strings) :
  KAMAR.timetable_data response = Ok TT ->
  holds_week TT ("W" ++ Str.of_nat (n + off)) d ->
  full_days d ->
  KAMAR.getTimetableForWeek response n off = Ok (week_of (n + off) d).
Proof.
  intros HT HW (F1 & F2 & F3 & F4 & F5).
  destruct (day_string_holds _ _ _ HW) as (S1 & S2 & S3 & S4 & S5).
  unfold KAMAR.getTimetableForWeek. rewrite HT.
  cbv beta iota zeta delta [bind].
  rewrite (HTMout_day_full _ _ 1 _ S1 F1).
  rewrite (HTMout_day_full _ _ 2 _ S2 F2).
  rewrite (HTMout_day_full _ _ 3 _ S3 F3).
  rewrite (HTMout_day_full _ _ 4 _ S4 F4).
  rewrite (HTMout_day_full _ _ 5 _ S5 F5).
  reflexivity.
Qed.

Lemma getTimetableForWeek_lacks (response TT : value) (n off : nat) :
  KAMAR.timetable_data response = Ok TT ->
  lacks_week TT ("W" ++ Str.of_nat (n + off)) ->
  KAMAR.getTimetableForWeek response n off = Throw type_error.
Proof.
  intros HT HW. unfold KAMAR.getTimetableForWeek. rewrite HT.
  cbv beta iota zeta delta [bind].
  unfold KAMAR.HTMout_day at 1.
  rewrite (day_string_lacks _ _ 1 HW). reflexivity.
Qed.

(** *** What the decoding can raise

    Every exception of the timetable decoding is the TypeError of a
    property read on [undefined] or [null], or of [split] on what is not a
    string. *)

Lemma get_throws (v : value) (k : string) (e : value) :
  JS.get v k = Throw e -> e = type_error.
Proof.
  destruct v; simpl; intros H;
    repeat match type of H with
           | context [if ?b then _ else _] => destruct b
           | context [match ?o with Some _ => _ | None => _ end] => destruct o
           end; congruence.
Qed.

Lemma idx_throws (v : value) (i : nat) (e : value) :
  JS.idx v i = Throw e -> e = type_error.
Proof. destruct v; simpl; congruence. Qed.

Lemma split_throws (v : value) (sep : ascii) (e : value) :
  JS.split v sep = Throw e -> e = type_error.
Proof. destruct v; simpl; congruence. Qed.

Lemma decode_period_throws (slot e : value) :
  KAMAR.decode_period slot = Throw e -> e = type_error.
Proof.
  unfold KAMAR.decode_period.
  destruct (JS.split slot "-") eqn:Hs; cbv beta iota delta [bind]; intros H;
    [discriminate|].
  inversion H; subst. eapply split_throws; eassumption.
Qed.

Lemma mapM_throws {A B : Type} (f : A -> outcome B) (e0 : value) (l : list A) :
  (forall a e, f a = Throw e -> e = e0) ->
  forall e, mapM f l = Throw e -> e = e0.
Proof.
  intros Hf. induction l as [|a l IH]; simpl; intros e H; [discriminate|].
  cbv beta iota delta [bind] in H.
  destruct (f a) eqn:Ha.
  - destruct (mapM f l); [discriminate|]. inversion H; subst. now apply IH.
  - inversion H; subst. eapply Hf; eassumption.
Qed.

Lemma decode_day_throws (raw : value) (day : nat) (e : value) :
  KAMAR.decode_day raw day = Throw e -> e = type_error.
Proof.
  unfold KAMAR.decode_day.
  destruct (JS.split raw "|") eqn:Hs; cbv beta iota zeta delta [bind]; intros H.
  - match type of H with
    | match ?m with Ok _ => _ | Throw _ => _ end = _ => destruct m eqn:Hm
    end; [discriminate|].
    inversion H; subst.
    eapply mapM_throws; [|exact Hm].
    intros slot e0. apply decode_period_throws.
  - inversion H; subst. eapply split_throws; eassumption.
Qed.

Ltac throw_cases H :=
  cbv beta iota zeta delta [bind] in H;
  repeat match type of H with
         | match ?m with Ok _ => _ | Throw _ => _ end = Throw _ =>
             destruct m eqn:?;
             [|inversion H; subst;
               first [ eapply get_throws; eassumption
                     | eapply idx_throws; eassumption
                     | eapply decode_day_throws; eassumption
                     | eauto ] ]
         end.

Lemma day_string_throws (TT : value) (W day : nat) (e : value) :
  KAMAR.day_string TT W day = Throw e -> e = type_error.
Proof.
  unfold KAMAR.day_string. intros H. throw_cases H.
  eapply idx_throws; eassumption.
Qed.

Lemma HTMout_day_throws (TT : value) (W day : nat) (e : value) :
  KAMAR.HTMout_day TT W day = Throw e -> e = type_error.
Proof.
  unfold KAMAR.HTMout_day. intros H.
  destruct (KAMAR.day_string TT W day) eqn:Hd; cbv beta iota delta [bind] in H.
  - eapply decode_day_throws; eassumption.
  - inversion H; subst. eapply day_string_throws; eassumption.
Qed.

Lemma timetable_data_throws (response e : value) :
  KAMAR.timetable_data response = Throw e -> e = type_error.
Proof.
  unfold KAMAR.timetable_data. intros H. throw_cases H.
  eapply get_throws; eassumption.
Qed.

Lemma getTimetableForWeek_throws (response : value) (n off : nat) (e : value) :
  KAMAR.getTimetableForWeek response n off = Throw e -> e = type_error.
Proof.
  unfold KAMAR.getTimetableForWeek. intros H.
  destruct (KAMAR.timetable_data response) eqn:HT;
    cbv beta iota zeta delta [bind] in H;
    [|inversion H; subst; eapply timetable_data_throws; eassumption].
  repeat match type of H with
         | match ?m with Ok _ => _ | Throw _ => _ end = Throw _ =>
             destruct m eqn:?;
             [|inversion H; subst; eapply HTMout_day_throws; eassumption]
         end.
  discriminate H.
Qed.

(** One short day string among the five of a week is enough for the week
    to fail. *)
Lemma getTimetableForWeek_short (response TT : value) (n off day : nat)
  (raw : string) :
  KAMAR.timetable_data response = Ok TT ->
  1 <= day <= 5 ->
  KAMAR.day_string TT (n + off) day = Ok (VStr raw) ->
  Str.count "|" raw < 7 ->
  KAMAR.getTimetableForWeek response n off = Throw type_error.
Proof.
  intros HT Hday Hs Hc.
  pose proof (HTMout_day_short _ _ _ _ Hs Hc) as Hout.
  destruct (KAMAR.getTimetableForWeek response n off) as [wk|e] eqn:G.
  - exfalso. unfold KAMAR.getTimetableForWeek in G. rewrite HT in G.
    cbv beta iota zeta delta [bind] in G.
    destruct (KAMAR.HTMout_day TT (n + off) 1) eqn:G1; [|discriminate G].
    destruct (KAMAR.HTMout_day TT (n + off) 2) eqn:G2; [|discriminate G].
    destruct (KAMAR.HTMout_day TT (n + off) 3) eqn:G3; [|discriminate G].
    destruct (KAMAR.HTMout_day TT (n + off) 4) eqn:G4; [|discriminate G].
    destruct (KAMAR.HTMout_day TT (n + off) 5) eqn:G5; [|discriminate G].
    assert (D : day = 1 \/ day = 2 \/ day = 3 \/ day = 4 \/ day = 5) by lia.
    destruct D as [D|[D|[D|[D|D]]]]; subst day; congruence.
  - f_equal. eapply getTimetableForWeek_throws; eassumption.
Qed.

(** *** getTimeTable on a session with a week number *)

Lemma getTimeTable_issues (eq10 : value -> bool) (E : KAMAR.env)
  (this : KAMAR.session) (c : KAMAR.credentials) (n : nat) :
  KAMAR.WkNo this = Some n -> 1 <= n ->
  KAMAR.getTimeTable eq10 E this c
  = {| KAMAR.self := this;
       KAMAR.returned :=
         then_catch (KAMAR.fetch E this (KAMAR.timetable_form eq10 this c))
           (KAMAR.timetable_cb n);
       KAMAR.issued := [KAMAR.timetable_form eq10 this c] |}.
Proof.
  intros Hw Hn. unfold KAMAR.getTimeTable. rewrite Hw.
  assert (Hno : KAMAR.no_week (Some n) = false) by (simpl; apply Nat.eqb_neq; lia).
  now rewrite Hno.
Qed.

(** The form that goes out is one of the two timetable commands, with the
    caller's key and the session's grid; no week number travels with it. *)
Lemma timetable_form_fields (eq10 : value -> bool) (this : KAMAR.session)
  (c : KAMAR.credentials) :
  (prop (KAMAR.timetable_form eq10 this c) "Command" = VStr "GetStudentTimetable" \/
   prop (KAMAR.timetable_form eq10 this c) "Command" = VStr "GetTeacherTimetable") /\
  prop (KAMAR.timetable_form eq10 this c) "Key" = KAMAR.key c /\
  prop (KAMAR.timetable_form eq10 this c) "Grid" = KAMAR.TT this.
Proof.
  unfold KAMAR.timetable_form.
  destruct (JS.truthy (KAMAR.authLevel c) && eq10 (KAMAR.authLevel c));
    repeat split; auto.
Qed.

(** With the two weeks in place and every day string full,
    [getTimeTable] fulfils with the two decoded weeks. *)
Lemma getTimeTable_weeks (eq10 : value -> bool) (E : KAMAR.env)
  (this : KAMAR.session) (c : KAMAR.credentials)
  (n : nat) (response TT : value) (A B : week_strings) :
  KAMAR.WkNo this = Some n -> 1 <= n ->
  KAMAR.fetch E this (KAMAR.timetable_form eq10 this c) = Fulfilled response ->
  KAMAR.timetable_data response = Ok TT ->
  holds_week TT ("W" ++ Str.of_nat n) A ->
  holds_week TT ("W" ++ Str.of_nat (n + 1)) B ->
  full_days A -> full_days B ->
  KAMAR.returned (KAMAR.getTimeTable eq10 E this c)
  = Fulfilled (VObj [("thisWk", week_of n A); ("nextWk", week_of (n + 1) B)]).
Proof.
  intros Hw Hn Hf HT HA HB FA FB.
  rewrite (getTimeTable_issues eq10 E this c n Hw Hn).
  cbn [KAMAR.returned]. rewrite Hf.
  unfold then_catch, KAMAR.timetable_cb.
  rewrite <- (Nat.add_0_r n) in HA.
  rewrite (getTimetableForWeek_holds _ _ n 0 A HT HA FA).
  rewrite (getTimetableForWeek_holds _ _ n 1 B HT HB FB).
  rewrite Nat.add_0_r. reflexivity.
Qed.

(** A short day string in either week rejects the whole call. *)
Lemma getTimeTable_short (eq10 : value -> bool) (E : KAMAR.env)
  (this : KAMAR.session) (c : KAMAR.credentials)
  (n : nat) (response TT : value) (W day : nat) (raw : string) :
  KAMAR.WkNo this = Some n -> 1 <= n ->
  KAMAR.fetch E this (KAMAR.timetable_form eq10 this c) = Fulfilled response ->
  KAMAR.timetable_data response = Ok TT ->
  W = n \/ W = n + 1 ->
  1 <= day <= 5 ->
  KAMAR.day_string TT W day = Ok (VStr raw) ->
  Str.count "|" raw < 7 ->
  KAMAR.returned (KAMAR.getTimeTable eq10 E this c) = Rejected type_error.
Proof.
  intros Hw Hn Hf HT HW Hday Hs Hc.
  rewrite (getTimeTable_issues eq10 E this c n Hw Hn).
  cbn [KAMAR.returned]. rewrite Hf.
  unfold then_catch, KAMAR.timetable_cb.
  destruct HW as [HW|HW]; subst W.
  - rewrite <- (Nat.add_0_r n) in Hs.
    now rewrite (getTimetableForWeek_short _ _ n 0 day raw HT Hday Hs Hc).
  - destruct (KAMAR.getTimetableForWeek response n 0) as [wk|e] eqn:G;
      cbv beta iota delta [bind].
    + now rewrite (getTimetableForWeek_short _ _ n 1 day raw HT Hday Hs Hc).
    + f_equal. eapply getTimetableForWeek_throws; eassumption.
Qed.

(** A missing week, this one or the next, rejects the whole call. *)
Lemma getTimeTable_lacks (eq10 : value -> bool) (E : KAMAR.env)
  (this : KAMAR.session) (c : KAMAR.credentials)
  (n : nat) (response TT : value) (W : nat) :
  KAMAR.WkNo this = Some n -> 1 <= n ->
  KAMAR.fetch E this (KAMAR.timetable_form eq10 this c) = Fulfilled response ->
  KAMAR.timetable_data response = Ok TT ->
  W = n \/ W = n + 1 ->
  lacks_week TT ("W" ++ Str.of_nat W) ->
  KAMAR.returned (KAMAR.getTimeTable eq10 E this c) = Rejected type_error.
Proof.
  intros Hw Hn Hf HT HW HL.
  rewrite (getTimeTable_issues eq10 E this c n Hw Hn).
  cbn [KAMAR.returned]. rewrite Hf.
  unfold then_catch, KAMAR.timetable_cb.
  destruct HW as [HW|HW]; subst W.
  - rewrite <- (Nat.add_0_r n) in HL.
    now rewrite (getTimetableForWeek_lacks _ _ n 0 HT HL).
  - destruct (KAMAR.getTimetableForWeek response n 0) as [wk|e] eqn:G;
      cbv beta iota delta [bind].
    + now rewrite (getTimetableForWeek_lacks _ _ n 1 HT HL).
    + f_equal. eapply getTimetableForWeek_throws; eassumption.
Qed.

(** Only [getAbsences] assigns to the instance: every other method hands
    it back as it got it. *)
Lemma methods_keep_session (toNumber : value -> value) (eq0 eq10 : value -> bool)
  (E : KAMAR.env) (s : KAMAR.session) (c : KAMAR.credentials)
  (userObj form query : value) :
  KAMAR.self (KAMAR.authenticate toNumber E s userObj) = s /\
  KAMAR.self (KAMAR.getAbsencesStatistics E s c) = s /\
  KAMAR.self (KAMAR.getTimeTable eq10 E s c) = s /\
  KAMAR.self (KAMAR.getCalendar eq0 E s) = s /\
  KAMAR.self (KAMAR.getDetails E s c) = s /\
  KAMAR.self (KAMAR.getResults eq0 E s c) = s /\
  KAMAR.self (KAMAR.searchStudents E s c query) = s /\
  KAMAR.self (KAMAR.getNCEASummary E s c) = s /\
  KAMAR.self (KAMAR.sendCommand E s form) = s.
Proof.
  repeat split.
  - unfold KAMAR.authenticate. now destruct (KAMAR.logon_form userObj).
  - unfold KAMAR.getTimeTable. now destruct (KAMAR.no_week (KAMAR.WkNo s)).
Qed.

(** And of the instance [getAbsences] assigns [WkNo] alone. *)
Lemma getAbsences_writes_WkNo (E : KAMAR.env) (s : KAMAR.session)
  (c : KAMAR.credentials) :
  KAMAR.self (KAMAR.getAbsences E s c) = s \/
  exists n, KAMAR.self (KAMAR.getAbsences E s c) = KAMAR.set_WkNo n s.
Proof.
  unfold KAMAR.getAbsences, then_catch_st.
  destruct (KAMAR.fetch E s (KAMAR.absences_form s c)); cbn [KAMAR.self]; auto.
  destruct (absences_cb_cases v s) as [[e H]|[H|[decoded H]]]; rewrite H;
    cbn [KAMAR.self]; eauto.
Qed.

(** C2, as the code has it.  The decoder splits the day's string on the
    bars, forces the array to exactly 8 slots and decodes slots 1..7 of
    it: slot [i] is piece [i] of the split string, or [undefined] where
    the string has no such piece, and pieces from index 8 on are dropped.
    Slots 1..7 all decode when the string holds at least seven bars, and
    the day then reads as its label and seven periods.  With fewer, a slot
    is [undefined], the decoding raises a TypeError, and [getTimeTable],
    whichever of its two weeks holds the string on a weekday 1..5, is
    rejected with that TypeError. *)
Theorem decode_day_slots (raw : string) (day : nat) :
  let slots := JS.set_length 8 (map VStr (Str.split "|" raw)) in
  List.length slots = 8 /\
  (forall i, i < 8 -> nth i slots VUndef = field (Str.split "|" raw) i) /\
  (7 <= Str.count "|" raw ->
   KAMAR.decode_day (VStr raw) day =
   Ok (VStr ("D-" ++ Str.of_nat day)
         :: map (fun p => period_of (Str.split "-" (nth p (Str.split "|" raw) "")))
              (seq 1 7))) /\
  (Str.count "|" raw < 7 ->
   KAMAR.decode_day (VStr raw) day = Throw type_error) /\
  KAMAR.decode_day (VStr raw) day
  = (periods <- mapM (fun period => KAMAR.decode_period (nth period slots VUndef))
                  (seq 1 7) ;;
     Ok (VStr ("D-" ++ Str.of_nat day) :: periods)) /\
  (forall (TT : value) (W : nat),
     KAMAR.day_string TT W day = Ok (VStr raw) ->
     (7 <= Str.count "|" raw ->
      KAMAR.HTMout_day TT W day =
      Ok (VStr ("D-" ++ Str.of_nat day)
            :: map (fun p => period_of (Str.split "-" (nth p (Str.split "|" raw) "")))
                 (seq 1 7))) /\
     (Str.count "|" raw < 7 ->
      KAMAR.HTMout_day TT W day = Throw type_error)) /\
  (Str.count "|" raw < 7 -> 1 <= day <= 5 ->
   forall (eq10 : value -> bool) (E : KAMAR.env) (this : KAMAR.session)
          (c : KAMAR.credentials) (n : nat) (response TT : value) (W : nat),
     KAMAR.WkNo this = Some n -> 1 <= n ->
     KAMAR.fetch E this (KAMAR.timetable_form eq10 this c) = Fulfilled response ->
     KAMAR.timetable_data response = Ok TT ->
     W = n \/ W = n + 1 ->
     KAMAR.day_string TT W day = Ok (VStr raw) ->
     KAMAR.returned (KAMAR.getTimeTable eq10 E this c) = Rejected type_error).
Proof.
  cbv zeta. split; [apply set_length_length|].
  split; [intros i Hi; now apply day_slot|].
  split; [apply decode_day_ok|].
  split; [apply decode_day_throw|].
  split; [reflexivity|].
  split.
  - intros TT W Hs. split; intros Hc.
    + now apply HTMout_day_full.
    + now apply (HTMout_day_short TT W day raw).
  - intros Hc Hday eq10 E this c n response TT W Hw Hn Hf HT HW Hs.
    exact (getTimeTable_short eq10 E this c n response TT W day raw
             Hw Hn Hf HT HW Hday Hs Hc).
Qed.

Lemma decode_day_slots_witness :
  KAMAR.decode_day (VStr "Mon|1-2-Eng-Ray-R1|||||||extra|more") 1
  = Ok [VStr "D-1";
        VObj [("subject", VStr "Eng"); ("location", VStr "R1"); ("teacher", VStr "Ray")];
        VObj [("subject", VUndef); ("location", VUndef); ("teacher", VUndef)];
        VObj [("subject", VUndef); ("location", VUndef); ("teacher", VUndef)];
        VObj [("subject", VUndef); ("location", VUndef); ("teacher", VUndef)];
        VObj [("subject", VUndef); ("location", VUndef); ("teacher", VUndef)];
        VObj [("subject", VUndef); ("location", VUndef); ("teacher", VUndef)];
        VObj [("subject", VUndef); ("location", VUndef); ("teacher", VUndef)]]
  /\ KAMAR.decode_day (VStr short_day) 2 = Throw type_error
  /\ KAMAR.returned
       (KAMAR.getTimeTable ten_text short_tuesday (KAMAR.set_WkNo 3 school) student15)
     = Rejected type_error.
Proof.
  pose proof (decode_day_slots "Mon|1-2-Eng-Ray-R1|||||||extra|more" 1) as H.
  pose proof (decode_day_slots short_day 2) as H'.
  cbv zeta in H, H'.
  destruct H as (_ & _ & Hok & _).
  destruct H' as (_ & _ & _ & Hthrow & _ & _ & Hreject).
  split; [|split].
  - apply Hok. simpl; lia.
  - apply Hthrow. simpl; lia.
  - apply (Hreject ltac:(simpl; lia) ltac:(lia) ten_text short_tuesday
             (KAMAR.set_WkNo 3 school) student15 3
             (school_timetable short_tuesday_weeks)
             (VArr [VObj short_tuesday_weeks]) 4).
    + reflexivity.
    + lia.
    + reflexivity.
    + reflexivity.
    + right; reflexivity.
    + reflexivity.
Defined.

(** C2 fails: a day string with a single bar gets its 8 slots, six of them
    holes, and its decoding raises instead of yielding periods. *)
Lemma decode_day_short_fails :
  List.length (JS.set_length 8 (map VStr (Str.split "|" "Mon|1-2-Eng-Ray-R1"))) = 8 /\
  nth 2 (JS.set_length 8 (map VStr (Str.split "|" "Mon|1-2-Eng-Ray-R1"))) VNull = VUndef /\
  KAMAR.decode_day (VStr "Mon|1-2-Eng-Ray-R1") 1 = Throw type_error.
Proof. repeat split. Qed.

(** C3.  After an attendance decode that succeeds on a response with the
    week entries [weeks], [WkNo] is their number N, and no other method
    assigns to the instance.  A following [getTimeTable] (N is at least 1:
    the deserializer lists the entries of a response only when there is
    one) sends its one form, the student's or the teacher's timetable
    command with the caller's key and the session's grid, reads of
    whatever comes back the weeks under the keys W<N> and W<N+1> of the
    timetable data, and fulfils with these two weeks tagged N and N+1,
    leaving [WkNo] alone. *)
Theorem week_index_then_timetable (E : KAMAR.env) (this : KAMAR.session)
  (c : KAMAR.credentials) (response : value) (weeks : list value) (a : value) :
  KAMAR.fetch E this (KAMAR.absences_form this c) = Fulfilled response ->
  attendance_weeks response = Ok (VArr weeks) ->
  KAMAR.returned (KAMAR.getAbsences E this c) = Fulfilled a ->
  KAMAR.self (KAMAR.getAbsences E this c) = KAMAR.set_WkNo (List.length weeks) this /\
  (exists decoded, a = VArr decoded /\ List.length decoded = List.length weeks) /\
  (forall (toNumber : value -> value) (eq0 eq10 : value -> bool) (E1 : KAMAR.env)
          (s : KAMAR.session) (c1 : KAMAR.credentials) (userObj form query : value),
     KAMAR.self (KAMAR.authenticate toNumber E1 s userObj) = s /\
     KAMAR.self (KAMAR.getAbsencesStatistics E1 s c1) = s /\
     KAMAR.self (KAMAR.getTimeTable eq10 E1 s c1) = s /\
     KAMAR.self (KAMAR.getCalendar eq0 E1 s) = s /\
     KAMAR.self (KAMAR.getDetails E1 s c1) = s /\
     KAMAR.self (KAMAR.getResults eq0 E1 s c1) = s /\
     KAMAR.self (KAMAR.searchStudents E1 s c1 query) = s /\
     KAMAR.self (KAMAR.getNCEASummary E1 s c1) = s /\
     KAMAR.self (KAMAR.sendCommand E1 s form) = s /\
     (KAMAR.self (KAMAR.getAbsences E1 s c1) = s \/
      exists n, KAMAR.self (KAMAR.getAbsences E1 s c1) = KAMAR.set_WkNo n s)) /\
  (1 <= List.length weeks ->
   forall (eq10 : value -> bool) (E' : KAMAR.env) (c' : KAMAR.credentials)
          (response' TT : value) (A B : week_strings),
     let N := List.length weeks in
     let this' := KAMAR.self (KAMAR.getAbsences E this c) in
     KAMAR.fetch E' this' (KAMAR.timetable_form eq10 this' c') = Fulfilled response' ->
     KAMAR.timetable_data response' = Ok TT ->
     holds_week TT ("W" ++ Str.of_nat N) A ->
     holds_week TT ("W" ++ Str.of_nat (N + 1)) B ->
     full_days A -> full_days B ->
     (exists file,
         KAMAR.issued (KAMAR.getTimeTable eq10 E' this' c') = [file] /\
         file = KAMAR.timetable_form eq10 this' c' /\
         (prop file "Command" = VStr "GetStudentTimetable" \/
          prop file "Command" = VStr "GetTeacherTimetable") /\
         prop file "Key" = KAMAR.key c' /\
         prop file "Grid" = KAMAR.TT this) /\
     KAMAR.returned (KAMAR.getTimeTable eq10 E' this' c')
     = Fulfilled (VObj [("thisWk", week_of N A); ("nextWk", week_of (N + 1) B)]) /\
     KAMAR.self (KAMAR.getTimeTable eq10 E' this' c') = this').
Proof.
  intros Hf Hw Hret.
  assert (Hself : KAMAR.self (KAMAR.getAbsences E this c)
                  = KAMAR.set_WkNo (List.length weeks) this /\
                  exists decoded, a = VArr decoded /\
                                  List.length decoded = List.length weeks).
  { unfold KAMAR.getAbsences in *. rewrite Hf in *.
    unfold then_catch_st in *. rewrite (absences_cb_weeks _ _ _ Hw) in *.
    destruct (mapM KAMAR.decode_week weeks) as [Absences|e] eqn:HA;
      cbv beta iota delta [bind] in *; cbn [KAMAR.returned KAMAR.self] in *;
      [|discriminate Hret].
    pose proof (mapM_length _ _ _ HA) as HL.
    inversion Hret; subst a; clear Hret.
    rewrite HL. split; [reflexivity|now exists Absences]. }
  destruct Hself as (Hself & Hdec).
  split; [exact Hself|]. split; [exact Hdec|]. split.
  - intros toNumber eq0 eq10 E1 s c1 userObj form query.
    destruct (methods_keep_session toNumber eq0 eq10 E1 s c1 userObj form query)
      as (M1 & M2 & M3 & M4 & M5 & M6 & M7 & M8 & M9).
    repeat (split; [assumption|]).
    apply getAbsences_writes_WkNo.
  - intros HN eq10 E' c' response' TT A B. cbv zeta. rewrite Hself.
    set (N := List.length weeks) in *.
    intros Hf' HT HA' HB' FA FB.
    assert (HWk : KAMAR.WkNo (KAMAR.set_WkNo N this) = Some N) by reflexivity.
    split; [|split].
    + exists (KAMAR.timetable_form eq10 (KAMAR.set_WkNo N this) c').
      rewrite (getTimeTable_issues eq10 E' _ c' N HWk HN).
      split; [reflexivity|]. split; [reflexivity|].
      exact (timetable_form_fields eq10 (KAMAR.set_WkNo N this) c').
    + exact (getTimeTable_weeks eq10 E' _ c' N response' TT A B
               HWk HN Hf' HT HA' HB' FA FB).
    + now rewrite (getTimeTable_issues eq10 E' _ c' N HWk HN).
Qed.

(** The scenario of the specification: three attendance weeks, then weeks
    3 and 4 of a timetable that lists weeks 2 to 5. *)
Lemma week_index_then_timetable_witness :
  KAMAR.WkNo (KAMAR.self (KAMAR.getAbsences three_weeks_listed school student15))
  = Some 3 /\
  KAMAR.returned
    (KAMAR.getTimeTable ten_text three_weeks_listed
       (KAMAR.self (KAMAR.getAbsences three_weeks_listed school student15)) student15)
  = Fulfilled (VObj [("thisWk", week_of 3 (every_day maths_day));
                     ("nextWk", week_of 4 (every_day art_day))]).
Proof.
  destruct (week_index_then_timetable three_weeks_listed school student15
              (attendance_doc [short_week; short_week; short_week])
              [short_week; short_week; short_week] _ eq_refl eq_refl eq_refl)
    as (Hself & _ & _ & Htt).
  split.
  - rewrite Hself. reflexivity.
  - refine (proj1 (proj2 (Htt _ ten_text three_weeks_listed student15
                            (school_timetable listed_weeks)
                            (VArr [VObj listed_weeks])
                            (every_day maths_day) (every_day art_day)
                            eq_refl eq_refl _ _ _ _))).
    + simpl; lia.
    + apply (listed_week_holds _ _ "3"). reflexivity.
    + apply (listed_week_holds _ _ "4"). reflexivity.
    + repeat split; simpl; lia.
    + repeat split; simpl; lia.
Defined.

(** At the edge the model has and no response shows, an empty array of
    week entries, the decode stores 0 and [getTimeTable] refuses as it
    does for an absent [WkNo]. *)
Example no_week_entries_no_timetable :
  KAMAR.returned (KAMAR.getAbsences no_weeks school student15) = Fulfilled (VArr []) /\
  KAMAR.WkNo (KAMAR.self (KAMAR.getAbsences no_weeks school student15)) = Some 0 /\
  KAMAR.returned
    (KAMAR.getTimeTable ten_text no_weeks
       (KAMAR.self (KAMAR.getAbsences no_weeks school student15)) student15)
  = Rejected (VError "Error" KAMAR.must_fetch_absences) /\
  KAMAR.issued
    (KAMAR.getTimeTable ten_text no_weeks
       (KAMAR.self (KAMAR.getAbsences no_weeks school student15)) student15)
  = [].
Proof. repeat split. Qed.

(** ** The vCard *)

Lemma count_app (ch : ascii) (a b : string) :
  Str.count ch (a ++ b) = Str.count ch a + Str.count ch b.
Proof.
  induction a as [|x a IH]; simpl; [reflexivity|]. rewrite IH. lia.
Qed.

Lemma count_join (ch : ascii) (lines : list string) :
  lines <> [] ->
  Str.count ch (Str.join (Str.chr ch) lines)
  = (List.length lines - 1) + list_sum (map (Str.count ch) lines).
Proof.
  induction lines as [|l ls IH]; intros Hne; [congruence|].
  destruct ls as [|l' ls].
  - simpl. lia.
  - change (Str.join (Str.chr ch) (l :: l' :: ls))
      with (l ++ String ch (Str.join (Str.chr ch) (l' :: ls)))%string.
    rewrite count_app. cbn [Str.count]. rewrite Ascii.eqb_refl.
    rewrite IH by discriminate. simpl. lia.
Qed.

Lemma escaped_no_line_feed (addr : string) : Str.count Str.LF (escaped addr) = 0.
Proof.
  unfold escaped. induction addr as [|x addr IH]; simpl; [reflexivity|].
  destruct (Ascii.eqb x Str.LF) eqn:Hx.
  - simpl. exact IH.
  - simpl. rewrite Hx. exact IH.
Qed.

Lemma has_count (ch : ascii) (s : string) :
  Str.count ch s = 0 -> Str.has ch s = false.
Proof.
  induction s as [|x s IH]; simpl; [reflexivity|].
  destruct (Ascii.eqb x ch); simpl; [discriminate|exact IH].
Qed.

(** C10, as the code has it.  For the record [d] decoded from a student
    whose home address is a string, the exporter yields the join by line
    feeds of exactly 16 entries, whose leading words are BEGIN, VERSION, N,
    NICKNAME, FN, ORG, GENDER, TITLE, PHOTO, TEL, ADR, EMAIL, REV, BDAY,
    NOTE, END in this order.  The ADR entry carries the address twice, each
    line feed of it replaced by backslash-n, and holds no line feed; the
    text holds 15 line feeds plus those inside the entries. *)
Theorem vcard_sixteen_lines (E : KAMAR.env) (this : KAMAR.session)
  (c : KAMAR.credentials) (student d : value) (addr : string) :
  KAMAR.details student = Ok d ->
  KAMAR.leaf student "HomeAddress" = Ok (VStr addr) ->
  exists lines,
    KAMAR.vcard_lines E this c d = Ok lines /\
    KAMAR.makevCardFromDetails E this c d = Ok (Str.join (Str.chr Str.LF) lines) /\
    List.length lines = 16 /\
    map tag lines = card_tags /\
    nth 10 lines ""
    = "ADR;TYPE=home;home=" ++ String Str.DQUOTE (escaped addr)
        ++ String Str.DQUOTE (":;;" ++ escaped addr) /\
    Str.has Str.LF (nth 10 lines "") = false /\
    Str.count Str.LF (Str.join (Str.chr Str.LF) lines)
    = 15 + list_sum (map (Str.count Str.LF) lines).
Proof.
  intros Hd Haddr. unfold KAMAR.details in Hd. bind_ok Hd.
  inversion Haddr; subst; clear Haddr.
  inversion Hd; subst d; clear Hd.
  eexists. split; [reflexivity|].
  split; [reflexivity|].
  split; [reflexivity|].
  split; [reflexivity|].
  split; [reflexivity|].
  split.
  - apply has_count. cbn [nth].
    change (Str.count Str.LF
              (("ADR;TYPE=home;home=" ++ Str.chr Str.DQUOTE) ++ escaped addr
                 ++ (Str.chr Str.DQUOTE ++ ":;;") ++ escaped addr) = 0).
    rewrite !count_app, !escaped_no_line_feed. reflexivity.
  - rewrite count_join by discriminate. reflexivity.
Qed.

Lemma vcard_sixteen_lines_witness :
  exists lines,
    KAMAR.vcard_lines (answering VNull) school student15 sample_details = Ok lines /\
    KAMAR.makevCardFromDetails (answering VNull) school student15 sample_details
    = Ok (Str.join (Str.chr Str.LF) lines) /\
    List.length lines = 16 /\
    map tag lines = card_tags /\
    nth 10 lines ""
    = "ADR;TYPE=home;home=" ++ String Str.DQUOTE (escaped two_line_address)
        ++ String Str.DQUOTE (":;;" ++ escaped two_line_address) /\
    Str.has Str.LF (nth 10 lines "") = false /\
    Str.count Str.LF (Str.join (Str.chr Str.LF) lines)
    = 15 + list_sum (map (Str.count Str.LF) lines).
Proof.
  apply (vcard_sixteen_lines (answering VNull) school student15 sample_student).
  - reflexivity.
  - reflexivity.
Defined.

(** C10 fails: the card of the sample record, whose fields hold no line
    feed once the address is escaped, has 16 lines, not 13 to 15. *)
Lemma vcard_has_sixteen_lines :
  exists out,
    KAMAR.makevCardFromDetails (answering VNull) school student15 sample_details
    = Ok out /\
    List.length (Str.split Str.LF out) = 16.
Proof. eexists. split; reflexivity. Qed.

(** * Further properties of the class *)

(** ** The constructor *)

Lemma prop_of_nullish (v : value) (k : string) : nullish v = true -> prop v k = VUndef.
Proof. destruct v; simpl; intros H; try discriminate; reflexivity. Qed.

Lemma truthy_prop (v : value) (k : string) :
  JS.truthy (prop v k) = true -> nullish v = false.
Proof.
  destruct (nullish v) eqn:Hn; [|reflexivity].
  rewrite (prop_of_nullish _ _ Hn). discriminate.
Qed.

(** X1.  The constructor returns a session exactly when [options] and
    [options.portal] are truthy, and throws its error otherwise.  The
    session it returns has no week number; without [TT] its grid is the text
    of its year followed by TT, and without [year] its year is the current
    one. *)
Theorem constructor_outcomes (E : KAMAR.env) (options : value) :
  (JS.truthy options = false ->
   KAMAR.constructor E options = Throw (VError "Error" "No options provided")) /\
  (JS.truthy options = true -> JS.truthy (prop options "portal") = false ->
   KAMAR.constructor E options
   = Throw (VError "Error"
              "portal URL must be provided. e.g. `remote.takapuna.school.nz` ")) /\
  (JS.truthy options = true -> JS.truthy (prop options "portal") = true ->
   exists this,
     KAMAR.constructor E options = Ok this /\
     KAMAR.portal this = prop options "portal" /\
     KAMAR.WkNo this = None /\
     (JS.truthy (prop options "year") = true -> KAMAR.year this = prop options "year") /\
     (JS.truthy (prop options "year") = false ->
      KAMAR.year this = VNum (KAMAR.fullYear E)) /\
     (JS.truthy (prop options "TT") = true -> KAMAR.TT this = prop options "TT") /\
     (JS.truthy (prop options "TT") = false ->
      KAMAR.TT this = VStr (JS.to_string (KAMAR.year this) ++ "TT"))).
Proof.
  unfold KAMAR.constructor. repeat apply conj.
  - intros ->. reflexivity.
  - intros Ht Hp. rewrite Ht. cbn [negb].
    rewrite (get_prop _ _ (truthy_not_nullish _ Ht)). cbv beta iota delta [bind].
    now rewrite Hp.
  - intros Ht Hp. rewrite Ht. cbn [negb].
    rewrite !(get_prop _ _ (truthy_not_nullish _ Ht)). cbv beta iota zeta delta [bind].
    rewrite Hp. cbn [negb].
    eexists. split; [reflexivity|]. cbn [KAMAR.portal KAMAR.WkNo KAMAR.year KAMAR.TT].
    unfold JS.or, KAMAR.cat.
    repeat split; intros H; rewrite H; reflexivity.
Qed.

Lemma constructor_outcomes_witness :
  KAMAR.constructor (answering VNull) VUndef
  = Throw (VError "Error" "No options provided") /\
  KAMAR.constructor (answering VNull) (VObj [("year", VNum 2024)])
  = Throw (VError "Error"
             "portal URL must be provided. e.g. `remote.takapuna.school.nz` ") /\
  exists this,
    KAMAR.constructor (answering VNull) (VObj [("portal", VStr "school.example")])
    = Ok this /\
    KAMAR.year this = VNum 2024 /\ KAMAR.TT this = VStr "2024TT".
Proof.
  split; [exact (proj1 (constructor_outcomes (answering VNull) VUndef) eq_refl)|].
  split;
    [exact (proj1 (proj2 (constructor_outcomes (answering VNull)
                            (VObj [("year", VNum 2024)]))) eq_refl eq_refl)|].
  destruct (proj2 (proj2 (constructor_outcomes (answering VNull)
                            (VObj [("portal", VStr "school.example")])))
              eq_refl eq_refl)
    as (this & Hc & _ & _ & _ & Hy & _ & Ht).
  exists this. split; [exact Hc|].
  pose proof (Hy eq_refl) as Hy'. pose proof (Ht eq_refl) as Ht'.
  split; [exact Hy'|]. rewrite Ht', Hy'. reflexivity.
Defined.

(** ** fetch *)

(** What [check_error] amounts to when it does not raise. *)
Lemma check_error_ok (result : value) (settle : promise -> promise) :
  KAMAR.check_error result = Ok settle ->
  exists ks body e,
    JS.keys result = Ok ks /\
    JS.get result (hd "undefined" ks) = Ok body /\
    JS.get body "Error" = Ok e /\
    ((JS.truthy e = false /\ settle = (fun p => p)) \/
     (JS.truthy e = true /\
      exists e0 ec c0,
        JS.idx e 0 = Ok e0 /\ JS.get body "ErrorCode" = Ok ec /\ JS.idx ec 0 = Ok c0 /\
        settle = reject (VObj [("error", e0); ("code", c0)]))).
Proof.
  unfold KAMAR.check_error. intros H.
  destruct (JS.keys result) as [ks|]; [|discriminate H].
  cbv beta iota zeta delta [bind] in H.
  destruct (JS.get result (hd "undefined" ks)) as [body|] eqn:Hb; [|discriminate H].
  destruct (JS.get body "Error") as [e|] eqn:He; [|discriminate H].
  exists ks, body, e.
  split; [reflexivity|]. split; [exact Hb|]. split; [exact He|].
  destruct (JS.truthy e).
  - right. split; [reflexivity|].
    destruct (JS.idx e 0) as [e0|] eqn:He0; [|discriminate H].
    destruct (JS.get body "ErrorCode") as [ec|] eqn:Hec; [|discriminate H].
    destruct (JS.idx ec 0) as [c0|] eqn:Hc0; [|discriminate H].
    exists e0, ec, c0. inversion H. repeat split; assumption.
  - left. inversion H. auto.
Qed.

Lemma check_error_keeps (result : value) (settle : promise -> promise) (e : value) :
  KAMAR.check_error result = Ok settle -> settle (Rejected e) = Rejected e.
Proof.
  intros H. destruct (check_error_ok _ _ H) as (ks & body & x & _ & _ & _ & [[_ ->]|[_ H']]).
  - reflexivity.
  - destruct H' as (e0 & ec & c0 & _ & _ & _ & ->). reflexivity.
Qed.

Lemma on_parsed_rejected (err result e : value) :
  KAMAR.on_parsed err result (Rejected e) = Rejected e.
Proof.
  unfold KAMAR.on_parsed.
  assert (Hp : (if JS.truthy err then reject err (Rejected e) else Rejected e) = Rejected e)
    by (destruct (JS.truthy err); reflexivity).
  rewrite Hp. destruct (KAMAR.check_error result) as [settle|] eqn:Hc; [|reflexivity].
  now rewrite (check_error_keeps _ _ _ Hc).
Qed.

(** X2.  The first error reported wins: with a transport error the promise
    of [fetch] is rejected with it, and with a parser error alone it is
    rejected with that one, whatever document came with them. *)
Theorem fetch_first_error (E : KAMAR.env) (this : KAMAR.session) (form : value) :
  (JS.truthy (KAMAR.req_err (KAMAR.wire E (KAMAR.request_options this form))) = true ->
   KAMAR.fetch E this form
   = Rejected (KAMAR.req_err (KAMAR.wire E (KAMAR.request_options this form)))) /\
  (JS.truthy (KAMAR.req_err (KAMAR.wire E (KAMAR.request_options this form))) = false ->
   JS.truthy (KAMAR.parse_err (KAMAR.wire E (KAMAR.request_options this form))) = true ->
   KAMAR.fetch E this form
   = Rejected (KAMAR.parse_err (KAMAR.wire E (KAMAR.request_options this form)))).
Proof.
  unfold KAMAR.fetch, KAMAR.on_response. split.
  - intros ->. cbn [reject]. apply on_parsed_rejected.
  - intros -> Hp. unfold KAMAR.on_parsed. rewrite Hp. cbn [reject].
    destruct (KAMAR.check_error _) as [settle|] eqn:Hc; [|reflexivity].
    now rewrite (check_error_keeps _ _ _ Hc).
Qed.

Lemma fetch_first_error_witness :
  KAMAR.fetch (unreachable error_with_code) school (VObj [("Command", VStr "Logon")])
  = Rejected (VError "Error" "ECONNREFUSED") /\
  KAMAR.fetch garbled school (VObj [("Command", VStr "Logon")])
  = Rejected (VError "Error" "Unexpected close tag").
Proof.
  split.
  - exact (proj1 (fetch_first_error (unreachable error_with_code) school _) eq_refl).
  - exact (proj2 (fetch_first_error garbled school _) eq_refl eq_refl).
Defined.

Lemma fetch_fulfilled (E : KAMAR.env) (this : KAMAR.session) (form v : value) :
  KAMAR.fetch E this form = Fulfilled v ->
  v = KAMAR.parsed (KAMAR.wire E (KAMAR.request_options this form)) /\
  JS.truthy (KAMAR.req_err (KAMAR.wire E (KAMAR.request_options this form))) = false /\
  JS.truthy (KAMAR.parse_err (KAMAR.wire E (KAMAR.request_options this form))) = false /\
  exists ks body e,
    JS.keys v = Ok ks /\
    JS.get v (hd "undefined" ks) = Ok body /\
    JS.get body "Error" = Ok e /\
    JS.truthy e = false.
Proof.
  unfold KAMAR.fetch, KAMAR.on_response.
  set (r := KAMAR.wire E (KAMAR.request_options this form)).
  destruct (JS.truthy (KAMAR.req_err r)) eqn:Hreq.
  { cbn [reject]. rewrite on_parsed_rejected. discriminate. }
  unfold KAMAR.on_parsed.
  destruct (JS.truthy (KAMAR.parse_err r)) eqn:Hparse.
  { cbn [reject]. destruct (KAMAR.check_error _) as [settle|] eqn:Hc; [|discriminate].
    rewrite (check_error_keeps _ _ _ Hc). discriminate. }
  destruct (KAMAR.check_error (KAMAR.parsed r)) as [settle|] eqn:Hc; [|discriminate].
  destruct (check_error_ok _ _ Hc) as (ks & body & e & Hk & Hb & He & [[Ht ->]|[_ H']]).
  - cbn [resolve]. intros Hv; inversion Hv; subst v.
    repeat split; auto. exists ks, body, e. auto.
  - destruct H' as (e0 & ec & c0 & _ & _ & _ & ->). discriminate.
Qed.

(** X3.  [fetch] never hands over a document that reports an error: when
    its promise is fulfilled, neither the transport nor the parser reported
    one, the value is the parsed document itself, and the [Error] field
    under the document's first key is absent or falsy. *)
Theorem fetch_fulfils_clean (E : KAMAR.env) (this : KAMAR.session) (form v : value) :
  KAMAR.fetch E this form = Fulfilled v ->
  v = KAMAR.parsed (KAMAR.wire E (KAMAR.request_options this form)) /\
  JS.truthy (KAMAR.req_err (KAMAR.wire E (KAMAR.request_options this form))) = false /\
  JS.truthy (KAMAR.parse_err (KAMAR.wire E (KAMAR.request_options this form))) = false /\
  exists ks body e,
    JS.keys v = Ok ks /\
    JS.get v (hd "undefined" ks) = Ok body /\
    JS.get body "Error" = Ok e /\
    JS.truthy e = false.
Proof. apply fetch_fulfilled. Qed.

Lemma fetch_fulfils_clean_witness :
  ncea_doc
  = KAMAR.parsed (KAMAR.wire (answering ncea_doc)
                    (KAMAR.request_options school (KAMAR.summary_form student15))) /\
  exists ks body e,
    JS.keys ncea_doc = Ok ks /\
    JS.get ncea_doc (hd "undefined" ks) = Ok body /\
    JS.get body "Error" = Ok e /\
    JS.truthy e = false.
Proof.
  destruct (fetch_fulfils_clean (answering ncea_doc) school
              (KAMAR.summary_form student15) ncea_doc eq_refl)
    as (H1 & _ & _ & H2).
  split; assumption.
Defined.

(** ** authenticate *)

Lemma logon_form_reads (userObj form : value) :
  KAMAR.logon_form userObj = Ok form ->
  nullish userObj = false /\
  form = VObj [("Command", VStr "Logon"); ("Key", VStr "vtku");
               ("Username", prop userObj "username");
               ("Password", prop userObj "password")].
Proof.
  unfold KAMAR.logon_form. intros H.
  destruct (nullish userObj) eqn:Hn.
  - destruct userObj; simpl in *; discriminate.
  - rewrite !(get_prop _ _ Hn) in H. simpl in H. inversion H. auto.
Qed.

(** X4.  A logon the remote end accepts: when the document's
    [LogonResults.Success[0]] equals YES and a [Key] is there, the promise
    of [authenticate] is fulfilled with the user's own name, [Key[0]] and
    the number of [LogonLevel], after exactly one Logon form under the key
    vtku. *)
Theorem authenticate_accepted (toNumber : value -> value) (E : KAMAR.env)
  (this : KAMAR.session) (userObj form result lr : value) :
  KAMAR.logon_form userObj = Ok form ->
  KAMAR.fetch E this form = Fulfilled result ->
  JS.get result "LogonResults" = Ok lr ->
  JS.truthy (prop lr "Success") = true ->
  KAMAR.eq_text (first (prop lr "Success")) "YES" = true ->
  nullish (prop lr "Key") = false ->
  KAMAR.returned (KAMAR.authenticate toNumber E this userObj)
  = Fulfilled (VObj [("username", prop userObj "username");
                     ("key", first (prop lr "Key"));
                     ("authLevel", toNumber (prop lr "LogonLevel"))]) /\
  KAMAR.issued (KAMAR.authenticate toNumber E this userObj)
  = [VObj [("Command", VStr "Logon"); ("Key", VStr "vtku");
           ("Username", prop userObj "username");
           ("Password", prop userObj "password")]] /\
  KAMAR.self (KAMAR.authenticate toNumber E this userObj) = this.
Proof.
  intros Hform Hf Hlr Hs Hyes Hk.
  destruct (logon_form_reads _ _ Hform) as [Hn Hshape].
  unfold KAMAR.authenticate. rewrite Hform.
  cbn [KAMAR.returned KAMAR.issued KAMAR.self].
  split; [|split; [now rewrite Hshape|reflexivity]].
  rewrite Hf. unfold then_catch, KAMAR.logon_cb.
  rewrite Hlr. cbv beta iota delta [bind].
  pose proof (truthy_prop _ _ Hs) as Hlrn.
  rewrite !(get_prop _ _ Hlrn), Hs.
  rewrite (idx_first _ (truthy_not_nullish _ Hs)), Hyes.
  rewrite (get_prop _ _ Hn), (idx_first _ Hk). reflexivity.
Qed.

Lemma authenticate_accepted_witness :
  KAMAR.returned
    (KAMAR.authenticate number_of_text (answering logon_accepted) school teacher_login)
  = Fulfilled (VObj [("username", VStr "SMI"); ("key", VStr "k3y");
                     ("authLevel", VNum 10)]).
Proof.
  exact (proj1 (authenticate_accepted number_of_text (answering logon_accepted) school
                  teacher_login _ logon_accepted _
                  eq_refl eq_refl eq_refl eq_refl eq_refl eq_refl)).
Defined.

Lemma falsy_first (e : value) :
  JS.truthy e = false ->
  JS.idx e 0 = Throw type_error \/ JS.idx e 0 = Ok VUndef.
Proof.
  destruct e; simpl; intros H; try discriminate; auto.
  right. destruct s; [reflexivity|discriminate].
Qed.

(** X5.  A logon the remote end refuses without an error pair: when
    [fetch] hands over a document whose first key is [LogonResults] and
    whose [Success[0]] is not YES, the promise of [authenticate] is
    rejected, and never with a message of the remote end: the reason is a
    TypeError or [undefined], because [fetch] only hands over documents
    whose [Error] is absent or falsy. *)
Theorem authenticate_refused (toNumber : value -> value) (E : KAMAR.env)
  (this : KAMAR.session) (userObj form lr : value) (rest : list (string * value)) :
  KAMAR.logon_form userObj = Ok form ->
  KAMAR.fetch E this form = Fulfilled (VObj (("LogonResults", lr) :: rest)) ->
  JS.truthy (prop lr "Success") = false \/
  KAMAR.eq_text (first (prop lr "Success")) "YES" = false ->
  KAMAR.returned (KAMAR.authenticate toNumber E this userObj) = Rejected type_error \/
  KAMAR.returned (KAMAR.authenticate toNumber E this userObj) = Rejected VUndef.
Proof.
  intros Hform Hf Hno.
  destruct (fetch_fulfilled _ _ _ _ Hf) as (_ & _ & _ & ks & body & e & Hk & Hb & He & Ht).
  inversion Hk; subst ks; clear Hk. cbn [map fst hd] in Hb.
  rewrite get_first_key in Hb. inversion Hb; subst body; clear Hb.
  pose proof (get_ok_not_nullish _ _ _ He) as Hn.
  unfold KAMAR.authenticate. rewrite Hform. cbn [KAMAR.returned].
  rewrite Hf. unfold then_catch, KAMAR.logon_cb.
  rewrite get_first_key. cbv beta iota delta [bind].
  rewrite (get_prop _ _ Hn).
  assert (Hyes : (if JS.truthy (prop lr "Success")
                  then match JS.idx (prop lr "Success") 0 with
                       | Ok a => Ok (KAMAR.eq_text a "YES")
                       | Throw e0 => Throw e0
                       end
                  else Ok false) = Ok false).
  { destruct (JS.truthy (prop lr "Success")) eqn:Hs; [|reflexivity].
    rewrite (idx_first _ (truthy_not_nullish _ Hs)).
    destruct Hno as [Hno|Hno]; [discriminate|now rewrite Hno]. }
  rewrite Hyes, He.
  destruct (falsy_first _ Ht) as [Hi|Hi]; rewrite Hi; auto.
Qed.

Lemma authenticate_refused_witness :
  KAMAR.returned
    (KAMAR.authenticate number_of_text (answering logon_refused) school teacher_login)
  = Rejected type_error \/
  KAMAR.returned
    (KAMAR.authenticate number_of_text (answering logon_refused) school teacher_login)
  = Rejected VUndef.
Proof.
  refine (authenticate_refused number_of_text (answering logon_refused) school
            teacher_login _ _ [] eq_refl eq_refl _).
  right. reflexivity.
Defined.

(** ** getAbsences *)


Lemma absences_cb_no_weeks (response sar wks : value) (this : KAMAR.session) :
  JS.get response "StudentAttendanceResults" = Ok sar ->
  JS.get sar "Weeks" = Ok wks ->
  JS.truthy wks = false ->
  KAMAR.absences_cb response this
  = Ok (KAMAR.set_WkNo 1 this, reject KAMAR.no_absences).
Proof.
  intros Hs Hw Ht. unfold KAMAR.absences_cb.
  destruct (JS.truthy response) eqn:Tr.
  - rewrite Hs. cbv beta iota delta [bind].
    destruct (JS.truthy sar) eqn:Ts.
    + rewrite Hw. cbv beta iota delta [bind]. now rewrite Ht.
    + cbv beta iota delta [bind]. now rewrite Ts.
  - cbv beta iota delta [bind]. rewrite Tr. cbv beta iota delta [bind]. now rewrite Tr.
Qed.

(** X7.  The default week.  On a response without [Weeks], [getAbsences]
    stores week 1 and rejects with "No Absences setup, assuming week 1";
    the session is usable all the same: a following [getTimeTable] reads,
    of whatever timetable response comes back, the weeks under W1 and W2
    and fulfils with them, tagged 1 and 2. *)
Theorem absences_default_week (E : KAMAR.env) (this : KAMAR.session)
  (c : KAMAR.credentials) (response sar wks : value) :
  KAMAR.fetch E this (KAMAR.absences_form this c) = Fulfilled response ->
  JS.get response "StudentAttendanceResults" = Ok sar ->
  JS.get sar "Weeks" = Ok wks ->
  JS.truthy wks = false ->
  KAMAR.self (KAMAR.getAbsences E this c) = KAMAR.set_WkNo 1 this /\
  KAMAR.returned (KAMAR.getAbsences E this c) = Rejected KAMAR.no_absences /\
  forall (eq10 : value -> bool) (E' : KAMAR.env) (c' : KAMAR.credentials)
         (response' TT : value) (A B : week_strings),
    KAMAR.fetch E' (KAMAR.set_WkNo 1 this)
      (KAMAR.timetable_form eq10 (KAMAR.set_WkNo 1 this) c') = Fulfilled response' ->
    KAMAR.timetable_data response' = Ok TT ->
    holds_week TT "W1" A ->
    holds_week TT "W2" B ->
    full_days A -> full_days B ->
    KAMAR.returned (KAMAR.getTimeTable eq10 E' (KAMAR.set_WkNo 1 this) c')
    = Fulfilled (VObj [("thisWk", week_of 1 A); ("nextWk", week_of 2 B)]).
Proof.
  intros Hf Hs Hw Ht.
  unfold KAMAR.getAbsences, then_catch_st. rewrite Hf.
  rewrite (absences_cb_no_weeks _ _ _ _ Hs Hw Ht).
  cbn [KAMAR.self KAMAR.returned reject].
  split; [reflexivity|]. split; [reflexivity|].
  intros eq10 E' c' response' TT A B Hf' HT HA HB FA FB.
  apply (getTimeTable_weeks eq10 E' (KAMAR.set_WkNo 1 this) c' 1 response' TT A B);
    auto.
Qed.

Lemma absences_default_week_witness :
  KAMAR.WkNo (KAMAR.self (KAMAR.getAbsences no_attendance school student15)) = Some 1 /\
  KAMAR.returned (KAMAR.getAbsences no_attendance school student15)
  = Rejected KAMAR.no_absences /\
  KAMAR.returned
    (KAMAR.getTimeTable ten_text no_attendance (KAMAR.set_WkNo 1 school) student15)
  = Fulfilled (VObj [("thisWk", week_of 1 (every_day maths_day));
                     ("nextWk", week_of 2 (every_day art_day))]).
Proof.
  destruct (absences_default_week no_attendance school student15 _ _ VUndef
              eq_refl eq_refl eq_refl eq_refl) as (Hs & Hr & Ht).
  split; [now rewrite Hs|]. split; [exact Hr|].
  apply (Ht ten_text no_attendance student15 (school_timetable first_weeks)
            (VArr [VObj first_weeks]) (every_day maths_day) (every_day art_day)).
  - reflexivity.
  - reflexivity.
  - apply (listed_week_holds _ _ "1"). reflexivity.
  - apply (listed_week_holds _ _ "2"). reflexivity.
  - repeat split; simpl; lia.
  - repeat split; simpl; lia.
Defined.

(** ** The shape of a decoded week *)

(** A status: a string of at most 7 characters. *)
Lemma day_status_short (d st : value) :
  KAMAR.day_status d = Ok st ->
  exists s, st = VStr s /\ String.length s <= 7.
Proof.
  unfold KAMAR.day_status. intros H.
  destruct (JS.get d "_") as [t|]; [|discriminate H].
  cbv beta iota delta [bind] in H.
  destruct (JS.or t (VStr "----------")); simpl in H; try discriminate H.
  inversion H. eexists. split; [reflexivity|].
  rewrite substring0_length. apply Nat.le_min_l.
Qed.

Lemma set_field_all (P : string * value -> Prop) (k : string) (v : value)
  (fs : list (string * value)) :
  P (k, v) -> Forall P fs -> Forall P (JS.set_field k v fs).
Proof.
  intros Hp Hall. induction Hall as [|[k' v'] fs Hx Hfs IH]; simpl.
  - now constructor.
  - destruct (String.eqb k k'); constructor; assumption.
Qed.

Lemma fill_days_all (P : string * value -> Prop) (ds : list value) :
  (forall k d st, KAMAR.day_status d = Ok st -> P (k, st)) ->
  forall (j : nat) (entry entry' : list (string * value)),
    KAMAR.fill_days j ds entry = Ok entry' ->
    Forall P entry -> Forall P entry'.
Proof.
  intros Hp. induction ds as [|d ds IH]; simpl; intros j entry entry' H Hall.
  - now inversion H; subst.
  - destruct (KAMAR.day_status d) as [st|] eqn:Hst; simpl in H; [|discriminate].
    apply (IH _ _ _ H). apply set_field_all; [|assumption].
    now apply (Hp _ d).
Qed.

(** X8.  The shape of a decoded week.  Its fields are, in order, [$] and
    the names Mon, Tue, ... of its day slots; slots beyond the fifth all
    land in one field named undefined.  Every field but [$] holds a string
    of at most 7 characters. *)
Theorem decode_week_shape (w : value) (entry : list (string * value))
  (ds : list value) :
  KAMAR.decode_week w = Ok (VObj entry) ->
  week_days w = Ok (VArr ds) ->
  map fst entry = week_keys (List.length ds) /\
  forall k v, In (k, v) entry -> k <> "$" ->
    exists s, v = VStr s /\ String.length s <= 7.
Proof.
  intros Hw Hd.
  unfold week_days in Hd.
  destruct (JS.get w "Days") as [dd|] eqn:Hdd; [|discriminate Hd].
  cbv beta iota delta [bind] in Hd.
  destruct (JS.idx dd 0) as [d0|] eqn:Hd0; [|discriminate Hd].
  unfold KAMAR.decode_week in Hw.
  destruct (JS.get w "WeekStart") as [ws|]; [|discriminate Hw].
  cbv beta iota delta [bind] in Hw.
  destruct (JS.idx ws 0) as [ws0|]; [|discriminate Hw].
  rewrite Hdd, Hd0, Hd in Hw. cbn [elements] in Hw.
  destruct (KAMAR.fill_days 0 ds [("$", ws0)]) as [e|] eqn:Hfill; [|discriminate Hw].
  inversion Hw; subst entry; clear Hw.
  split.
  - apply (fill_days_keys _ _ _ _ Hfill). reflexivity.
  - intros k v Hin Hk.
    assert (Hall : Forall (fun kv => fst kv <> "$" ->
                                     exists s, snd kv = VStr s /\ String.length s <= 7) e).
    { apply (fill_days_all _ ds) with (j := 0) (entry := [("$", ws0)]).
      - intros k' d st Hst _. now apply (day_status_short d).
      - exact Hfill.
      - constructor; [|constructor]. simpl. congruence. }
    rewrite Forall_forall in Hall. exact (Hall _ Hin Hk).
Qed.

Lemma decode_week_shape_witness :
  exists entry,
    KAMAR.decode_week long_week = Ok (VObj entry) /\
    map fst entry = ["$"; "Mon"; "Tue"; "Wed"; "Thu"; "Fri"; "undefined"] /\
    forall k v, In (k, v) entry -> k <> "$" ->
      exists s, v = VStr s /\ String.length s <= 7.
Proof.
  eexists. split; [reflexivity|].
  exact (decode_week_shape long_week _ _ eq_refl eq_refl).
Defined.

(** ** getAbsencesStatistics *)

(** X9.  Absence statistics.  The promise is rejected with "No Absence
    Records" exactly when [NumberRecords] is absent or falsy, whatever else
    the response holds; a count that is there, the text 0 included, does
    not reject: the promise then takes the first student, or the TypeError
    of reading it. *)
Theorem absence_stats_outcomes (E : KAMAR.env) (this : KAMAR.session)
  (c : KAMAR.credentials) (response n : value) :
  KAMAR.fetch E this (KAMAR.stats_form this c) = Fulfilled response ->
  KAMAR.stats_records response = Ok n ->
  (JS.truthy n = false ->
   KAMAR.returned (KAMAR.getAbsencesStatistics E this c)
   = Rejected KAMAR.no_absence_records) /\
  (JS.truthy n = true ->
   KAMAR.returned (KAMAR.getAbsencesStatistics E this c)
   = match KAMAR.stats_student response with
     | Ok student => Fulfilled student
     | Throw e => Rejected e
     end).
Proof.
  intros Hf Hn. unfold KAMAR.getAbsencesStatistics. cbn [KAMAR.returned].
  rewrite Hf. unfold KAMAR.then_catch_run, KAMAR.stats_cb. rewrite Hn.
  split; intros Ht; rewrite Ht; cbn [negb];
    destruct (KAMAR.stats_student response); reflexivity.
Qed.

Lemma absence_stats_outcomes_witness :
  KAMAR.returned
    (KAMAR.getAbsencesStatistics (answering (stats_of [])) school student15)
  = Rejected KAMAR.no_absence_records /\
  KAMAR.returned
    (KAMAR.getAbsencesStatistics
       (answering (stats_of [("NumberRecords", VArr [VStr "0"])])) school student15)
  = Fulfilled (VObj [("StudentID", VArr [VStr "15999"])]).
Proof.
  split.
  - exact (proj1 (absence_stats_outcomes (answering (stats_of [])) school student15
                    _ VUndef eq_refl eq_refl) eq_refl).
  - exact (proj2 (absence_stats_outcomes
                    (answering (stats_of [("NumberRecords", VArr [VStr "0"])]))
                    school student15 _ (VArr [VStr "0"]) eq_refl eq_refl) eq_refl).
Defined.

(** ** getTimeTable: both weeks or none *)

(** X10.  Both weeks or none.  With a week number N of at least 1, if the
    timetable data of the response has nothing under the key W<N>, or
    holds a full week there but nothing under W<N+1>, the promise of
    [getTimeTable] is rejected with a TypeError: this week is not
    delivered without the next. *)
Theorem timetable_both_weeks_or_none (eq10 : value -> bool) (E : KAMAR.env)
  (this : KAMAR.session) (c : KAMAR.credentials) (n : nat)
  (response TT : value) (A : week_strings) :
  KAMAR.WkNo this = Some n -> 1 <= n ->
  KAMAR.fetch E this (KAMAR.timetable_form eq10 this c) = Fulfilled response ->
  KAMAR.timetable_data response = Ok TT ->
  lacks_week TT ("W" ++ Str.of_nat n) \/
  (holds_week TT ("W" ++ Str.of_nat n) A /\ full_days A /\
   lacks_week TT ("W" ++ Str.of_nat (n + 1))) ->
  KAMAR.returned (KAMAR.getTimeTable eq10 E this c) = Rejected type_error.
Proof.
  intros Hw Hn Hf HT Hcase.
  destruct Hcase as [H0|(HA & FA & H1)].
  - apply (getTimeTable_lacks eq10 E this c n response TT n); auto.
  - apply (getTimeTable_lacks eq10 E this c n response TT (n + 1)); auto.
Qed.

Lemma timetable_both_weeks_or_none_witness :
  KAMAR.returned
    (KAMAR.getTimeTable ten_text (answering (school_timetable last_week))
       (KAMAR.set_WkNo 3 school) student15)
  = Rejected type_error.
Proof.
  apply (timetable_both_weeks_or_none ten_text _ _ _ 3
           (school_timetable last_week) (VArr [VObj last_week])
           (every_day maths_day)).
  - reflexivity.
  - lia.
  - reflexivity.
  - reflexivity.
  - right. split; [apply (listed_week_holds _ _ "3"); reflexivity|].
    split; [repeat split; simpl; lia|].
    apply missing_key_lacks. reflexivity.
Defined.

(** ** searchStudents *)




(** ** getCalendar *)

(** X12.  The error code of a calendar comes first.  When [ErrorCode[0]]
    cannot be read the promise is rejected with the TypeError; when it is
    not 0 the promise is rejected with the code itself, days or no days;
    only a code of 0 lets the decoded days through. *)
Theorem calendar_code_first (eq0 : value -> bool) (E : KAMAR.env)
  (this : KAMAR.session) (response : value) :
  KAMAR.fetch E this (KAMAR.calendar_form this) = Fulfilled response ->
  (forall e, KAMAR.calendar_code response = Throw e ->
     KAMAR.returned (KAMAR.getCalendar eq0 E this) = Rejected e) /\
  (forall code, KAMAR.calendar_code response = Ok code -> eq0 code = false ->
     KAMAR.returned (KAMAR.getCalendar eq0 E this) = Rejected code) /\
  (forall code, KAMAR.calendar_code response = Ok code -> eq0 code = true ->
     KAMAR.returned (KAMAR.getCalendar eq0 E this)
     = match KAMAR.decode_calendar response with
       | Ok resp => Fulfilled resp
       | Throw e => Rejected e
       end).
Proof.
  intros Hf. unfold KAMAR.getCalendar. cbn [KAMAR.returned]. rewrite Hf.
  unfold KAMAR.then_catch_run, KAMAR.calendar_cb.
  repeat apply conj.
  - intros e ->. reflexivity.
  - intros code -> ->. cbn [negb]. destruct (KAMAR.decode_calendar response); reflexivity.
  - intros code -> ->. cbn [negb]. destruct (KAMAR.decode_calendar response); reflexivity.
Qed.

Lemma calendar_code_first_witness :
  KAMAR.returned
    (KAMAR.getCalendar zero_text (answering (calendar_doc "7" term_days)) school)
  = Rejected (VStr "7") /\
  KAMAR.returned
    (KAMAR.getCalendar zero_text
       (answering (VObj [("CalendarResults", VObj [("Days", VArr [])])])) school)
  = Rejected type_error.
Proof.
  split.
  - exact (proj1 (proj2 (calendar_code_first zero_text
                           (answering (calendar_doc "7" term_days)) school _ eq_refl))
             (VStr "7") eq_refl eq_refl).
  - exact (proj1 (calendar_code_first zero_text
                    (answering (VObj [("CalendarResults", VObj [("Days", VArr [])])]))
                    school _ eq_refl)
             type_error eq_refl).
Defined.

Lemma find_in_app {A : Type} (p : A -> bool) (l1 l2 : list A) :
  find p (l1 ++ l2)%list
  = match find p l1 with
    | Some x => Some x
    | None => find p l2
    end.
Proof.
  induction l1 as [|a l1 IH]; simpl; [reflexivity|].
  destruct (p a); [reflexivity|exact IH].
Qed.

Ltac read_back :=
  repeat match goal with
         | H : ?l = Ok _ |- context [?l] => rewrite H
         end.

Lemma calendar_entry_record (d e : value) :
  KAMAR.calendar_entry d = Ok e -> e = day_record d.
Proof.
  unfold KAMAR.calendar_entry. intros H. bind_ok H. inversion H; subst e.
  unfold day_record, prop, first. read_back. reflexivity.
Qed.

Lemma fill_calendar_lookup (days : list value) :
  forall (resp resp' : list (string * value)) (key : string),
    KAMAR.fill_calendar days resp = Ok resp' ->
    match find (dated key) (rev days) with
    | Some d => JS.assoc key resp' = day_record d
    | None => JS.assoc key resp' = JS.assoc key resp
    end.
Proof.
  induction days as [|d ds IH]; intros resp resp' key H.
  - simpl in *. now inversion H.
  - cbn [KAMAR.fill_calendar] in H.
    destruct (JS.get d "Date") as [date|] eqn:Hdate; [|discriminate H].
    cbv beta iota delta [bind] in H.
    destruct (KAMAR.calendar_entry d) as [e|] eqn:He; [|discriminate H].
    specialize (IH _ _ key H).
    cbn [rev]. rewrite find_in_app.
    destruct (find (dated key) (rev ds)) as [d'|]; [exact IH|].
    cbn [find]. unfold dated at 1, prop. rewrite Hdate.
    destruct (String.eqb (JS.to_string date) key) eqn:Hk.
    + apply String.eqb_eq in Hk. rewrite IH, <- Hk, assoc_set_same.
      now apply calendar_entry_record.
    + rewrite IH. apply assoc_set_other.
      intros Heq. apply String.eqb_neq in Hk. congruence.
Qed.

(** X13.  Looking a date up in a decoded calendar.  The calendar holds,
    under the text of a date, the record of the last day of the response
    that carries this date (an earlier day of the same date is replaced),
    with status = [Status[0]] and with [TTday], [term] and [week] taken
    from [DayTT[0]], [Term[0]] and [Week[0]], [undefined] where those are
    empty; a date no day carries is not in the calendar. *)
Theorem calendar_last_day_wins (response : value) (days : list value)
  (resp : list (string * value)) (key : string) :
  KAMAR.calendar_days response = Ok (VArr days) ->
  KAMAR.decode_calendar response = Ok (VObj resp) ->
  match find (dated key) (rev days) with
  | Some d => JS.assoc key resp = day_record d
  | None => JS.assoc key resp = VUndef
  end.
Proof.
  intros Hd H. unfold KAMAR.decode_calendar in H. rewrite Hd in H.
  cbv beta iota delta [bind] in H. cbn [elements] in H.
  destruct (KAMAR.fill_calendar days []) as [r|] eqn:Hfill; [|discriminate H].
  inversion H; subst r.
  exact (fill_calendar_lookup _ _ _ key Hfill).
Qed.

Lemma calendar_last_day_wins_witness :
  exists resp,
    KAMAR.decode_calendar (calendar_doc "0" term_days) = Ok (VObj resp) /\
    JS.assoc "2024-02-05" resp
    = VObj [("status", VStr "Closed"); ("TTday", VUndef); ("term", VStr "1");
            ("week", VStr "2")] /\
    JS.assoc "2024-02-07" resp = VUndef.
Proof.
  eexists. split; [reflexivity|]. split.
  - exact (calendar_last_day_wins (calendar_doc "0" term_days) term_days _
             "2024-02-05" eq_refl eq_refl).
  - exact (calendar_last_day_wins (calendar_doc "0" term_days) term_days _
             "2024-02-07" eq_refl eq_refl).
Defined.

(** ** getResults *)

Lemma prop_object (fs : list (string * value)) (k : string) :
  prop (VObj fs) k = JS.assoc k fs.
Proof. reflexivity. Qed.

Lemma decode_result_shape (eq0 : value -> bool) (level r : value)
  (x : value * list (list value)) :
  KAMAR.decode_result eq0 level r = Ok x ->
  prop (fst x) "title" = first (prop r "Title") /\
  KAMAR.colourGrade (first (prop r "Grade")) = Ok (prop (fst x) "grade", snd x).
Proof.
  unfold KAMAR.decode_result. intros H. bind_ok H. inversion H; subst x.
  cbn [fst snd]. rewrite !prop_object. simpl (JS.assoc _ _).
  unfold prop, first. read_back.
  split; [reflexivity|]. now rewrite <- surjective_pairing.
Qed.

Lemma decode_records_nth (eq0 : value -> bool) (level : value) (rs : list value) :
  forall (x : list value * list (list value)),
    KAMAR.decode_records eq0 level rs = Ok x ->
    List.length (fst x) = List.length rs /\
    forall i r, nth_error rs i = Some r ->
      exists y, KAMAR.decode_result eq0 level r = Ok y /\
                nth_error (fst x) i = Some (fst y).
Proof.
  induction rs as [|r0 rs IH]; intros x H.
  - inversion H; subst x. split; [reflexivity|]. intros [|i] r Hn; discriminate.
  - cbn [KAMAR.decode_records] in H.
    destruct (KAMAR.decode_result eq0 level r0) as [y0|] eqn:Hy; [|discriminate H].
    cbv beta iota delta [bind] in H.
    destruct (KAMAR.decode_records eq0 level rs) as [xs|]; [|discriminate H].
    inversion H; subst x. cbn [fst]. destruct (IH _ eq_refl) as [Hl Hn].
    split; [simpl; now rewrite Hl|].
    intros [|i] r Hr; simpl in Hr.
    + inversion Hr; subst r0. exists y0. auto.
    + exact (Hn _ _ Hr).
Qed.

Lemma decode_levels_nth (eq0 : value -> bool) (levels : list value) :
  forall (x : (list value * list value) * list (list value)),
    KAMAR.decode_levels eq0 levels = Ok x ->
    List.length (fst (fst x)) = List.length levels /\
    List.length (snd (fst x)) = List.length levels /\
    forall h lvl, nth_error levels h = Some lvl ->
      exists y, KAMAR.decode_level eq0 lvl = Ok y /\
                nth_error (fst (fst x)) h = Some (fst (fst y)) /\
                nth_error (snd (fst x)) h = Some (snd (fst y)).
Proof.
  induction levels as [|l0 levels IH]; intros x H.
  - inversion H; subst x. repeat split. intros [|h] lvl Hn; discriminate.
  - cbn [KAMAR.decode_levels] in H.
    destruct (KAMAR.decode_level eq0 l0) as [y0|] eqn:Hy; [|discriminate H].
    cbv beta iota delta [bind] in H.
    destruct (KAMAR.decode_levels eq0 levels) as [xs|]; [|discriminate H].
    inversion H; subst x. cbn [fst snd]. destruct (IH _ eq_refl) as (Hl1 & Hl2 & Hn).
    split; [simpl; now rewrite Hl1|]. split; [simpl; now rewrite Hl2|].
    intros [|h] lvl Hr; simpl in Hr.
    + inversion Hr; subst l0. exists y0. auto.
    + exact (Hn _ _ Hr).
Qed.

(** X14.  Results by level.  In a decoded result set the arrays [ncea] and
    [results] have one entry per level of the response, in its order:
    [ncea[h]] tells whether the level's [NCEALevel] is not 0, and
    [results[h]] has one record per result of that level, record [i] with
    the title of result [i] and, as grade, the pair [colourGrade] yields
    for its grade text. *)
Theorem results_by_level (eq0 : value -> bool) (response : value)
  (levels : list value) (out : value) (lg : list (list value)) :
  KAMAR.result_levels response = Ok (VArr levels) ->
  KAMAR.decode_results eq0 response = Ok (out, lg) ->
  exists ncea results,
    out = VObj [("ncea", VArr ncea); ("results", VArr results)] /\
    List.length ncea = List.length levels /\
    List.length results = List.length levels /\
    forall h lvl, nth_error levels h = Some lvl ->
      nth_error ncea h = Some (VBool (negb (eq0 (prop lvl "NCEALevel")))) /\
      exists recs,
        nth_error results h = Some (VArr recs) /\
        forall rs, KAMAR.level_results lvl = Ok (VArr rs) ->
          List.length recs = List.length rs /\
          forall i r, nth_error rs i = Some r ->
            exists rec l,
              nth_error recs i = Some rec /\
              prop rec "title" = first (prop r "Title") /\
              KAMAR.colourGrade (first (prop r "Grade")) = Ok (prop rec "grade", l).
Proof.
  intros HL H. unfold KAMAR.decode_results in H. rewrite HL in H.
  cbv beta iota delta [bind] in H. cbn [elements] in H.
  destruct (KAMAR.decode_levels eq0 levels) as [x|] eqn:Hx; [|discriminate H].
  inversion H; subst out lg; clear H.
  destruct (decode_levels_nth _ _ _ Hx) as (Hl1 & Hl2 & Hn).
  exists (fst (fst x)), (snd (fst x)). repeat split; auto.
  - destruct (Hn _ _ H) as (y & Hy & Hn1 & _). rewrite Hn1.
    unfold KAMAR.decode_level in Hy. bind_ok Hy. inversion Hy; subst y.
    cbn [fst snd]. unfold prop. read_back. reflexivity.
  - destruct (Hn _ _ H) as (y & Hy & _ & Hn2).
    unfold KAMAR.decode_level in Hy.
    destruct (KAMAR.level_results lvl) as [Result|] eqn:HR; [|discriminate Hy].
    cbv beta iota delta [bind] in Hy.
    destruct (JS.get lvl "NCEALevel") as [level|]; [|discriminate Hy].
    destruct (elements Result) as [rs0|] eqn:Hrs; [|discriminate Hy].
    destruct (KAMAR.decode_records eq0 level rs0) as [z|] eqn:Hz; [|discriminate Hy].
    inversion Hy; subst y. cbn [fst snd] in Hn2.
    exists (fst z). split; [exact Hn2|].
    intros rs Heq. inversion Heq; subst Result. cbn [elements] in Hrs.
    inversion Hrs; subst rs0.
    destruct (decode_records_nth _ _ _ _ Hz) as [Hlen Hrec].
    split; [exact Hlen|].
    intros i r Hr. destruct (Hrec _ _ Hr) as (y & Hy' & Hnth).
    destruct (decode_result_shape _ _ _ _ Hy') as [Ht Hg].
    exists (fst y), (snd y). auto.
Qed.

Lemma results_by_level_witness :
  exists ncea results,
    fst sample_results = VObj [("ncea", VArr ncea); ("results", VArr results)] /\
    List.length ncea = 2 /\ List.length results = 2.
Proof.
  destruct (results_by_level zero_text (results_doc sample_levels) sample_levels
              (fst sample_results) (snd sample_results) eq_refl eq_refl)
    as (ncea & results & H1 & H2 & H3 & _).
  exists ncea, results. auto.
Defined.

(** ** getNCEASummary: the Merit cell of Total, and the tables *)

(** X15.  The Merit cell of the Total six-tuple is governed by the internal
    credits: it shows [CreditsTotal[0].Merit] only when
    [CreditsInternal[0].Merit] is truthy and is blank otherwise, whatever
    the total holds; and when [CreditsInternal] is absent while
    [CreditsTotal] is there, building the tuple raises a TypeError. *)
Theorem total_merit_follows_internal (student total t0 : value) :
  JS.get student "CreditsTotal" = Ok total ->
  JS.truthy total = true ->
  JS.idx total 0 = Ok t0 ->
  nullish t0 = false ->
  (forall internal i0,
      JS.get student "CreditsInternal" = Ok internal ->
      JS.idx internal 0 = Ok i0 -> nullish i0 = false ->
      KAMAR.credits_total student
      = Ok (VArr [shown (prop t0 "NotAchieved"); shown (prop t0 "Achieved");
                  (if JS.truthy (prop i0 "Merit") then prop t0 "Merit" else VStr "");
                  shown (prop t0 "Excellence"); shown (prop t0 "Total");
                  shown (prop t0 "Attempted")])) /\
  (forall internal,
      JS.get student "CreditsInternal" = Ok internal ->
      nullish internal = true ->
      KAMAR.credits_total student = Throw type_error).
Proof.
  intros Hg Ht Hi Hn. split.
  - intros internal i0 Hgi Hii Hni.
    unfold KAMAR.credits_total. rewrite Hg; cbv beta iota delta [bind].
    rewrite Ht, Hgi. rewrite !(credit_cell_shown total t0) by assumption.
    unfold KAMAR.credit_cell at 1. rewrite Hii, Hi.
    cbv beta iota delta [bind].
    rewrite (get_prop _ _ Hni), (get_prop _ _ Hn).
    destruct (JS.truthy (prop i0 "Merit")); reflexivity.
  - intros internal Hgi Hni.
    unfold KAMAR.credits_total. rewrite Hg; cbv beta iota delta [bind].
    rewrite Ht, Hgi. rewrite !(credit_cell_shown total t0) by assumption.
    unfold KAMAR.credit_cell at 1.
    destruct internal; try discriminate Hni; reflexivity.
Qed.

Lemma total_merit_follows_internal_witness :
  KAMAR.credits_total ncea_student
  = Ok (VArr [VArr [VStr "0"]; VArr [VStr "12"]; VStr ""; VStr "";
              VArr [VStr "16"]; VArr [VStr "16"]]) /\
  KAMAR.credits_total externals_only = Throw type_error.
Proof.
  split.
  - exact (proj1 (total_merit_follows_internal ncea_student _ _
                    eq_refl eq_refl eq_refl eq_refl) _ _ eq_refl eq_refl eq_refl).
  - exact (proj2 (total_merit_follows_internal externals_only _ _
                    eq_refl eq_refl eq_refl eq_refl) VUndef eq_refl eq_refl).
Defined.

Lemma tt_row_text (yt : string) (r : value) :
  JS.truthy r = true -> nullish (prop r yt) = false ->
  KAMAR.tt_row yt r = Ok (row_text yt r).
Proof.
  intros Hr Hl. unfold KAMAR.tt_row, row_text.
  rewrite (get_prop _ _ (truthy_not_nullish _ Hr)). cbv beta iota delta [bind].
  rewrite (idx_first _ Hl), (tt_cells_shown _ Hr). f_equal.
  now rewrite !append_assoc.
Qed.

(** X16.  A totals table.  When every row of the year (or level) totals
    is an object that carries its label, [tt] renders the table without
    failing: one [<tr>] per row, in order, each made of the label cell and
    the six credit cells, blank where the row lacks the field; no rows give
    the one empty [<tr></tr>]. *)
Theorem tt_table (student : value) (yt : string) (rows : list value) :
  totals student yt = Ok (VArr rows) ->
  Forall (fun r => JS.truthy r = true /\ nullish (prop r yt) = false) rows ->
  KAMAR.tt student yt
  = Ok ("<tr>" ++ Str.join "</tr><tr>" (map (row_text yt) rows) ++ "</tr>").
Proof.
  intros Ht Hall. unfold totals in Ht. unfold KAMAR.tt.
  destruct (JS.get student (yt ++ "Totals")) as [t|]; [|discriminate Ht].
  cbv beta iota delta [bind] in *.
  destruct (JS.idx t 0) as [t0|]; [|discriminate Ht].
  rewrite Ht. cbn [elements].
  rewrite (mapM_ok _ (row_text yt)); [reflexivity|].
  intros r Hin. rewrite Forall_forall in Hall.
  destruct (Hall _ Hin) as [Hr Hl]. now apply tt_row_text.
Qed.

Lemma tt_table_witness :
  KAMAR.tt ncea_student "Year"
  = Ok "<tr><td><strong>2024</strong></td><td>0</td><td>12</td><td></td><td></td><td></td><td></td></tr>"
  /\ KAMAR.tt (VObj [("LevelTotals", VArr [VObj [("LevelTotal", VArr [])]])]) "Level"
     = Ok "<tr></tr>".
Proof.
  split.
  - refine (tt_table ncea_student "Year" _ eq_refl _).
    repeat constructor.
  - refine (tt_table (VObj [("LevelTotals", VArr [VObj [("LevelTotal", VArr [])]])])
              "Level" [] eq_refl _).
    constructor.
Defined.

(** ** getDetails: every field or nothing *)

Lemma leaf_throws (student : value) (name : string) (e : value) :
  KAMAR.leaf student name = Throw e -> e = type_error.
Proof.
  unfold KAMAR.leaf. intros H.
  destruct (JS.get student name) as [x|] eqn:Hx.
  - cbv beta iota delta [bind] in H. destruct x; simpl in H; inversion H; reflexivity.
  - cbv beta iota delta [bind] in H. destruct student; simpl in Hx; try discriminate Hx;
      try (destruct (String.eqb name "length"); try discriminate Hx;
           match type of Hx with
           | context [JS.index_of_key ?k ?n] => destruct (JS.index_of_key k n)
           end; discriminate Hx);
      try (inversion Hx; inversion H; subst; reflexivity).
    destruct (String.eqb name "message"); [discriminate Hx|].
    destruct (String.eqb name "name"); discriminate Hx.
Qed.

(** X17.  Every field or nothing.  [getDetails] builds its record exactly
    when each of the 51 fields it reads is there in the student (an array,
    or anything else that can be indexed); if a single one is missing no
    record is built, and the failure is a TypeError. *)
Theorem details_every_field (student : value) :
  ((forall name, In name detail_fields -> exists v, KAMAR.leaf student name = Ok v)
   <-> exists d, KAMAR.details student = Ok d) /\
  (forall e, KAMAR.details student = Throw e -> e = type_error).
Proof.
  split; [split|].
  - intros Hall. unfold KAMAR.details.
    repeat match goal with
           | |- context [KAMAR.leaf student ?n] =>
               let v := fresh "v" in
               let Hv := fresh "Hv" in
               destruct (Hall n) as [v Hv];
               [unfold detail_fields; simpl; tauto|];
               rewrite Hv; cbv beta iota delta [bind]
           end.
    eexists. reflexivity.
  - intros [d Hd] name Hin. unfold KAMAR.details in Hd. bind_ok Hd.
    unfold detail_fields in Hin.
    repeat (destruct Hin as [<-|Hin]; [eexists; eassumption|]).
    contradiction.
  - intros e H. unfold KAMAR.details in H.
    cbv beta iota delta [bind] in H.
    repeat match type of H with
           | match ?m with Ok _ => _ | Throw _ => _ end = Throw _ =>
               let Hm := fresh "Hm" in
               destruct m eqn:Hm;
               [|inversion H; subst; exact (leaf_throws _ _ _ Hm)]
           end.
    discriminate H.
Qed.

Lemma details_every_field_witness :
  (exists d, KAMAR.details sample_student = Ok d) /\
  (exists e, KAMAR.details (VObj [("FirstName", VArr [VStr "Sam"])]) = Throw e /\
             e = type_error).
Proof.
  destruct (details_every_field sample_student) as [[Hto _] _].
  destruct (details_every_field (VObj [("FirstName", VArr [VStr "Sam"])])) as [_ Hthrow].
  split.
  - apply Hto. intros name Hin. unfold detail_fields in Hin.
    repeat (destruct Hin as [<-|Hin]; [eexists; reflexivity|]).
    contradiction.
  - exists type_error. split; [reflexivity|]. exact (Hthrow type_error eq_refl).
Defined.

(** ** Failures of dispatch *)

(** X18.  Failures of dispatch reach the caller as they are.
    [sendCommand] settles exactly as [fetch] does; and each method of the
    class that sends a form rejects with [e] when [fetch] rejects the form
    of that method with [e]; [getAbsences] then leaves the week number
    alone. *)
Theorem dispatch_failure_passes_through (toNumber : value -> value)
  (eq0 eq10 : value -> bool) (E : KAMAR.env) (this : KAMAR.session)
  (c : KAMAR.credentials) (e : value) :
  (forall form, KAMAR.returned (KAMAR.sendCommand E this form) = KAMAR.fetch E this form) /\
  (forall userObj form,
      KAMAR.logon_form userObj = Ok form ->
      KAMAR.fetch E this form = Rejected e ->
      KAMAR.returned (KAMAR.authenticate toNumber E this userObj) = Rejected e) /\
  (KAMAR.fetch E this (KAMAR.absences_form this c) = Rejected e ->
   KAMAR.getAbsences E this c
   = {| KAMAR.self := this; KAMAR.returned := Rejected e;
        KAMAR.issued := [KAMAR.absences_form this c] |}) /\
  (KAMAR.fetch E this (KAMAR.stats_form this c) = Rejected e ->
   KAMAR.returned (KAMAR.getAbsencesStatistics E this c) = Rejected e) /\
  (forall n, KAMAR.WkNo this = Some (S n) ->
     KAMAR.fetch E this (KAMAR.timetable_form eq10 this c) = Rejected e ->
     KAMAR.returned (KAMAR.getTimeTable eq10 E this c) = Rejected e) /\
  (KAMAR.fetch E this (KAMAR.calendar_form this) = Rejected e ->
   KAMAR.returned (KAMAR.getCalendar eq0 E this) = Rejected e) /\
  (KAMAR.fetch E this (KAMAR.details_form c) = Rejected e ->
   KAMAR.returned (KAMAR.getDetails E this c) = Rejected e) /\
  (KAMAR.fetch E this (KAMAR.results_form c) = Rejected e ->
   KAMAR.returned (KAMAR.getResults eq0 E this c) = Rejected e) /\
  (forall query,
      KAMAR.fetch E this (KAMAR.search_form c query) = Rejected e ->
      KAMAR.returned (KAMAR.searchStudents E this c query) = Rejected e) /\
  (KAMAR.fetch E this (KAMAR.summary_form c) = Rejected e ->
   KAMAR.returned (KAMAR.getNCEASummary E this c) = Rejected e).
Proof.
  repeat apply conj.
  - intros form. unfold KAMAR.sendCommand. cbn [KAMAR.returned].
    destruct (KAMAR.fetch E this form); reflexivity.
  - intros userObj form Hform Hf. unfold KAMAR.authenticate. rewrite Hform.
    cbn [KAMAR.returned]. now rewrite Hf.
  - intros Hf. unfold KAMAR.getAbsences, then_catch_st. now rewrite Hf.
  - intros Hf. unfold KAMAR.getAbsencesStatistics. cbn [KAMAR.returned].
    now rewrite Hf.
  - intros n Hw Hf. unfold KAMAR.getTimeTable. rewrite Hw.
    cbn [KAMAR.no_week Nat.eqb KAMAR.returned]. now rewrite Hf.
  - intros Hf. unfold KAMAR.getCalendar. cbn [KAMAR.returned]. now rewrite Hf.
  - intros Hf. unfold KAMAR.getDetails. cbn [KAMAR.returned]. now rewrite Hf.
  - intros Hf. unfold KAMAR.getResults. cbn [KAMAR.returned]. now rewrite Hf.
  - intros query Hf. unfold KAMAR.searchStudents. cbn [KAMAR.returned].
    now rewrite Hf.
  - intros Hf. unfold KAMAR.getNCEASummary. cbn [KAMAR.returned]. now rewrite Hf.
Qed.

Lemma dispatch_failure_passes_through_witness :
  KAMAR.getAbsences (unreachable ncea_doc) school student15
  = {| KAMAR.self := school;
       KAMAR.returned := Rejected (VError "Error" "ECONNREFUSED");
       KAMAR.issued := [KAMAR.absences_form school student15] |} /\
  KAMAR.returned
    (KAMAR.getTimeTable ten_text (unreachable ncea_doc) (KAMAR.set_WkNo 3 school)
       student15)
  = Rejected (VError "Error" "ECONNREFUSED") /\
  KAMAR.returned (KAMAR.getNCEASummary (unreachable ncea_doc) school student15)
  = Rejected (VError "Error" "ECONNREFUSED").
Proof.
  destruct (dispatch_failure_passes_through number_of_text zero_text ten_text
              (unreachable ncea_doc) school student15
              (VError "Error" "ECONNREFUSED"))
    as (_ & _ & Ha & _ & _ & _ & _ & _ & _ & Hs).
  destruct (dispatch_failure_passes_through number_of_text zero_text ten_text
              (unreachable ncea_doc) (KAMAR.set_WkNo 3 school) student15
              (VError "Error" "ECONNREFUSED"))
    as (_ & _ & _ & _ & Ht & _).
  split; [exact (Ha eq_refl)|].
  split; [exact (Ht 2 eq_refl eq_refl)|exact (Hs eq_refl)].
Defined.
